(** * Navigation tasks over the Habitat simulator

    A shallow embedding of [rl_habitat/habitat_tasks.py]: the three task
    classes [HabitatTask], [PointNavTask] and [ObjectNavTask], their reward
    shaping ([judge]), step protocol ([_step]), metrics aggregation, expert
    query and rendering.

    Python floats are IEEE binary64 numbers, modelled by Rocq's primitive
    floats, so that NaN, the infinities and rounding behave as in the program.
    The simulator, the sensors and the shortest-path follower are external
    collaborators: they are an interface ([HabitatEnvironment]) that every
    definition is generic in.  Python exceptions are explicit outcomes, and a
    method that mutates [self] returns the new task state next to its
    outcome (the mutations made before an exception is raised persist). *)

From Stdlib Require Import Floats ZArith Lia Ascii.
From stdpp Require Import base gmap strings list.

#[local] Set Warnings "-inexact-float,-register-all".

(** ** The Python runtime the tasks rely on *)

(** The exceptions the modelled code can raise. *)
Inductive exn : Type :=
| IndexError
| KeyError
| TypeError
| ValueError
| AssertionError
| NotImplementedError.

(** The outcome of a call: a returned value or a raised exception. *)
Inductive outcome (A : Type) : Type :=
| Returned (a : A)
| Raised (e : exn).
Arguments Returned {A} a.
Arguments Raised {A} e.

(** Dynamically typed values stored in the [info], metrics and [task_info]
    dictionaries. *)
Inductive py_value : Type :=
| PyNone
| PyBool (b : bool)
| PyInt (z : Z)
| PyFloat (f : float)
| PyStr (s : string)
| PyList (l : list py_value)
| PyDict (d : gmap string py_value).

Definition py_optional_bool (b : option bool) : py_value :=
  match b with
  | Some b => PyBool b
  | None => PyNone
  end.

Definition py_optional_int (z : option Z) : py_value :=
  match z with
  | Some z => PyInt z
  | None => PyNone
  end.

(** [seq[i]] on a tuple: negative indices count from the end, anything outside
    [-len, len) raises [IndexError]. *)
Definition py_getitem {A : Type} (l : list A) (i : Z) : outcome A :=
  let n := Z.of_nat (length l) in
  let j := if (i <? 0)%Z then (i + n)%Z else i in
  if ((0 <=? j)%Z && (j <? n)%Z)%bool then
    match l !! Z.to_nat j with
    | Some a => Returned a
    | None => Raised IndexError
    end
  else Raised IndexError.

(** [seq.index(x)] on a tuple of strings: the first position holding [x], or
    [ValueError]. *)
Fixpoint py_index (l : list string) (x : string) : outcome Z :=
  match l with
  | [] => Raised ValueError
  | y :: l' =>
      if String.eqb y x then Returned 0%Z
      else match py_index l' x with
           | Returned i => Returned (i + 1)%Z
           | Raised e => Raised e
           end
  end.

Fixpoint string_drop (n : nat) (s : string) : string :=
  match n, s with
  | O, _ => s
  | S n', String _ s' => string_drop n' s'
  | S _, EmptyString => EmptyString
  end.

Fixpoint string_take (n : nat) (s : string) : string :=
  match n, s with
  | S n', String c s' => String c (string_take n' s')
  | _, _ => EmptyString
  end.

(** One bound of a slice: a negative bound counts from the end, and the result
    is clipped to [0, len]. *)
Definition py_slice_bound (len i : Z) : Z :=
  let j := if (i <? 0)%Z then (i + len)%Z else i in
  Z.max 0 (Z.min len j).

(** [s[start:stop]] on a string. *)
Definition py_slice (s : string) (start stop : Z) : string :=
  let len := Z.of_nat (String.length s) in
  let lo := py_slice_bound len start in
  let hi := py_slice_bound len stop in
  string_take (Z.to_nat (hi - lo)) (string_drop (Z.to_nat lo) s).

(** [min(a, b)] on two floats: Python keeps the first argument unless the
    second compares strictly smaller. *)
Definition py_min (a b : float) : float :=
  if (b <? a)%float then b else a.

(** [min(a, b)] when [a] may be [None]: ordering [None] against a float
    raises [TypeError]. *)
Definition py_min_optional (a : option float) (b : float) : outcome float :=
  match a with
  | None => Raised TypeError
  | Some x => Returned (py_min x b)
  end.

(** [x is not None]. *)
Definition is_not_None {A : Type} (x : option A) : bool :=
  match x with
  | Some _ => true
  | None => false
  end.

(** [bool(x)] on an optional float: [None] and zero are false, everything
    else (NaN included) is true. *)
Definition py_bool (x : option float) : bool :=
  match x with
  | None => false
  | Some f => negb (f =? 0)%float
  end.

(** [x in [float('-inf'), float('inf')] or np.isnan(x)] on a float. *)
Definition is_inf_or_nan (x : float) : bool :=
  ((x =? neg_infinity)%float || (x =? infinity)%float || PrimFloat.is_nan x)%bool.

(** The validity guard the tasks apply to every distance reading:
    [if d is None or d in [-inf, inf] or np.isnan(d): d = fallback]. *)
Definition guarded_distance (d : option float) (fallback : float) : float :=
  match d with
  | None => fallback
  | Some x => if is_inf_or_nan x then fallback else x
  end.

(** [np.sum] on a list of floats.  NumPy is an external library, and the
    order in which it adds the elements depends on the length of the array
    (and on its version): the tasks are generic in the summation. *)
Class NumPy : Type := {
  np_sum : list float -> float
}.

(** The summation NumPy performs on an array of fewer than eight elements:
    from left to right, starting at zero. *)
Definition sequential_sum (l : list float) : float :=
  fold_left PrimFloat.add l 0%float.

(** ** Action names *)

(** Modelled from the spec: the action-name constants of
    [rl_habitat.habitat_constants], which is not part of the sources at hand.
    The spec names the actions [move_ahead], [rotate_left], [rotate_right],
    [end], [look_up] and [look_down]. *)
Definition MOVE_AHEAD : string := "move_ahead".
Definition ROTATE_LEFT : string := "rotate_left".
Definition ROTATE_RIGHT : string := "rotate_right".
Definition END : string := "end".
Definition LOOK_UP : string := "look_up".
Definition LOOK_DOWN : string := "look_down".

(** ** The simulator interface *)

(** What [env.env.get_metrics()] reports: both entries may be [None]. *)
Record HabitatMetrics : Type := {
  distance_to_goal : option float;
  spl : option float
}.

(** The episode a simulator is running. *)
Record Episode : Type := {
  scene_id : string;
  episode_id : string
}.

(** The [agent_position_and_rotation] observation: a 4-element array. *)
Record Pose : Type := {
  pos0 : float;
  pos1 : float;
  pos2 : float;
  pos3 : float
}.

(** [np.all(p == q)]: elementwise float equality. *)
Definition pose_all_eq (p q : Pose) : bool :=
  ((pos0 p =? pos0 q)%float && (pos1 p =? pos1 q)%float
   && (pos2 p =? pos2 q)%float && (pos3 p =? pos3 q)%float)%bool.

(** The collaborators reached through [self.env]: the Habitat environment, the
    sensors behind [get_observations] and the shortest-path follower built
    over the simulator.  [Env] is the state of all of them together. *)
Class HabitatEnvironment (Env : Type) : Type := {
  Frame : Type;
  Observation : Type;
  (** [env.step({"action": name})] *)
  env_step : string -> Env -> Env;
  (** [env.env.get_metrics()] *)
  get_metrics : Env -> HabitatMetrics;
  (** [env.env.episode_over] *)
  episode_over : Env -> bool;
  (** [env.last_action_success] *)
  env_last_action_success : Env -> bool;
  (** [env.current_frame["rgb"]] and [env.current_frame["depth"]] *)
  current_frame_rgb : Env -> Frame;
  current_frame_depth : Env -> Frame;
  (** [env.get_current_episode()] *)
  get_current_episode : Env -> Episode;
  (** [Task.get_observations()]: the sensors applied to the environment *)
  get_observations : Env -> Observation;
  (** [observations["agent_position_and_rotation"]] *)
  agent_position_and_rotation : Observation -> Pose;
  (** [ShortestPathFollower.get_next_action(target)] *)
  get_next_action : Env -> py_value -> option Z
}.

(** ** The base task *)

(** [RLStepResult] of [rl_base.common]. *)
Record RLStepResult (Obs : Type) : Type := {
  observation : Obs;
  reward : float;
  done : bool;
  info : gmap string py_value
}.
Arguments observation {Obs} r.
Arguments reward {Obs} r.
Arguments done {Obs} r.
Arguments info {Obs} r.

(** Modelled from the spec: [Task.is_done] of [rl_base.task], which is not
    part of the sources at hand.  The spec: done is true iff
    [took_end_action] is true, the step count reaches the configured maximum,
    or the simulator reports the episode over (the subclass hook
    [reached_terminal_state]). *)
Definition Task_is_done (took_end_action reached_terminal_state : bool)
    (num_steps_taken max_steps : nat) : bool :=
  (took_end_action || (max_steps <=? num_steps_taken)%nat
   || reached_terminal_state)%bool.

(** The calls a driver can make on a task, for statements about whole
    episodes: the base [step], the variant's [_step] called directly,
    [metrics], [query_expert] and [render]. *)
Inductive call : Type :=
| CallStep (action : Z)
| CallInnerStep (action : Z)
| CallMetrics
| CallQueryExpert
| CallRender (mode : string).

(** The reward a step outcome carries, if any. *)
Definition returned_reward {Obs : Type} (o : outcome (RLStepResult Obs))
    : list float :=
  match o with
  | Returned r => [reward r]
  | Raised _ => []
  end.

(** ** HabitatTask *)

Module HabitatTask.

(** The episode identifier computed by [HabitatTask.__init__]:
    [ep.scene_id[-15:-4] + "_" + ep.episode_id]. *)
Definition _episode_id (ep : Episode) : string :=
  py_slice (scene_id ep) (-15) (-4) +:+ "_" +:+ episode_id ep.

Section WithEnvironment.
Context {Env : Type} `{HabitatEnvironment Env}.

(** [HabitatTask.render], a function of the environment only. *)
Definition render (env : Env) (mode : string) : outcome Frame :=
  if String.eqb mode "rgb" then Returned (current_frame_rgb env)
  else if String.eqb mode "depth" then Returned (current_frame_depth env)
  else Raised NotImplementedError.

End WithEnvironment.
End HabitatTask.

(** ** PointNavTask *)

Module PointNav.
Section WithEnvironment.
Context {Env : Type} `{HabitatEnvironment Env} `{NumPy}.

Definition _actions : list string :=
  [MOVE_AHEAD; ROTATE_LEFT; ROTATE_RIGHT; END].

(** The attributes of a [PointNavTask].  [_num_steps_taken] and [max_steps]
    belong to the base [Task]; [last_action_success] is [None] until the
    first step assigns it. *)
Record Task : Type := {
  env : Env;
  task_info : gmap string py_value;
  max_steps : nat;
  _num_steps_taken : nat;
  last_action_success : option bool;
  _took_end_action : bool;
  _success : bool;
  last_geodesic_distance : float;
  _rewards : list float
}.

Definition set_env (e : Env) (t : Task) : Task :=
  {| env := e; task_info := task_info t; max_steps := max_steps t;
     _num_steps_taken := _num_steps_taken t;
     last_action_success := last_action_success t;
     _took_end_action := _took_end_action t; _success := _success t;
     last_geodesic_distance := last_geodesic_distance t;
     _rewards := _rewards t |}.

Definition set_num_steps_taken (n : nat) (t : Task) : Task :=
  {| env := env t; task_info := task_info t; max_steps := max_steps t;
     _num_steps_taken := n;
     last_action_success := last_action_success t;
     _took_end_action := _took_end_action t; _success := _success t;
     last_geodesic_distance := last_geodesic_distance t;
     _rewards := _rewards t |}.

Definition set_last_action_success (b : option bool) (t : Task) : Task :=
  {| env := env t; task_info := task_info t; max_steps := max_steps t;
     _num_steps_taken := _num_steps_taken t;
     last_action_success := b;
     _took_end_action := _took_end_action t; _success := _success t;
     last_geodesic_distance := last_geodesic_distance t;
     _rewards := _rewards t |}.

Definition set_took_end_action (b : bool) (t : Task) : Task :=
  {| env := env t; task_info := task_info t; max_steps := max_steps t;
     _num_steps_taken := _num_steps_taken t;
     last_action_success := last_action_success t;
     _took_end_action := b; _success := _success t;
     last_geodesic_distance := last_geodesic_distance t;
     _rewards := _rewards t |}.

Definition set_success (b : bool) (t : Task) : Task :=
  {| env := env t; task_info := task_info t; max_steps := max_steps t;
     _num_steps_taken := _num_steps_taken t;
     last_action_success := last_action_success t;
     _took_end_action := _took_end_action t; _success := b;
     last_geodesic_distance := last_geodesic_distance t;
     _rewards := _rewards t |}.

Definition set_last_geodesic_distance (d : float) (t : Task) : Task :=
  {| env := env t; task_info := task_info t; max_steps := max_steps t;
     _num_steps_taken := _num_steps_taken t;
     last_action_success := last_action_success t;
     _took_end_action := _took_end_action t; _success := _success t;
     last_geodesic_distance := d;
     _rewards := _rewards t |}.

Definition set_rewards (l : list float) (t : Task) : Task :=
  {| env := env t; task_info := task_info t; max_steps := max_steps t;
     _num_steps_taken := _num_steps_taken t;
     last_action_success := last_action_success t;
     _took_end_action := _took_end_action t; _success := _success t;
     last_geodesic_distance := last_geodesic_distance t;
     _rewards := l |}.

(** [PointNavTask.__init__]: the first distance reading is guarded with the
    fallback [0.0]. *)
Definition init (e : Env) (info : gmap string py_value) (max : nat) : Task :=
  {| env := e; task_info := info; max_steps := max;
     _num_steps_taken := 0;
     last_action_success := None;
     _took_end_action := false; _success := false;
     last_geodesic_distance :=
       guarded_distance (distance_to_goal (get_metrics e)) 0%float;
     _rewards := [] |}.

Definition action_names : list string := _actions.

(** [action_space]: [gym.spaces.Discrete(len(self._actions))], the indices
    0 to n - 1; the model keeps n. *)
Definition action_space : nat := length _actions.

Definition reached_terminal_state (t : Task) : bool :=
  episode_over (env t).

Definition is_done (t : Task) : bool :=
  Task_is_done (_took_end_action t) (reached_terminal_state t)
    (_num_steps_taken t) (max_steps t).

(** Modelled from the spec: [Task.num_steps_taken] of [rl_base.task], the
    count of steps the base class keeps. *)
Definition num_steps_taken (t : Task) : nat := _num_steps_taken t.

Definition _is_goal_in_range (t : Task) : bool :=
  py_bool (spl (get_metrics (env t))).

Definition judge (t : Task) : Task * float :=
  let reward := (-0.01)%float in
  let new_geodesic_distance :=
    guarded_distance (distance_to_goal (get_metrics (env t)))
      (last_geodesic_distance t) in
  let delta_distance_reward :=
    (last_geodesic_distance t - new_geodesic_distance)%float in
  let reward := (reward + delta_distance_reward)%float in
  let t := set_last_geodesic_distance new_geodesic_distance t in
  let reward :=
    if _took_end_action t
    then (reward + (if _success t then 10.0 else 0.0))%float
    else reward in
  (set_rewards (_rewards t ++ [reward]) t, reward).

Definition _step (t : Task) (action : Z)
    : Task * outcome (RLStepResult Observation) :=
  match py_getitem action_names action with
  | Raised e => (t, Raised e)
  | Returned action_str =>
      let t := set_env (env_step action_str (env t)) t in
      let t :=
        if String.eqb action_str END then
          let t := set_took_end_action true t in
          let t := set_success (_is_goal_in_range t) t in
          set_last_action_success (Some (_success t)) t
        else
          set_last_action_success
            (Some (env_last_action_success (env t))) t in
      let obs := get_observations (env t) in
      let '(t, r) := judge t in
      let d := is_done t in
      (t, Returned
            {| observation := obs; reward := r; done := d;
               info := {[ "last_action_success" :=
                            py_optional_bool (last_action_success t) ]} |})
  end.

(** Modelled from the spec: [Task.step] of [rl_base.task], the entry point
    the driver calls: it runs the variant's [_step] and counts the step. *)
Definition step (t : Task) (action : Z)
    : Task * outcome (RLStepResult Observation) :=
  match _step t action with
  | (t, Returned r) =>
      (set_num_steps_taken (S (_num_steps_taken t)) t, Returned r)
  | (t, Raised e) => (t, Raised e)
  end.

Definition render (t : Task) (mode : string) : outcome Frame :=
  if (String.eqb mode "rgb" || String.eqb mode "depth")%bool
  then Returned (current_frame_rgb (env t))
  else Raised AssertionError.

Definition metrics (t : Task) : Task * gmap string py_value :=
  if negb (is_done t) then (t, ∅)
  else
    let _metrics := get_metrics (env t) in
    let metrics : gmap string py_value :=
      <[ "success" := PyBool (_success t) ]>
      (<[ "ep_length" := PyInt (Z.of_nat (num_steps_taken t)) ]>
      (<[ "total_reward" := PyFloat (np_sum (_rewards t)) ]>
      (<[ "spl" := PyFloat (match spl _metrics with
                            | Some s => s
                            | None => 0.0%float
                            end) ]> ∅))) in
    (set_rewards [] t, metrics).

(** [query_expert] returns its result together with the log of the calls it
    made to the follower (the targets passed to [get_next_action]). *)
Definition query_expert (t : Task)
    : outcome (option Z * bool) * list py_value :=
  if _is_goal_in_range t then
    match py_index action_names END with
    | Returned i => (Returned (Some i, true), [])
    | Raised e => (Raised e, [])
    end
  else
    match task_info t !! "target" with
    | None => (Raised KeyError, [])
    | Some target =>
        let action := get_next_action (env t) target in
        (Returned (action, is_not_None action), [target])
    end.

(** The state after one call; [query_expert] and [render] only read. *)
Definition do_call (t : Task) (c : call) : Task :=
  match c with
  | CallStep a => fst (step t a)
  | CallInnerStep a => fst (_step t a)
  | CallMetrics => fst (metrics t)
  | CallQueryExpert => t
  | CallRender _ => t
  end.

Definition run (t : Task) (cs : list call) : Task :=
  fold_left do_call cs t.

(** A run that also keeps, on the side, the rewards the steps returned
    since the reward log was last drained by [metrics] on a finished
    episode. *)
Fixpoint run_pending (t : Task) (pending : list float) (cs : list call)
    : Task * list float :=
  match cs with
  | [] => (t, pending)
  | CallStep a :: cs' =>
      run_pending (fst (step t a))
        (pending ++ returned_reward (snd (step t a))) cs'
  | CallInnerStep a :: cs' =>
      run_pending (fst (_step t a))
        (pending ++ returned_reward (snd (_step t a))) cs'
  | CallMetrics :: cs' =>
      run_pending (fst (metrics t)) (if is_done t then [] else pending) cs'
  | _ :: cs' => run_pending t pending cs'
  end.

End WithEnvironment.
Arguments Task Env : clear implicits.
End PointNav.

(** ** ObjectNavTask *)

Module ObjectNav.
Section WithEnvironment.
Context {Env : Type} `{HabitatEnvironment Env} `{NumPy}.

Definition _actions : list string :=
  [MOVE_AHEAD; ROTATE_LEFT; ROTATE_RIGHT; END; LOOK_UP; LOOK_DOWN].

(** The attributes of an [ObjectNavTask]: those of the base [Task]
    ([_num_steps_taken], [max_steps]), those set by [HabitatTask.__init__]
    ([_last_action] to [_episode_id]) and its own. *)
Record Task : Type := {
  env : Env;
  task_info : gmap string py_value;
  max_steps : nat;
  _num_steps_taken : nat;
  _last_action : option string;
  _last_action_ind : option Z;
  _last_action_success : option bool;
  _actions_taken : list string;
  _positions : list py_value;
  _episode_id : string;
  _took_end_action : bool;
  _success : bool;
  last_geodesic_distance : float;
  _min_distance_to_goal : float;
  _num_invalid_actions : nat;
  _rewards : list float
}.

Definition set_env (x : Env) (t : Task) : Task :=
  {| env := x; task_info := task_info t; max_steps := max_steps t;
     _num_steps_taken := _num_steps_taken t;
     _last_action := _last_action t;
     _last_action_ind := _last_action_ind t;
     _last_action_success := _last_action_success t;
     _actions_taken := _actions_taken t; _positions := _positions t;
     _episode_id := _episode_id t; _took_end_action := _took_end_action t;
     _success := _success t;
     last_geodesic_distance := last_geodesic_distance t;
     _min_distance_to_goal := _min_distance_to_goal t;
     _num_invalid_actions := _num_invalid_actions t;
     _rewards := _rewards t |}.

Definition set_task_info (x : gmap string py_value) (t : Task) : Task :=
  {| env := env t; task_info := x; max_steps := max_steps t;
     _num_steps_taken := _num_steps_taken t;
     _last_action := _last_action t;
     _last_action_ind := _last_action_ind t;
     _last_action_success := _last_action_success t;
     _actions_taken := _actions_taken t; _positions := _positions t;
     _episode_id := _episode_id t; _took_end_action := _took_end_action t;
     _success := _success t;
     last_geodesic_distance := last_geodesic_distance t;
     _min_distance_to_goal := _min_distance_to_goal t;
     _num_invalid_actions := _num_invalid_actions t;
     _rewards := _rewards t |}.

Definition set_num_steps_taken (x : nat) (t : Task) : Task :=
  {| env := env t; task_info := task_info t; max_steps := max_steps t;
     _num_steps_taken := x; _last_action := _last_action t;
     _last_action_ind := _last_action_ind t;
     _last_action_success := _last_action_success t;
     _actions_taken := _actions_taken t; _positions := _positions t;
     _episode_id := _episode_id t; _took_end_action := _took_end_action t;
     _success := _success t;
     last_geodesic_distance := last_geodesic_distance t;
     _min_distance_to_goal := _min_distance_to_goal t;
     _num_invalid_actions := _num_invalid_actions t;
     _rewards := _rewards t |}.

Definition set_last_action (x : option string) (t : Task) : Task :=
  {| env := env t; task_info := task_info t; max_steps := max_steps t;
     _num_steps_taken := _num_steps_taken t; _last_action := x;
     _last_action_ind := _last_action_ind t;
     _last_action_success := _last_action_success t;
     _actions_taken := _actions_taken t; _positions := _positions t;
     _episode_id := _episode_id t; _took_end_action := _took_end_action t;
     _success := _success t;
     last_geodesic_distance := last_geodesic_distance t;
     _min_distance_to_goal := _min_distance_to_goal t;
     _num_invalid_actions := _num_invalid_actions t;
     _rewards := _rewards t |}.

Definition set_last_action_ind (x : option Z) (t : Task) : Task :=
  {| env := env t; task_info := task_info t; max_steps := max_steps t;
     _num_steps_taken := _num_steps_taken t;
     _last_action := _last_action t; _last_action_ind := x;
     _last_action_success := _last_action_success t;
     _actions_taken := _actions_taken t; _positions := _positions t;
     _episode_id := _episode_id t; _took_end_action := _took_end_action t;
     _success := _success t;
     last_geodesic_distance := last_geodesic_distance t;
     _min_distance_to_goal := _min_distance_to_goal t;
     _num_invalid_actions := _num_invalid_actions t;
     _rewards := _rewards t |}.

Definition set_last_action_success (x : option bool) (t : Task) : Task :=
  {| env := env t; task_info := task_info t; max_steps := max_steps t;
     _num_steps_taken := _num_steps_taken t;
     _last_action := _last_action t;
     _last_action_ind := _last_action_ind t; _last_action_success := x;
     _actions_taken := _actions_taken t; _positions := _positions t;
     _episode_id := _episode_id t; _took_end_action := _took_end_action t;
     _success := _success t;
     last_geodesic_distance := last_geodesic_distance t;
     _min_distance_to_goal := _min_distance_to_goal t;
     _num_invalid_actions := _num_invalid_actions t;
     _rewards := _rewards t |}.

Definition set_actions_taken (x : list string) (t : Task) : Task :=
  {| env := env t; task_info := task_info t; max_steps := max_steps t;
     _num_steps_taken := _num_steps_taken t;
     _last_action := _last_action t;
     _last_action_ind := _last_action_ind t;
     _last_action_success := _last_action_success t; _actions_taken := x;
     _positions := _positions t; _episode_id := _episode_id t;
     _took_end_action := _took_end_action t; _success := _success t;
     last_geodesic_distance := last_geodesic_distance t;
     _min_distance_to_goal := _min_distance_to_goal t;
     _num_invalid_actions := _num_invalid_actions t;
     _rewards := _rewards t |}.

Definition set_positions (x : list py_value) (t : Task) : Task :=
  {| env := env t; task_info := task_info t; max_steps := max_steps t;
     _num_steps_taken := _num_steps_taken t;
     _last_action := _last_action t;
     _last_action_ind := _last_action_ind t;
     _last_action_success := _last_action_success t;
     _actions_taken := _actions_taken t; _positions := x;
     _episode_id := _episode_id t; _took_end_action := _took_end_action t;
     _success := _success t;
     last_geodesic_distance := last_geodesic_distance t;
     _min_distance_to_goal := _min_distance_to_goal t;
     _num_invalid_actions := _num_invalid_actions t;
     _rewards := _rewards t |}.

Definition set_took_end_action (x : bool) (t : Task) : Task :=
  {| env := env t; task_info := task_info t; max_steps := max_steps t;
     _num_steps_taken := _num_steps_taken t;
     _last_action := _last_action t;
     _last_action_ind := _last_action_ind t;
     _last_action_success := _last_action_success t;
     _actions_taken := _actions_taken t; _positions := _positions t;
     _episode_id := _episode_id t; _took_end_action := x;
     _success := _success t;
     last_geodesic_distance := last_geodesic_distance t;
     _min_distance_to_goal := _min_distance_to_goal t;
     _num_invalid_actions := _num_invalid_actions t;
     _rewards := _rewards t |}.

Definition set_success (x : bool) (t : Task) : Task :=
  {| env := env t; task_info := task_info t; max_steps := max_steps t;
     _num_steps_taken := _num_steps_taken t;
     _last_action := _last_action t;
     _last_action_ind := _last_action_ind t;
     _last_action_success := _last_action_success t;
     _actions_taken := _actions_taken t; _positions := _positions t;
     _episode_id := _episode_id t; _took_end_action := _took_end_action t;
     _success := x; last_geodesic_distance := last_geodesic_distance t;
     _min_distance_to_goal := _min_distance_to_goal t;
     _num_invalid_actions := _num_invalid_actions t;
     _rewards := _rewards t |}.

Definition set_last_geodesic_distance (x : float) (t : Task) : Task :=
  {| env := env t; task_info := task_info t; max_steps := max_steps t;
     _num_steps_taken := _num_steps_taken t;
     _last_action := _last_action t;
     _last_action_ind := _last_action_ind t;
     _last_action_success := _last_action_success t;
     _actions_taken := _actions_taken t; _positions := _positions t;
     _episode_id := _episode_id t; _took_end_action := _took_end_action t;
     _success := _success t; last_geodesic_distance := x;
     _min_distance_to_goal := _min_distance_to_goal t;
     _num_invalid_actions := _num_invalid_actions t;
     _rewards := _rewards t |}.

Definition set_min_distance_to_goal (x : float) (t : Task) : Task :=
  {| env := env t; task_info := task_info t; max_steps := max_steps t;
     _num_steps_taken := _num_steps_taken t;
     _last_action := _last_action t;
     _last_action_ind := _last_action_ind t;
     _last_action_success := _last_action_success t;
     _actions_taken := _actions_taken t; _positions := _positions t;
     _episode_id := _episode_id t; _took_end_action := _took_end_action t;
     _success := _success t;
     last_geodesic_distance := last_geodesic_distance t;
     _min_distance_to_goal := x;
     _num_invalid_actions := _num_invalid_actions t;
     _rewards := _rewards t |}.

Definition set_num_invalid_actions (x : nat) (t : Task) : Task :=
  {| env := env t; task_info := task_info t; max_steps := max_steps t;
     _num_steps_taken := _num_steps_taken t;
     _last_action := _last_action t;
     _last_action_ind := _last_action_ind t;
     _last_action_success := _last_action_success t;
     _actions_taken := _actions_taken t; _positions := _positions t;
     _episode_id := _episode_id t; _took_end_action := _took_end_action t;
     _success := _success t;
     last_geodesic_distance := last_geodesic_distance t;
     _min_distance_to_goal := _min_distance_to_goal t;
     _num_invalid_actions := x; _rewards := _rewards t |}.

Definition set_rewards (x : list float) (t : Task) : Task :=
  {| env := env t; task_info := task_info t; max_steps := max_steps t;
     _num_steps_taken := _num_steps_taken t;
     _last_action := _last_action t;
     _last_action_ind := _last_action_ind t;
     _last_action_success := _last_action_success t;
     _actions_taken := _actions_taken t; _positions := _positions t;
     _episode_id := _episode_id t; _took_end_action := _took_end_action t;
     _success := _success t;
     last_geodesic_distance := last_geodesic_distance t;
     _min_distance_to_goal := _min_distance_to_goal t;
     _num_invalid_actions := _num_invalid_actions t; _rewards := x |}.

(** The [last_action_success] property of [HabitatTask]. *)
Definition last_action_success (t : Task) : option bool :=
  _last_action_success t.

(** [HabitatTask.__init__] followed by [ObjectNavTask.__init__]: the first
    distance reading is guarded with the fallback [0.0], and the running
    minimum starts from the guarded value. *)
Definition init (e : Env) (info : gmap string py_value) (max : nat) : Task :=
  let last :=
    guarded_distance (distance_to_goal (get_metrics e)) 0%float in
  {| env := e; task_info := info; max_steps := max;
     _num_steps_taken := 0;
     _last_action := None; _last_action_ind := None;
     _last_action_success := None;
     _actions_taken := []; _positions := [];
     _episode_id := HabitatTask._episode_id (get_current_episode e);
     _took_end_action := false; _success := false;
     last_geodesic_distance := last;
     _min_distance_to_goal := last;
     _num_invalid_actions := 0;
     _rewards := [] |}.

Definition action_names : list string := _actions.

(** [action_space]: [gym.spaces.Discrete(len(self._actions))], the indices
    0 to n - 1; the model keeps n. *)
Definition action_space : nat := length _actions.

Definition reached_terminal_state (t : Task) : bool :=
  episode_over (env t).

Definition is_done (t : Task) : bool :=
  Task_is_done (_took_end_action t) (reached_terminal_state t)
    (_num_steps_taken t) (max_steps t).

(** Modelled from the spec: [Task.num_steps_taken] of [rl_base.task], the
    count of steps the base class keeps. *)
Definition num_steps_taken (t : Task) : nat := _num_steps_taken t.

Definition _is_goal_in_range (t : Task) : bool :=
  py_bool (spl (get_metrics (env t))).

(** [judge]: the running minimum is taken from the raw reading, before the
    guard; a [None] reading makes [min] raise before anything is assigned. *)
Definition judge (t : Task) : Task * outcome float :=
  let reward := (-0.01)%float in
  let raw := distance_to_goal (get_metrics (env t)) in
  match py_min_optional raw (_min_distance_to_goal t) with
  | Raised e => (t, Raised e)
  | Returned m =>
      let t := set_min_distance_to_goal m t in
      let new_geodesic_distance :=
        guarded_distance raw (last_geodesic_distance t) in
      let delta_distance_reward :=
        (last_geodesic_distance t - new_geodesic_distance)%float in
      let reward := (reward + delta_distance_reward)%float in
      let reward :=
        if _took_end_action t
        then (reward + (if _success t then 10.0 else 0.0))%float
        else reward in
      let t := set_rewards (_rewards t ++ [reward]) t in
      let t := set_last_geodesic_distance new_geodesic_distance t in
      (t, Returned reward)
  end.

(** The dictionary [_step] appends to [_positions]. *)
Definition position_record (pos : Pose) : py_value :=
  PyDict (<[ "x" := PyFloat (pos0 pos) ]>
          (<[ "y" := PyFloat (pos1 pos) ]>
          (<[ "path_to_rot_degrees" := PyFloat (pos3 pos) ]> ∅))).

Definition _step (t : Task) (action : Z)
    : Task * outcome (RLStepResult Observation) :=
  let pos := agent_position_and_rotation (get_observations (env t)) in
  let t := set_positions (_positions t ++ [position_record pos]) t in
  let old_pos := agent_position_and_rotation (get_observations (env t)) in
  match py_getitem action_names action with
  | Raised e => (t, Raised e)
  | Returned action_str =>
      let t := set_actions_taken (_actions_taken t ++ [action_str]) t in
      let t := set_env (env_step action_str (env t)) t in
      let t :=
        if String.eqb action_str END then
          let t := set_took_end_action true t in
          let t := set_success (_is_goal_in_range t) t in
          set_last_action_success (Some (_success t)) t
        else
          set_last_action_success
            (Some (env_last_action_success (env t))) t in
      let obs := get_observations (env t) in
      match judge t with
      | (t, Raised e) => (t, Raised e)
      | (t, Returned r) =>
          let d := is_done t in
          let step_result :=
            {| observation := obs; reward := r; done := d;
               info := {[ "last_action_success" :=
                            py_optional_bool (last_action_success t) ]} |} in
          let new_pos :=
            agent_position_and_rotation (get_observations (env t)) in
          let t :=
            if pose_all_eq old_pos new_pos
            then set_num_invalid_actions (S (_num_invalid_actions t)) t
            else t in
          (t, Returned step_result)
      end
  end.

(** Modelled from the spec: [Task.step] of [rl_base.task], the entry point
    the driver calls: it runs the variant's [_step] and counts the step. *)
Definition step (t : Task) (action : Z)
    : Task * outcome (RLStepResult Observation) :=
  match _step t action with
  | (t, Returned r) =>
      (set_num_steps_taken (S (_num_steps_taken t)) t, Returned r)
  | (t, Raised e) => (t, Raised e)
  end.

(** [HabitatTask._step], which [ObjectNavTask] overrides: it records the
    action, runs the base [step] (which dispatches to the override above)
    and adds two entries to the result's [info].  Nothing in the module
    calls it. *)
Definition HabitatTask_step (t : Task) (action : Z)
    : Task * outcome (RLStepResult Observation) :=
  let t := set_last_action_ind (Some action) t in
  match py_getitem action_names action with
  | Raised e => (t, Raised e)
  | Returned name =>
      let t := set_last_action (Some name) t in
      let t := set_last_action_success None t in
      match step t action with
      | (t, Raised e) => (t, Raised e)
      | (t, Returned step_result) =>
          let info1 :=
            <[ "action" := py_optional_int (_last_action_ind t) ]>
              (info step_result) in
          let info2 :=
            <[ "action_success" :=
                 py_optional_bool (last_action_success t) ]> info1 in
          (t, Returned
                {| observation := observation step_result;
                   reward := reward step_result;
                   done := done step_result;
                   info := info2 |})
      end
  end.

Definition render (t : Task) (mode : string) : outcome Frame :=
  if (String.eqb mode "rgb" || String.eqb mode "depth")%bool
  then Returned (current_frame_rgb (env t))
  else Raised AssertionError.

(** [metrics]: the trajectory entries are written into [task_info] before
    the done check.  The dictionary receives the lists themselves; the
    model stores their contents at the time of the call. *)
Definition metrics (t : Task) : Task * gmap string py_value :=
  let t := set_task_info
             (<[ "taken_actions" := PyList (PyStr <$> _actions_taken t) ]>
                (task_info t)) t in
  let t := set_task_info
             (<[ "action_names" := PyList (PyStr <$> action_names) ]>
                (task_info t)) t in
  let t := set_task_info
             (<[ "followed_path" := PyList (_positions t) ]>
                (task_info t)) t in
  let t := set_task_info
             (<[ "episode_id" := PyStr (_episode_id t) ]>
                (task_info t)) t in
  if negb (is_done t) then (t, ∅)
  else
    let _metrics := get_metrics (env t) in
    let metrics : gmap string py_value :=
      <[ "success" := PyBool (_success t) ]>
      (<[ "ep_length" := PyInt (Z.of_nat (num_steps_taken t)) ]>
      (<[ "total_reward" := PyFloat (np_sum (_rewards t)) ]>
      (<[ "spl" := PyFloat (match spl _metrics with
                            | Some s => s
                            | None => 0.0%float
                            end) ]>
      (<[ "min_distance_to_target" := PyFloat (_min_distance_to_goal t) ]>
      (<[ "num_invalid_actions" :=
            PyInt (Z.of_nat (_num_invalid_actions t)) ]>
      (<[ "task_info" := PyDict (task_info t) ]> ∅)))))) in
    (set_rewards [] t, metrics).

(** [query_expert] returns its result together with the log of the calls it
    made to the follower (the targets passed to [get_next_action]). *)
Definition query_expert (t : Task)
    : outcome (option Z * bool) * list py_value :=
  if _is_goal_in_range t then
    match py_index action_names END with
    | Returned i => (Returned (Some i, true), [])
    | Raised e => (Raised e, [])
    end
  else
    match task_info t !! "target" with
    | None => (Raised KeyError, [])
    | Some target =>
        let action := get_next_action (env t) target in
        (Returned (action, is_not_None action), [target])
    end.

(** The state after one call; [query_expert] and [render] only read. *)
Definition do_call (t : Task) (c : call) : Task :=
  match c with
  | CallStep a => fst (step t a)
  | CallInnerStep a => fst (_step t a)
  | CallMetrics => fst (metrics t)
  | CallQueryExpert => t
  | CallRender _ => t
  end.

Definition run (t : Task) (cs : list call) : Task :=
  fold_left do_call cs t.

(** A run that also keeps, on the side, the rewards the steps returned
    since the reward log was last drained by [metrics] on a finished
    episode. *)
Fixpoint run_pending (t : Task) (pending : list float) (cs : list call)
    : Task * list float :=
  match cs with
  | [] => (t, pending)
  | CallStep a :: cs' =>
      run_pending (fst (step t a))
        (pending ++ returned_reward (snd (step t a))) cs'
  | CallInnerStep a :: cs' =>
      run_pending (fst (_step t a))
        (pending ++ returned_reward (snd (_step t a))) cs'
  | CallMetrics :: cs' =>
      run_pending (fst (metrics t)) (if is_done t then [] else pending) cs'
  | _ :: cs' => run_pending t pending cs'
  end.

End WithEnvironment.
Arguments Task Env : clear implicits.
End ObjectNav.

(** ** A scripted simulator

    A concrete environment for running the tasks: the simulator's observable
    state is a snapshot, and every [env.step] moves to the next snapshot of a
    script, whatever the action (the last snapshot stays once the script is
    exhausted). *)

Module Scripted.

Record Snapshot : Type := {
  snap_metrics : HabitatMetrics;
  snap_episode_over : bool;
  snap_action_success : bool;
  snap_pose : Pose;
  snap_expert : option Z
}.

Record Env : Type := {
  current : Snapshot;
  upcoming : list Snapshot;
  episode : Episode
}.

Definition advance (e : Env) : Env :=
  match upcoming e with
  | [] => e
  | s :: rest => {| current := s; upcoming := rest; episode := episode e |}
  end.

#[global] Instance environment : HabitatEnvironment Env := {|
  Frame := string;
  Observation := Pose;
  env_step := fun _ e => advance e;
  get_metrics := fun e => snap_metrics (current e);
  episode_over := fun e => snap_episode_over (current e);
  env_last_action_success := fun e => snap_action_success (current e);
  current_frame_rgb := fun _ => "rgb frame";
  current_frame_depth := fun _ => "depth frame";
  get_current_episode := episode;
  get_observations := fun e => snap_pose (current e);
  agent_position_and_rotation := fun p => p;
  get_next_action := fun e _ => snap_expert (current e)
|}.

(** Episodes of a few steps: the reward log stays short, and NumPy adds it
    from left to right. *)
#[global] Instance numpy : NumPy := {| np_sum := sequential_sum |}.

Definition origin : Pose :=
  {| pos0 := 0; pos1 := 0; pos2 := 0; pos3 := 0 |}.

(** A snapshot while the agent is under way: the given distance reading, goal
    not in range. *)
Definition moving (d : option float) : Snapshot :=
  {| snap_metrics := {| distance_to_goal := d; spl := Some 0%float |};
     snap_episode_over := false;
     snap_action_success := true;
     snap_pose := origin;
     snap_expert := Some 0%Z |}.

(** A snapshot with the goal in range (a non-zero SPL) and the episode over. *)
Definition arrived (d : option float) : Snapshot :=
  {| snap_metrics := {| distance_to_goal := d; spl := Some 1%float |};
     snap_episode_over := true;
     snap_action_success := true;
     snap_pose := origin;
     snap_expert := None |}.

(** A snapshot with the goal in range while the simulator keeps the episode
    open. *)
Definition in_range (d : option float) : Snapshot :=
  {| snap_metrics := {| distance_to_goal := d; spl := Some 1%float |};
     snap_episode_over := false;
     snap_action_success := true;
     snap_pose := origin;
     snap_expert := None |}.

Definition mp3d_episode : Episode :=
  {| scene_id := "data/scene_datasets/mp3d/17DRP5sb8fy/17DRP5sb8fy.glb";
     episode_id := "42" |}.

Definition gibson_episode : Episode :=
  {| scene_id := "data/scene_datasets/gibson/Adrian.glb";
     episode_id := "7" |}.

Definition script (first : Snapshot) (rest : list Snapshot) : Env :=
  {| current := first; upcoming := rest; episode := mp3d_episode |}.

Definition goal : gmap string py_value :=
  {[ "target" := PyList [PyFloat 1; PyFloat 0; PyFloat 2] ]}.

(** The episode of the spec's scenario: the distance starts at 5.0, three
    moves bring it to 4.0, 3.0 and 2.5, and the goal is in range when [end]
    is issued. *)
Definition approach : Env :=
  script (moving (Some 5.0%float))
    [moving (Some 4.0%float); moving (Some 3.0%float);
     moving (Some 2.5%float); arrived (Some 2.5%float)].

(** An episode whose simulator glitches: a NaN reading, then 5.0. *)
Definition glitch : Env :=
  script (moving (Some 3.0%float))
    [moving (Some nan); moving (Some 5.0%float)].

(** An episode in which the agent ends in range at once and is then stepped
    again. *)
Definition overrun : Env :=
  script (moving (Some 2.0%float))
    [in_range (Some 2.0%float); in_range (Some 1.5%float)].

(** An episode whose simulator reports no distance after the first action. *)
Definition dropout : Env :=
  script (moving (Some 3.0%float)) [moving None].

(** The driver's calls in the scenario: three [move_ahead] steps (index 0),
    then [end] (index 3). *)
Definition three_moves : list call := [CallStep 0; CallStep 0; CallStep 0].
Definition moves_then_end : list call := three_moves ++ [CallStep 3].

Definition point_start : PointNav.Task Env :=
  PointNav.init approach goal 500.
Definition object_start : ObjectNav.Task Env :=
  ObjectNav.init approach goal 500.

(** An episode whose simulator reports a NaN success-weighted path length
    after the first action. *)
Definition nan_spl : Env :=
  script (moving (Some 2.0%float))
    [{| snap_metrics := {| distance_to_goal := Some 2.0%float;
                           spl := Some nan |};
        snap_episode_over := false;
        snap_action_success := true;
        snap_pose := origin;
        snap_expert := None |}].

(** An episode in which the agent turns in place, then moves: the pose is
    the same after the first action and another one after the second. *)
Definition turn_then_move : Env :=
  script (moving (Some 3.0%float))
    [moving (Some 3.0%float);
     {| snap_metrics := {| distance_to_goal := Some 2.75%float;
                           spl := Some 0%float |};
        snap_episode_over := false;
        snap_action_success := true;
        snap_pose := {| pos0 := 0.25; pos1 := 0; pos2 := 0; pos3 := 90 |};
        snap_expert := Some 0%Z |}].

End Scripted.

(** ** Vocabulary of the statements *)

(** A reading the guard has to replace: [None], NaN or an infinity. *)
Definition invalid_reading (d : option float) : Prop :=
  match d with
  | None => True
  | Some x =>
      PrimFloat.is_nan x = true \/ x = infinity \/ x = neg_infinity
  end.

(** The spec's words for the episode identifier: the filename stem of a
    scene path.  A path splits into the directory part (up to and including
    the last "/"), the stem, and the suffix (from the last "." of the file
    name on; a dot that starts the file name belongs to the stem). *)
Fixpoint has_char (c : Ascii.ascii) (s : string) : bool :=
  match s with
  | EmptyString => false
  | String d s' => (Ascii.eqb d c || has_char c s')%bool
  end.

Fixpoint dirname_part (s : string) : string :=
  match s with
  | EmptyString => EmptyString
  | String c s' =>
      if has_char "/"%char s' then String c (dirname_part s')
      else if Ascii.eqb c "/"%char then String c EmptyString
      else EmptyString
  end.

Fixpoint basename (s : string) : string :=
  match s with
  | EmptyString => EmptyString
  | String c s' =>
      if has_char "/"%char s' then basename s'
      else if Ascii.eqb c "/"%char then s'
      else s
  end.

Fixpoint before_last_dot (s : string) : string :=
  match s with
  | EmptyString => EmptyString
  | String c s' =>
      if has_char "."%char s' then String c (before_last_dot s')
      else if Ascii.eqb c "."%char then EmptyString
      else s
  end.

Fixpoint from_last_dot (s : string) : string :=
  match s with
  | EmptyString => EmptyString
  | String c s' =>
      if has_char "."%char s' then from_last_dot s'
      else if Ascii.eqb c "."%char then s
      else EmptyString
  end.

Definition filename_stem (path : string) : string :=
  match basename path with
  | EmptyString => EmptyString
  | String c rest => String c (before_last_dot rest)
  end.

Definition filename_suffix (path : string) : string :=
  match basename path with
  | EmptyString => EmptyString
  | String c rest => from_last_dot rest
  end.

(** The entries [ObjectNavTask.metrics] writes into [task_info], over a
    base mapping. *)
Definition trajectory_info (actions names : list string)
    (positions : list py_value) (id : string)
    (base : gmap string py_value) : gmap string py_value :=
  <[ "episode_id" := PyStr id ]>
  (<[ "followed_path" := PyList positions ]>
  (<[ "action_names" := PyList (PyStr <$> names) ]>
  (<[ "taken_actions" := PyList (PyStr <$> actions) ]> base))).

Section Decomposition.
Context {Env : Type} `{HabitatEnvironment Env}.

(** The base reward of a step in both variants: the step cost plus the
    distance delta, from the stored distance and the reading of the
    environment. *)
Definition base_reward (last : float) (e : Env) : float :=
  (-0.01
   + (last - guarded_distance (distance_to_goal (get_metrics e)) last))%float.

(** The state [_step] hands to [judge] once the action is resolved. *)
Definition point_acted (t : PointNav.Task Env) (action_str : string)
    : PointNav.Task Env :=
  let t := PointNav.set_env (env_step action_str (PointNav.env t)) t in
  if String.eqb action_str END then
    let t := PointNav.set_took_end_action true t in
    let t := PointNav.set_success (PointNav._is_goal_in_range t) t in
    PointNav.set_last_action_success (Some (PointNav._success t)) t
  else
    PointNav.set_last_action_success
      (Some (env_last_action_success (PointNav.env t))) t.

(** [ObjectNavTask._step] up to the action lookup: the pose is logged. *)
Definition object_logged (t : ObjectNav.Task Env) : ObjectNav.Task Env :=
  ObjectNav.set_positions
    (ObjectNav._positions t
     ++ [ObjectNav.position_record
           (agent_position_and_rotation
              (get_observations (ObjectNav.env t)))]) t.

(** The state [ObjectNavTask._step] hands to [judge] once the action is
    resolved. *)
Definition object_acted (t : ObjectNav.Task Env) (action_str : string)
    : ObjectNav.Task Env :=
  let t := ObjectNav.set_actions_taken
             (ObjectNav._actions_taken t ++ [action_str]) t in
  let t := ObjectNav.set_env (env_step action_str (ObjectNav.env t)) t in
  if String.eqb action_str END then
    let t := ObjectNav.set_took_end_action true t in
    let t := ObjectNav.set_success (ObjectNav._is_goal_in_range t) t in
    ObjectNav.set_last_action_success (Some (ObjectNav._success t)) t
  else
    ObjectNav.set_last_action_success
      (Some (env_last_action_success (ObjectNav.env t))) t.

(** The end of [ObjectNavTask._step]: the invalid-action count. *)
Definition object_counted (old_pos : Pose) (t : ObjectNav.Task Env)
    : ObjectNav.Task Env :=
  if pose_all_eq old_pos
       (agent_position_and_rotation (get_observations (ObjectNav.env t)))
  then ObjectNav.set_num_invalid_actions
         (S (ObjectNav._num_invalid_actions t)) t
  else t.

End Decomposition.

(** * Properties *)

(** ** Floats *)

Lemma eqb_neg_infinity (x : float) :
  (x =? neg_infinity)%float = SFeqb (Prim2SF x) (S754_infinity true).
Proof. rewrite FloatAxioms.eqb_spec. reflexivity. Qed.

Lemma eqb_infinity (x : float) :
  (x =? infinity)%float = SFeqb (Prim2SF x) (S754_infinity false).
Proof. rewrite FloatAxioms.eqb_spec. reflexivity. Qed.

(** A float that passes the guard is finite in the sense of the standard
    library: neither NaN nor an infinity. *)
Lemma is_inf_or_nan_false_finite (x : float) :
  is_inf_or_nan x = false -> PrimFloat.is_finite x = true.
Proof.
  unfold is_inf_or_nan, PrimFloat.is_finite, PrimFloat.is_infinity.
  rewrite eqb_neg_infinity, eqb_infinity, (eqb_infinity (abs x)), abs_spec.
  generalize (PrimFloat.is_nan x); intros isnan.
  destruct (Prim2SF x) as [sg | sg | | sg m e];
    try destruct sg; destruct isnan; cbn; intros Hg;
    first [ reflexivity | discriminate Hg ].
Qed.

(** Conversely the guard rejects NaN and both infinities. *)
Lemma is_inf_or_nan_nan (x : float) :
  PrimFloat.is_nan x = true -> is_inf_or_nan x = true.
Proof.
  unfold is_inf_or_nan. intros ->. apply orb_true_r.
Qed.

Lemma is_inf_or_nan_infinity : is_inf_or_nan infinity = true.
Proof. reflexivity. Qed.

Lemma is_inf_or_nan_neg_infinity : is_inf_or_nan neg_infinity = true.
Proof. reflexivity. Qed.

Lemma guarded_distance_invalid (d : option float) (fallback : float) :
  invalid_reading d -> guarded_distance d fallback = fallback.
Proof.
  destruct d as [x|]; cbn; [|reflexivity].
  intros [Hnan | [-> | ->]].
  - rewrite is_inf_or_nan_nan by assumption. reflexivity.
  - reflexivity.
  - reflexivity.
Qed.

Lemma guarded_distance_finite (d : option float) (fallback : float) :
  PrimFloat.is_finite fallback = true ->
  PrimFloat.is_finite (guarded_distance d fallback) = true.
Proof.
  intros Hf. destruct d as [x|]; cbn; [|assumption].
  destruct (is_inf_or_nan x) eqn:Hx; [assumption|].
  apply is_inf_or_nan_false_finite, Hx.
Qed.

(** ** PointNavTask: what a step does to the state *)

Section PointNavFacts.
Context {Env : Type} `{HabitatEnvironment Env} `{NumPy}.
Implicit Types (t : PointNav.Task Env) (a : Z).

Lemma point_step_unfold t a :
  PointNav._step t a =
  match py_getitem PointNav.action_names a with
  | Raised e => (t, Raised e)
  | Returned action_str =>
      let t1 := point_acted t action_str in
      (fst (PointNav.judge t1),
       Returned
         {| observation := get_observations (PointNav.env t1);
            reward := snd (PointNav.judge t1);
            done := PointNav.is_done (fst (PointNav.judge t1));
            info := {[ "last_action_success" :=
                         py_optional_bool
                           (PointNav.last_action_success
                              (fst (PointNav.judge t1))) ]} |})
  end.
Proof.
  unfold PointNav._step, point_acted.
  destruct (py_getitem PointNav.action_names a) as [action_str|e];
    [|reflexivity].
  destruct (String.eqb action_str END); reflexivity.
Qed.

Lemma point_step_raised t a e :
  py_getitem PointNav.action_names a = Raised e ->
  PointNav._step t a = (t, Raised e).
Proof. intros Hg. rewrite point_step_unfold, Hg. reflexivity. Qed.

Lemma point_acted_env t s :
  PointNav.env (point_acted t s) = env_step s (PointNav.env t).
Proof. unfold point_acted. destruct (String.eqb s END); reflexivity. Qed.

Lemma point_acted_last t s :
  PointNav.last_geodesic_distance (point_acted t s)
  = PointNav.last_geodesic_distance t.
Proof. unfold point_acted. destruct (String.eqb s END); reflexivity. Qed.

Lemma point_acted_rewards t s :
  PointNav._rewards (point_acted t s) = PointNav._rewards t.
Proof. unfold point_acted. destruct (String.eqb s END); reflexivity. Qed.

Lemma point_acted_took_end t s :
  PointNav._took_end_action (point_acted t s)
  = (String.eqb s END || PointNav._took_end_action t)%bool.
Proof. unfold point_acted. destruct (String.eqb s END); reflexivity. Qed.

Lemma point_judge_last t :
  PointNav.last_geodesic_distance (fst (PointNav.judge t))
  = guarded_distance (distance_to_goal (get_metrics (PointNav.env t)))
      (PointNav.last_geodesic_distance t).
Proof. reflexivity. Qed.

Lemma point_judge_took_end t :
  PointNav._took_end_action (fst (PointNav.judge t))
  = PointNav._took_end_action t.
Proof. reflexivity. Qed.

Lemma point_judge_reward t :
  snd (PointNav.judge t)
  = if PointNav._took_end_action t
    then (base_reward (PointNav.last_geodesic_distance t)
            (PointNav.env t)
          + (if PointNav._success t then 10.0 else 0.0))%float
    else base_reward (PointNav.last_geodesic_distance t)
           (PointNav.env t).
Proof. reflexivity. Qed.

Lemma point_judge_rewards t :
  PointNav._rewards (fst (PointNav.judge t))
  = PointNav._rewards t ++ [snd (PointNav.judge t)].
Proof. reflexivity. Qed.

(** [_step] and the base [step] agree on everything but the step count. *)
Lemma point_step_fst_last t a :
  PointNav.last_geodesic_distance (fst (PointNav.step t a))
  = PointNav.last_geodesic_distance (fst (PointNav._step t a)).
Proof.
  unfold PointNav.step.
  destruct (PointNav._step t a) as [t' [r|e]]; reflexivity.
Qed.

Lemma point_step_fst_took_end t a :
  PointNav._took_end_action (fst (PointNav.step t a))
  = PointNav._took_end_action (fst (PointNav._step t a)).
Proof.
  unfold PointNav.step.
  destruct (PointNav._step t a) as [t' [r|e]]; reflexivity.
Qed.

Lemma point_step_fst_rewards t a :
  PointNav._rewards (fst (PointNav.step t a))
  = PointNav._rewards (fst (PointNav._step t a)).
Proof.
  unfold PointNav.step.
  destruct (PointNav._step t a) as [t' [r|e]]; reflexivity.
Qed.

Lemma point_step_snd t a :
  snd (PointNav.step t a) = snd (PointNav._step t a).
Proof.
  unfold PointNav.step.
  destruct (PointNav._step t a) as [t' [r|e]]; reflexivity.
Qed.

Lemma point_step_fst_env t a :
  PointNav.env (fst (PointNav.step t a))
  = PointNav.env (fst (PointNav._step t a)).
Proof.
  unfold PointNav.step.
  destruct (PointNav._step t a) as [t' [r|e]]; reflexivity.
Qed.

(** The stored distance after a step. *)
Lemma point_step_last t a :
  PointNav.last_geodesic_distance (fst (PointNav._step t a))
  = guarded_distance
      (distance_to_goal
         (get_metrics (PointNav.env (fst (PointNav._step t a)))))
      (PointNav.last_geodesic_distance t)
    \/ (exists e, PointNav._step t a = (t, Raised e)).
Proof.
  rewrite point_step_unfold.
  destruct (py_getitem PointNav.action_names a) as [s|e]; [left|right; eauto].
  cbn [fst]. rewrite point_judge_last, point_acted_last.
  cbn. rewrite point_acted_env. reflexivity.
Qed.

Lemma point_metrics_last t :
  PointNav.last_geodesic_distance (fst (PointNav.metrics t))
  = PointNav.last_geodesic_distance t.
Proof. unfold PointNav.metrics. destruct (negb _); reflexivity. Qed.

Lemma point_metrics_took_end t :
  PointNav._took_end_action (fst (PointNav.metrics t))
  = PointNav._took_end_action t.
Proof. unfold PointNav.metrics. destruct (negb _); reflexivity. Qed.

(** Every call keeps the stored distance finite. *)
Lemma point_call_finite t c :
  PrimFloat.is_finite (PointNav.last_geodesic_distance t) = true ->
  PrimFloat.is_finite
    (PointNav.last_geodesic_distance (PointNav.do_call t c)) = true.
Proof.
  intros Hf. destruct c as [a|a| | |m]; cbn [PointNav.do_call];
    try assumption.
  - rewrite point_step_fst_last.
    destruct (point_step_last t a) as [-> | [e ->]];
      [apply guarded_distance_finite|]; assumption.
  - destruct (point_step_last t a) as [-> | [e ->]];
      [apply guarded_distance_finite|]; assumption.
  - rewrite point_metrics_last. assumption.
Qed.

Lemma point_run_finite cs : forall t,
  PrimFloat.is_finite (PointNav.last_geodesic_distance t) = true ->
  PrimFloat.is_finite
    (PointNav.last_geodesic_distance (PointNav.run t cs)) = true.
Proof.
  unfold PointNav.run.
  induction cs as [|c cs IH]; intros t Hf; cbn [fold_left]; [assumption|].
  apply IH, point_call_finite, Hf.
Qed.

Lemma point_init_finite (e : Env) info max :
  PrimFloat.is_finite
    (PointNav.last_geodesic_distance (PointNav.init e info max)) = true.
Proof. cbn. apply guarded_distance_finite. reflexivity. Qed.

(** Once set, [_took_end_action] survives every call. *)
Lemma point_call_took_end t c :
  PointNav._took_end_action t = true ->
  PointNav._took_end_action (PointNav.do_call t c) = true.
Proof.
  assert (Hstep : forall a, PointNav._took_end_action t = true ->
            PointNav._took_end_action (fst (PointNav._step t a)) = true).
  { intros a Ht. rewrite point_step_unfold.
    destruct (py_getitem PointNav.action_names a) as [s|e]; [|assumption].
    cbn [fst]. rewrite point_judge_took_end, point_acted_took_end, Ht.
    apply orb_true_r. }
  intros Ht. destruct c as [a|a| | |m]; cbn [PointNav.do_call];
    try assumption.
  - rewrite point_step_fst_took_end. auto.
  - auto.
  - rewrite point_metrics_took_end. assumption.
Qed.

Lemma point_run_took_end cs : forall t,
  PointNav._took_end_action t = true ->
  PointNav._took_end_action (PointNav.run t cs) = true.
Proof.
  unfold PointNav.run.
  induction cs as [|c cs IH]; intros t Ht; cbn [fold_left]; [assumption|].
  apply IH, point_call_took_end, Ht.
Qed.

End PointNavFacts.

(** ** ObjectNavTask: what a step does to the state *)

Section ObjectNavFacts.
Context {Env : Type} `{HabitatEnvironment Env} `{NumPy}.
Implicit Types (t : ObjectNav.Task Env) (a : Z).

Lemma object_step_unfold t a :
  ObjectNav._step t a =
  let t0 := object_logged t in
  match py_getitem ObjectNav.action_names a with
  | Raised e => (t0, Raised e)
  | Returned action_str =>
      let t1 := object_acted t0 action_str in
      match ObjectNav.judge t1 with
      | (t2, Raised e) => (t2, Raised e)
      | (t2, Returned r) =>
          (object_counted
             (agent_position_and_rotation
                (get_observations (ObjectNav.env t))) t2,
           Returned
             {| observation := get_observations (ObjectNav.env t1);
                reward := r;
                done := ObjectNav.is_done t2;
                info := {[ "last_action_success" :=
                             py_optional_bool
                               (ObjectNav.last_action_success t2) ]} |})
      end
  end.
Proof.
  unfold ObjectNav._step, object_acted, object_logged, object_counted.
  cbn zeta.
  destruct (py_getitem ObjectNav.action_names a) as [action_str|e];
    [|reflexivity].
  destruct (String.eqb action_str END); reflexivity.
Qed.

Lemma object_judge_none t :
  distance_to_goal (get_metrics (ObjectNav.env t)) = None ->
  ObjectNav.judge t = (t, Raised TypeError).
Proof. unfold ObjectNav.judge. intros ->. reflexivity. Qed.

(** [judge] on a reading that is a float: the new state and the reward. *)
Lemma object_judge_some t x :
  distance_to_goal (get_metrics (ObjectNav.env t)) = Some x ->
  exists t',
    ObjectNav.judge t
    = (t', Returned
             (if ObjectNav._took_end_action t
              then (base_reward (ObjectNav.last_geodesic_distance t)
                      (ObjectNav.env t)
                    + (if ObjectNav._success t then 10.0 else 0.0))%float
              else base_reward (ObjectNav.last_geodesic_distance t)
                     (ObjectNav.env t)))
    /\ ObjectNav.last_geodesic_distance t'
       = guarded_distance (Some x) (ObjectNav.last_geodesic_distance t)
    /\ ObjectNav._min_distance_to_goal t'
       = py_min x (ObjectNav._min_distance_to_goal t)
    /\ ObjectNav._rewards t'
       = ObjectNav._rewards t
         ++ [if ObjectNav._took_end_action t
             then (base_reward (ObjectNav.last_geodesic_distance t)
                     (ObjectNav.env t)
                   + (if ObjectNav._success t then 10.0 else 0.0))%float
             else base_reward (ObjectNav.last_geodesic_distance t)
                    (ObjectNav.env t)]
    /\ ObjectNav._took_end_action t' = ObjectNav._took_end_action t
    /\ ObjectNav._success t' = ObjectNav._success t
    /\ ObjectNav._last_action_success t' = ObjectNav._last_action_success t
    /\ ObjectNav.env t' = ObjectNav.env t.
Proof.
  intros Hx. unfold ObjectNav.judge, base_reward. rewrite Hx. cbn.
  eexists. split; [reflexivity|]. cbn. repeat split; reflexivity.
Qed.

(** Either way [judge] leaves the stored distance guarded and the end flag
    alone. *)
Lemma object_judge_last t :
  ObjectNav.last_geodesic_distance (fst (ObjectNav.judge t))
  = match distance_to_goal (get_metrics (ObjectNav.env t)) with
    | None => ObjectNav.last_geodesic_distance t
    | Some x =>
        guarded_distance (Some x) (ObjectNav.last_geodesic_distance t)
    end.
Proof.
  destruct (distance_to_goal (get_metrics (ObjectNav.env t))) as [x|] eqn:Hx.
  - destruct (object_judge_some t x Hx) as (t' & -> & Hl & _). exact Hl.
  - rewrite object_judge_none by assumption. reflexivity.
Qed.

Lemma object_judge_took_end t :
  ObjectNav._took_end_action (fst (ObjectNav.judge t))
  = ObjectNav._took_end_action t.
Proof.
  destruct (distance_to_goal (get_metrics (ObjectNav.env t))) as [x|] eqn:Hx.
  - destruct (object_judge_some t x Hx) as (t' & -> & _ & _ & _ & Ht & _).
    exact Ht.
  - rewrite object_judge_none by assumption. reflexivity.
Qed.

Lemma object_judge_env t :
  ObjectNav.env (fst (ObjectNav.judge t)) = ObjectNav.env t.
Proof.
  destruct (distance_to_goal (get_metrics (ObjectNav.env t))) as [x|] eqn:Hx.
  - destruct (object_judge_some t x Hx)
      as (t' & -> & _ & _ & _ & _ & _ & _ & He). exact He.
  - rewrite object_judge_none by assumption. reflexivity.
Qed.

Lemma object_acted_env t s :
  ObjectNav.env (object_acted t s) = env_step s (ObjectNav.env t).
Proof. unfold object_acted. destruct (String.eqb s END); reflexivity. Qed.

Lemma object_acted_last t s :
  ObjectNav.last_geodesic_distance (object_acted t s)
  = ObjectNav.last_geodesic_distance t.
Proof. unfold object_acted. destruct (String.eqb s END); reflexivity. Qed.

Lemma object_acted_rewards t s :
  ObjectNav._rewards (object_acted t s) = ObjectNav._rewards t.
Proof. unfold object_acted. destruct (String.eqb s END); reflexivity. Qed.

Lemma object_acted_took_end t s :
  ObjectNav._took_end_action (object_acted t s)
  = (String.eqb s END || ObjectNav._took_end_action t)%bool.
Proof. unfold object_acted. destruct (String.eqb s END); reflexivity. Qed.

Lemma object_counted_last p t :
  ObjectNav.last_geodesic_distance (object_counted p t)
  = ObjectNav.last_geodesic_distance t.
Proof. unfold object_counted. destruct (pose_all_eq _ _); reflexivity. Qed.

Lemma object_counted_took_end p t :
  ObjectNav._took_end_action (object_counted p t)
  = ObjectNav._took_end_action t.
Proof. unfold object_counted. destruct (pose_all_eq _ _); reflexivity. Qed.

Lemma object_counted_rewards p t :
  ObjectNav._rewards (object_counted p t) = ObjectNav._rewards t.
Proof. unfold object_counted. destruct (pose_all_eq _ _); reflexivity. Qed.

Lemma object_counted_env p t :
  ObjectNav.env (object_counted p t) = ObjectNav.env t.
Proof. unfold object_counted. destruct (pose_all_eq _ _); reflexivity. Qed.

Lemma object_counted_success p t :
  ObjectNav._success (object_counted p t) = ObjectNav._success t.
Proof. unfold object_counted. destruct (pose_all_eq _ _); reflexivity. Qed.

Lemma object_counted_last_action_success p t :
  ObjectNav._last_action_success (object_counted p t)
  = ObjectNav._last_action_success t.
Proof. unfold object_counted. destruct (pose_all_eq _ _); reflexivity. Qed.

Lemma object_counted_min p t :
  ObjectNav._min_distance_to_goal (object_counted p t)
  = ObjectNav._min_distance_to_goal t.
Proof. unfold object_counted. destruct (pose_all_eq _ _); reflexivity. Qed.

(** The state a step ends in, whether [judge] returned or raised. *)
Lemma object_step_fst t a :
  fst (ObjectNav._step t a)
  = match py_getitem ObjectNav.action_names a with
    | Raised _ => object_logged t
    | Returned s =>
        match ObjectNav.judge (object_acted (object_logged t) s) with
        | (t2, Raised _) => t2
        | (t2, Returned _) =>
            object_counted
              (agent_position_and_rotation
                 (get_observations (ObjectNav.env t))) t2
        end
    end.
Proof.
  rewrite object_step_unfold. cbn zeta.
  destruct (py_getitem ObjectNav.action_names a) as [s|e]; [|reflexivity].
  destruct (ObjectNav.judge _) as [t2 [r|e]]; reflexivity.
Qed.

Lemma object_step_env t a :
  ObjectNav.env (fst (ObjectNav._step t a))
  = match py_getitem ObjectNav.action_names a with
    | Raised _ => ObjectNav.env t
    | Returned s => env_step s (ObjectNav.env t)
    end.
Proof.
  rewrite object_step_fst.
  destruct (py_getitem ObjectNav.action_names a) as [s|e]; [|reflexivity].
  pose proof (object_judge_env (object_acted (object_logged t) s)) as He.
  destruct (ObjectNav.judge _) as [t2 [r|e]]; cbn [fst] in He.
  - rewrite object_counted_env, He, object_acted_env. reflexivity.
  - rewrite He, object_acted_env. reflexivity.
Qed.

(** The stored distance after a step. *)
Lemma object_step_last t a :
  ObjectNav.last_geodesic_distance (fst (ObjectNav._step t a))
  = match py_getitem ObjectNav.action_names a with
    | Raised _ => ObjectNav.last_geodesic_distance t
    | Returned s =>
        guarded_distance
          (distance_to_goal (get_metrics (env_step s (ObjectNav.env t))))
          (ObjectNav.last_geodesic_distance t)
    end.
Proof.
  rewrite object_step_fst.
  destruct (py_getitem ObjectNav.action_names a) as [s|e]; [|reflexivity].
  pose proof (object_judge_last (object_acted (object_logged t) s)) as Hl.
  rewrite object_acted_env, object_acted_last in Hl.
  change (ObjectNav.env (object_logged t)) with (ObjectNav.env t) in Hl.
  change (ObjectNav.last_geodesic_distance (object_logged t))
    with (ObjectNav.last_geodesic_distance t) in Hl.
  assert (Hg : ObjectNav.last_geodesic_distance
                 (fst (ObjectNav.judge (object_acted (object_logged t) s)))
               = guarded_distance
                   (distance_to_goal
                      (get_metrics (env_step s (ObjectNav.env t))))
                   (ObjectNav.last_geodesic_distance t)).
  { rewrite Hl. destruct (distance_to_goal _); reflexivity. }
  destruct (ObjectNav.judge _) as [t2 [r|e]]; cbn [fst] in Hg.
  - rewrite object_counted_last. exact Hg.
  - exact Hg.
Qed.

Lemma object_step_took_end t a :
  ObjectNav._took_end_action (fst (ObjectNav._step t a))
  = match py_getitem ObjectNav.action_names a with
    | Raised _ => ObjectNav._took_end_action t
    | Returned s => (String.eqb s END || ObjectNav._took_end_action t)%bool
    end.
Proof.
  rewrite object_step_fst.
  destruct (py_getitem ObjectNav.action_names a) as [s|e]; [|reflexivity].
  pose proof (object_judge_took_end (object_acted (object_logged t) s)) as Ht.
  rewrite object_acted_took_end in Ht.
  destruct (ObjectNav.judge _) as [t2 [r|e]]; cbn [fst] in Ht.
  - rewrite object_counted_took_end. exact Ht.
  - exact Ht.
Qed.

Lemma object_step_fst_last t a :
  ObjectNav.last_geodesic_distance (fst (ObjectNav.step t a))
  = ObjectNav.last_geodesic_distance (fst (ObjectNav._step t a)).
Proof.
  unfold ObjectNav.step.
  destruct (ObjectNav._step t a) as [t' [r|e]]; reflexivity.
Qed.

Lemma object_step_fst_took_end t a :
  ObjectNav._took_end_action (fst (ObjectNav.step t a))
  = ObjectNav._took_end_action (fst (ObjectNav._step t a)).
Proof.
  unfold ObjectNav.step.
  destruct (ObjectNav._step t a) as [t' [r|e]]; reflexivity.
Qed.

Lemma object_step_fst_rewards t a :
  ObjectNav._rewards (fst (ObjectNav.step t a))
  = ObjectNav._rewards (fst (ObjectNav._step t a)).
Proof.
  unfold ObjectNav.step.
  destruct (ObjectNav._step t a) as [t' [r|e]]; reflexivity.
Qed.

Lemma object_step_fst_env t a :
  ObjectNav.env (fst (ObjectNav.step t a))
  = ObjectNav.env (fst (ObjectNav._step t a)).
Proof.
  unfold ObjectNav.step.
  destruct (ObjectNav._step t a) as [t' [r|e]]; reflexivity.
Qed.

Lemma object_step_snd t a :
  snd (ObjectNav.step t a) = snd (ObjectNav._step t a).
Proof.
  unfold ObjectNav.step.
  destruct (ObjectNav._step t a) as [t' [r|e]]; reflexivity.
Qed.

Lemma object_metrics_last t :
  ObjectNav.last_geodesic_distance (fst (ObjectNav.metrics t))
  = ObjectNav.last_geodesic_distance t.
Proof. unfold ObjectNav.metrics. destruct (negb _); reflexivity. Qed.

Lemma object_metrics_took_end t :
  ObjectNav._took_end_action (fst (ObjectNav.metrics t))
  = ObjectNav._took_end_action t.
Proof. unfold ObjectNav.metrics. destruct (negb _); reflexivity. Qed.

Lemma object_call_finite t c :
  PrimFloat.is_finite (ObjectNav.last_geodesic_distance t) = true ->
  PrimFloat.is_finite
    (ObjectNav.last_geodesic_distance (ObjectNav.do_call t c)) = true.
Proof.
  assert (Hstep : forall a,
            PrimFloat.is_finite (ObjectNav.last_geodesic_distance t) = true ->
            PrimFloat.is_finite
              (ObjectNav.last_geodesic_distance (fst (ObjectNav._step t a)))
            = true).
  { intros a Hf. rewrite object_step_last.
    destruct (py_getitem ObjectNav.action_names a) as [s|e];
      [apply guarded_distance_finite|]; assumption. }
  intros Hf. destruct c as [a|a| | |m]; cbn [ObjectNav.do_call];
    try assumption.
  - rewrite object_step_fst_last. auto.
  - auto.
  - rewrite object_metrics_last. assumption.
Qed.

Lemma object_run_finite cs : forall t,
  PrimFloat.is_finite (ObjectNav.last_geodesic_distance t) = true ->
  PrimFloat.is_finite
    (ObjectNav.last_geodesic_distance (ObjectNav.run t cs)) = true.
Proof.
  unfold ObjectNav.run.
  induction cs as [|c cs IH]; intros t Hf; cbn [fold_left]; [assumption|].
  apply IH, object_call_finite, Hf.
Qed.

Lemma object_init_finite (e : Env) info max :
  PrimFloat.is_finite
    (ObjectNav.last_geodesic_distance (ObjectNav.init e info max)) = true.
Proof. cbn. apply guarded_distance_finite. reflexivity. Qed.

Lemma object_call_took_end t c :
  ObjectNav._took_end_action t = true ->
  ObjectNav._took_end_action (ObjectNav.do_call t c) = true.
Proof.
  assert (Hstep : forall a, ObjectNav._took_end_action t = true ->
            ObjectNav._took_end_action (fst (ObjectNav._step t a)) = true).
  { intros a Ht. rewrite object_step_took_end.
    destruct (py_getitem ObjectNav.action_names a) as [s|e]; [|assumption].
    rewrite Ht. apply orb_true_r. }
  intros Ht. destruct c as [a|a| | |m]; cbn [ObjectNav.do_call];
    try assumption.
  - rewrite object_step_fst_took_end. auto.
  - auto.
  - rewrite object_metrics_took_end. assumption.
Qed.

Lemma object_run_took_end cs : forall t,
  ObjectNav._took_end_action t = true ->
  ObjectNav._took_end_action (ObjectNav.run t cs) = true.
Proof.
  unfold ObjectNav.run.
  induction cs as [|c cs IH]; intros t Ht; cbn [fold_left]; [assumption|].
  apply IH, object_call_took_end, Ht.
Qed.

End ObjectNavFacts.

(** ** The claims *)

Lemma is_finite_split (x : float) :
  PrimFloat.is_finite x = true ->
  PrimFloat.is_nan x = false /\ PrimFloat.is_infinity x = false.
Proof.
  unfold PrimFloat.is_finite.
  destruct (PrimFloat.is_nan x), (PrimFloat.is_infinity x);
    cbn; intros Hf; first [discriminate Hf | split; reflexivity].
Qed.

Lemma ten_is_not_zero : 10.0%float <> 0%float.
Proof.
  intros Heq.
  apply (f_equal (fun z => PrimFloat.eqb z 0)) in Heq.
  vm_compute in Heq. discriminate Heq.
Qed.

(** C3.  In both variants, a step whose distance reading is [None], NaN,
    +infinity or -infinity leaves [last_geodesic_distance] as it was before
    the step; and at every point of every episode, from construction on and
    whatever calls are made, [last_geodesic_distance] is neither NaN nor
    infinite. *)
Theorem invalid_reading_keeps_last_distance
    {Env : Type} `{HabitatEnvironment Env}
    `{NumPy} :
  (forall (t : PointNav.Task Env) (a : Z),
      invalid_reading
        (distance_to_goal
           (get_metrics (PointNav.env (fst (PointNav._step t a))))) ->
      PointNav.last_geodesic_distance (fst (PointNav._step t a))
      = PointNav.last_geodesic_distance t)
  /\ (forall (e : Env) info max (cs : list call),
         let d := PointNav.last_geodesic_distance
                    (PointNav.run (PointNav.init e info max) cs) in
         PrimFloat.is_nan d = false /\ PrimFloat.is_infinity d = false)
  /\ (forall (t : ObjectNav.Task Env) (a : Z),
         invalid_reading
           (distance_to_goal
              (get_metrics (ObjectNav.env (fst (ObjectNav._step t a))))) ->
         ObjectNav.last_geodesic_distance (fst (ObjectNav._step t a))
         = ObjectNav.last_geodesic_distance t)
  /\ (forall (e : Env) info max (cs : list call),
         let d := ObjectNav.last_geodesic_distance
                    (ObjectNav.run (ObjectNav.init e info max) cs) in
         PrimFloat.is_nan d = false /\ PrimFloat.is_infinity d = false).
Proof.
  split; [|split; [|split]].
  - intros t a Hinv.
    destruct (point_step_last t a) as [Hl | [e He]].
    + rewrite Hl. apply guarded_distance_invalid, Hinv.
    + rewrite He. reflexivity.
  - intros e info max cs d. apply is_finite_split.
    apply point_run_finite, point_init_finite.
  - intros t a Hinv. rewrite object_step_env in Hinv.
    rewrite object_step_last.
    destruct (py_getitem ObjectNav.action_names a) as [s|e]; [|reflexivity].
    apply guarded_distance_invalid, Hinv.
  - intros e info max cs d. apply is_finite_split.
    apply object_run_finite, object_init_finite.
Qed.

(** On the glitching episode the first reading is NaN: the stored distance
    stays at 3.0 in both variants. *)
Lemma invalid_reading_keeps_last_distance_witness :
  PointNav.last_geodesic_distance
    (fst (PointNav._step (PointNav.init Scripted.glitch Scripted.goal 500) 0))
  = PointNav.last_geodesic_distance
      (PointNav.init Scripted.glitch Scripted.goal 500)
  /\ ObjectNav.last_geodesic_distance
       (fst (ObjectNav._step
               (ObjectNav.init Scripted.glitch Scripted.goal 500) 0))
     = ObjectNav.last_geodesic_distance
         (ObjectNav.init Scripted.glitch Scripted.goal 500).
Proof.
  split.
  - apply (proj1 invalid_reading_keeps_last_distance).
    vm_compute. left. reflexivity.
  - apply (proj1 (proj2 (proj2 invalid_reading_keeps_last_distance))).
    vm_compute. left. reflexivity.
Defined.

(** C1.  In both variants, a step called with an index of the [end] action
    sets [_took_end_action], which then stays set whatever calls follow; sets
    [_success] to the goal-in-range test on the environment right after the
    action; makes [last_action_success] equal to [_success]; and the reward
    it returns is the base reward plus a bonus that is 10.0 exactly when
    [_success] is true and 0.0 otherwise.  (The object-goal step returns no
    reward when the reading is [None]: its [judge] raises [TypeError].) *)
Theorem end_action_sets_success_and_bonus
    {Env : Type} `{HabitatEnvironment Env}
    `{NumPy} :
  (forall (t : PointNav.Task Env) (a : Z),
      py_getitem PointNav.action_names a = Returned END ->
      let t' := fst (PointNav._step t a) in
      let e' := env_step END (PointNav.env t) in
      PointNav._took_end_action t' = true
      /\ (forall cs, PointNav._took_end_action (PointNav.run t' cs) = true)
      /\ PointNav._success t' = py_bool (spl (get_metrics e'))
      /\ PointNav.last_action_success t' = Some (PointNav._success t')
      /\ exists r bonus,
           snd (PointNav._step t a) = Returned r
           /\ reward r
              = (base_reward (PointNav.last_geodesic_distance t) e'
                 + bonus)%float
           /\ (bonus = 10.0%float <-> PointNav._success t' = true)
           /\ (PointNav._success t' = false -> bonus = 0%float))
  /\ (forall (t : ObjectNav.Task Env) (a : Z),
         py_getitem ObjectNav.action_names a = Returned END ->
         let t' := fst (ObjectNav._step t a) in
         let e' := env_step END (ObjectNav.env t) in
         ObjectNav._took_end_action t' = true
         /\ (forall cs, ObjectNav._took_end_action (ObjectNav.run t' cs) = true)
         /\ ObjectNav._success t' = py_bool (spl (get_metrics e'))
         /\ ObjectNav.last_action_success t' = Some (ObjectNav._success t')
         /\ match distance_to_goal (get_metrics e') with
            | None => snd (ObjectNav._step t a) = Raised TypeError
            | Some _ =>
                exists r bonus,
                  snd (ObjectNav._step t a) = Returned r
                  /\ reward r
                     = (base_reward (ObjectNav.last_geodesic_distance t) e'
                        + bonus)%float
                  /\ (bonus = 10.0%float <-> ObjectNav._success t' = true)
                  /\ (ObjectNav._success t' = false -> bonus = 0%float)
            end).
Proof.
  split.
  - intros t a Ha t' e'.
    assert (Ht' : PointNav._took_end_action t' = true).
    { subst t'. rewrite point_step_unfold, Ha. reflexivity. }
    split; [exact Ht'|]. split.
    { intros cs. apply point_run_took_end, Ht'. }
    subst t' e'. rewrite point_step_unfold, Ha. cbn.
    split; [reflexivity|]. split; [reflexivity|].
    eexists. eexists. split; [reflexivity|]. cbn. split; [reflexivity|].
    destruct (PointNav._is_goal_in_range _); split.
    + split; reflexivity.
    + intros Hf. discriminate Hf.
    + split; [intros Hb; destruct (ten_is_not_zero (eq_sym Hb))
             | intros Hf; discriminate Hf].
    + reflexivity.
  - intros t a Ha t' e'.
    assert (Ht' : ObjectNav._took_end_action t' = true).
    { subst t'. rewrite object_step_took_end, Ha. reflexivity. }
    split; [exact Ht'|]. split.
    { intros cs. apply object_run_took_end, Ht'. }
    subst t' e'. rewrite object_step_unfold, Ha. cbn zeta.
    set (t1 := object_acted (object_logged t) END).
    assert (He1 : ObjectNav.env t1 = env_step END (ObjectNav.env t)).
    { subst t1. rewrite object_acted_env. reflexivity. }
    assert (Hs1 : ObjectNav._success t1
                  = py_bool (spl (get_metrics (env_step END (ObjectNav.env t))))).
    { reflexivity. }
    assert (Hl1 : ObjectNav._last_action_success t1
                  = Some (ObjectNav._success t1)).
    { reflexivity. }
    assert (Hk1 : ObjectNav._took_end_action t1 = true) by reflexivity.
    assert (Hd1 : ObjectNav.last_geodesic_distance t1
                  = ObjectNav.last_geodesic_distance t) by reflexivity.
    destruct (distance_to_goal (get_metrics (env_step END (ObjectNav.env t))))
      as [x|] eqn:Hx.
    + rewrite <- He1 in Hx.
      destruct (object_judge_some t1 x Hx)
        as (t2 & -> & _ & _ & _ & _ & Hs2 & Hl2 & _).
      cbn [fst snd]. unfold ObjectNav.last_action_success.
      rewrite object_counted_success, object_counted_last_action_success.
      rewrite Hs2, Hl2, Hl1, Hs1. split; [reflexivity|]. split; [reflexivity|].
      rewrite Hk1, Hd1, He1.
      eexists. eexists. split; [reflexivity|]. cbn. split; [reflexivity|].
      destruct (py_bool _); split.
      * split; reflexivity.
      * intros Hf. discriminate Hf.
      * split; [intros Hb; destruct (ten_is_not_zero (eq_sym Hb))
               | intros Hf; discriminate Hf].
      * reflexivity.
    + rewrite <- He1 in Hx. rewrite (object_judge_none t1 Hx).
      cbn [fst snd]. unfold ObjectNav.last_action_success.
      rewrite Hl1, Hs1. repeat split; reflexivity.
Qed.

(** Index 3 is [end] in both action sets; on the overrunning episode the
    end step sets the flag in both variants. *)
Lemma end_action_sets_success_and_bonus_witness :
  PointNav._took_end_action
    (fst (PointNav._step (PointNav.init Scripted.overrun Scripted.goal 500) 3))
  = true
  /\ ObjectNav._took_end_action
       (fst (ObjectNav._step
               (ObjectNav.init Scripted.overrun Scripted.goal 500) 3))
     = true.
Proof.
  split.
  - apply (proj1 end_action_sets_success_and_bonus
             (PointNav.init Scripted.overrun Scripted.goal 500) 3%Z).
    reflexivity.
  - apply (proj2 end_action_sets_success_and_bonus
             (ObjectNav.init Scripted.overrun Scripted.goal 500) 3%Z).
    reflexivity.
Defined.

(** C2, as stated, fails: on the overrunning episode [end] is issued in
    range and then [move_ahead] is stepped; the second step is not an [end]
    step, yet its reward carries the bonus again, 10.49 instead of
    -0.01 + (2.0 - 1.5). *)
Lemma reward_of_non_end_step_counterexample :
  let t1 :=
    fst (PointNav._step (PointNav.init Scripted.overrun Scripted.goal 500) 3) in
  py_getitem PointNav.action_names 0 = Returned MOVE_AHEAD
  /\ MOVE_AHEAD <> END
  /\ exists r,
       snd (PointNav._step t1 0) = Returned r
       /\ reward r = 10.49%float
       /\ reward r
          <> (-0.01
              + (PointNav.last_geodesic_distance t1
                 - guarded_distance
                     (distance_to_goal
                        (get_metrics
                           (PointNav.env (fst (PointNav._step t1 0)))))
                     (PointNav.last_geodesic_distance t1)))%float.
Proof.
  cbv zeta. split; [reflexivity|]. split; [discriminate|].
  eexists. split; [reflexivity|]. split; [vm_compute; reflexivity|].
  intros Heq.
  apply (f_equal (fun z => PrimFloat.eqb z 10.49)) in Heq.
  vm_compute in Heq. discriminate Heq.
Qed.

(** C2, amended.  In both variants, a step whose action is not [end], taken
    while [_took_end_action] is still false, returns exactly
    -0.01 + (previous [last_geodesic_distance] - guarded new reading), with
    no bonus term.  (The object-goal step returns no reward when the reading
    is [None]: its [judge] raises [TypeError].) *)
Theorem reward_of_non_end_step {Env : Type} `{HabitatEnvironment Env} :
  (forall (t : PointNav.Task Env) (a : Z) (action_str : string),
      py_getitem PointNav.action_names a = Returned action_str ->
      action_str <> END ->
      PointNav._took_end_action t = false ->
      let last := PointNav.last_geodesic_distance t in
      let reading :=
        distance_to_goal (get_metrics (env_step action_str (PointNav.env t))) in
      exists r,
        snd (PointNav._step t a) = Returned r
        /\ reward r = (-0.01 + (last - guarded_distance reading last))%float)
  /\ (forall (t : ObjectNav.Task Env) (a : Z) (action_str : string),
         py_getitem ObjectNav.action_names a = Returned action_str ->
         action_str <> END ->
         ObjectNav._took_end_action t = false ->
         let last := ObjectNav.last_geodesic_distance t in
         let reading :=
           distance_to_goal
             (get_metrics (env_step action_str (ObjectNav.env t))) in
         match reading with
         | None => snd (ObjectNav._step t a) = Raised TypeError
         | Some _ =>
             exists r,
               snd (ObjectNav._step t a) = Returned r
               /\ reward r
                  = (-0.01 + (last - guarded_distance reading last))%float
         end).
Proof.
  split.
  - intros t a s Ha Hs Ht last reading.
    apply String.eqb_neq in Hs.
    rewrite point_step_unfold, Ha. cbn zeta. cbn [snd].
    eexists. split; [reflexivity|]. cbn [reward].
    rewrite point_judge_reward, point_acted_took_end, Hs, Ht.
    cbn [orb]. rewrite point_acted_last, point_acted_env. reflexivity.
  - intros t a s Ha Hs Ht last reading.
    apply String.eqb_neq in Hs.
    rewrite object_step_unfold, Ha. cbn zeta.
    set (t1 := object_acted (object_logged t) s).
    assert (He1 : ObjectNav.env t1 = env_step s (ObjectNav.env t)).
    { subst t1. rewrite object_acted_env. reflexivity. }
    assert (Hk1 : ObjectNav._took_end_action t1 = false).
    { subst t1. rewrite object_acted_took_end, Hs. exact Ht. }
    assert (Hd1 : ObjectNav.last_geodesic_distance t1 = last).
    { subst t1. rewrite object_acted_last. reflexivity. }
    subst reading. rewrite <- He1.
    destruct (distance_to_goal (get_metrics (ObjectNav.env t1)))
      as [x|] eqn:Hx.
    + destruct (object_judge_some t1 x Hx) as (t2 & -> & _).
      cbn [snd]. eexists. split; [reflexivity|]. cbn [reward].
      rewrite Hk1, Hd1. unfold base_reward. rewrite Hx. reflexivity.
    + rewrite (object_judge_none t1 Hx). reflexivity.
Qed.

(** The first move of the approach: distance 5.0 to 4.0, reward 0.99, in both
    variants. *)
Lemma reward_of_non_end_step_witness :
  (exists r,
      snd (PointNav._step (PointNav.init Scripted.approach Scripted.goal 500) 0)
      = Returned r
      /\ reward r = 0.99%float)
  /\ (exists r,
         snd (ObjectNav._step
                (ObjectNav.init Scripted.approach Scripted.goal 500) 0)
         = Returned r
         /\ reward r = 0.99%float).
Proof.
  split.
  - exact (proj1 reward_of_non_end_step
             (PointNav.init Scripted.approach Scripted.goal 500) 0%Z MOVE_AHEAD
             eq_refl ltac:(discriminate) eq_refl).
  - exact (proj2 reward_of_non_end_step
             (ObjectNav.init Scripted.approach Scripted.goal 500) 0%Z MOVE_AHEAD
             eq_refl ltac:(discriminate) eq_refl).
Defined.

(** *** The reward log *)

Section RewardLog.
Context {Env : Type} `{HabitatEnvironment Env} `{NumPy}.

(** A step appends the reward it returns to the log, and nothing when it
    raises. *)
Lemma point_step_appends (t : PointNav.Task Env) (a : Z) :
  PointNav._rewards (fst (PointNav._step t a))
  = PointNav._rewards t ++ returned_reward (snd (PointNav._step t a)).
Proof.
  rewrite point_step_unfold.
  destruct (py_getitem PointNav.action_names a) as [s|e]; cbn [fst snd].
  - rewrite point_judge_rewards, point_acted_rewards. reflexivity.
  - cbn. rewrite app_nil_r. reflexivity.
Qed.

Lemma object_step_appends (t : ObjectNav.Task Env) (a : Z) :
  ObjectNav._rewards (fst (ObjectNav._step t a))
  = ObjectNav._rewards t ++ returned_reward (snd (ObjectNav._step t a)).
Proof.
  rewrite object_step_unfold. cbn zeta.
  destruct (py_getitem ObjectNav.action_names a) as [s|e]; cbn [fst snd].
  - set (t1 := object_acted (object_logged t) s).
    assert (Hr1 : ObjectNav._rewards t1 = ObjectNav._rewards t).
    { subst t1. rewrite object_acted_rewards. reflexivity. }
    destruct (distance_to_goal (get_metrics (ObjectNav.env t1)))
      as [x|] eqn:Hx.
    + destruct (object_judge_some t1 x Hx) as (t2 & -> & _ & _ & Hr2 & _).
      cbn [fst snd returned_reward reward].
      rewrite object_counted_rewards, Hr2, Hr1. reflexivity.
    + rewrite (object_judge_none t1 Hx). cbn. rewrite app_nil_r. exact Hr1.
  - cbn. rewrite app_nil_r. reflexivity.
Qed.

Lemma point_metrics_not_done (t : PointNav.Task Env) :
  PointNav.is_done t = false -> PointNav.metrics t = (t, ∅).
Proof. unfold PointNav.metrics. intros ->. reflexivity. Qed.

Lemma point_metrics_done (t : PointNav.Task Env) :
  PointNav.is_done t = true ->
  snd (PointNav.metrics t) !! "total_reward"
  = Some (PyFloat (np_sum (PointNav._rewards t)))
  /\ PointNav._rewards (fst (PointNav.metrics t)) = [].
Proof.
  unfold PointNav.metrics. intros ->. cbn [negb fst snd]. split.
  - rewrite lookup_insert_ne by discriminate.
    rewrite lookup_insert_ne by discriminate.
    apply lookup_insert_eq.
  - reflexivity.
Qed.

Lemma object_metrics_not_done (t : ObjectNav.Task Env) :
  ObjectNav.is_done t = false ->
  snd (ObjectNav.metrics t) = ∅
  /\ ObjectNav._rewards (fst (ObjectNav.metrics t)) = ObjectNav._rewards t.
Proof.
  unfold ObjectNav.metrics. cbn zeta.
  change (ObjectNav.is_done
            (ObjectNav.set_task_info _
               (ObjectNav.set_task_info _
                  (ObjectNav.set_task_info _
                     (ObjectNav.set_task_info _ t)))))
    with (ObjectNav.is_done t).
  intros ->. split; reflexivity.
Qed.

Lemma object_metrics_done (t : ObjectNav.Task Env) :
  ObjectNav.is_done t = true ->
  snd (ObjectNav.metrics t) !! "total_reward"
  = Some (PyFloat (np_sum (ObjectNav._rewards t)))
  /\ ObjectNav._rewards (fst (ObjectNav.metrics t)) = [].
Proof.
  unfold ObjectNav.metrics. cbn zeta.
  change (ObjectNav.is_done
            (ObjectNav.set_task_info _
               (ObjectNav.set_task_info _
                  (ObjectNav.set_task_info _
                     (ObjectNav.set_task_info _ t)))))
    with (ObjectNav.is_done t).
  intros ->. cbn [negb fst snd]. split.
  - rewrite lookup_insert_ne by discriminate.
    rewrite lookup_insert_ne by discriminate.
    apply lookup_insert_eq.
  - reflexivity.
Qed.

(** Along any run the log holds exactly the rewards returned since the last
    drain. *)
Lemma point_run_pending_log cs : forall (t : PointNav.Task Env) pending,
  PointNav._rewards t = pending ->
  PointNav._rewards (fst (PointNav.run_pending t pending cs))
  = snd (PointNav.run_pending t pending cs).
Proof.
  induction cs as [|c cs IH]; intros t pending Hp; [exact Hp|].
  destruct c as [a|a| | |m]; cbn [PointNav.run_pending]; apply IH.
  - rewrite point_step_fst_rewards, point_step_snd, point_step_appends, Hp.
    reflexivity.
  - rewrite point_step_appends, Hp. reflexivity.
  - destruct (PointNav.is_done t) eqn:Hd.
    + apply point_metrics_done, Hd.
    + rewrite point_metrics_not_done by assumption. exact Hp.
  - exact Hp.
  - exact Hp.
Qed.

Lemma object_run_pending_log cs : forall (t : ObjectNav.Task Env) pending,
  ObjectNav._rewards t = pending ->
  ObjectNav._rewards (fst (ObjectNav.run_pending t pending cs))
  = snd (ObjectNav.run_pending t pending cs).
Proof.
  induction cs as [|c cs IH]; intros t pending Hp; [exact Hp|].
  destruct c as [a|a| | |m]; cbn [ObjectNav.run_pending]; apply IH.
  - rewrite object_step_fst_rewards, object_step_snd, object_step_appends, Hp.
    reflexivity.
  - rewrite object_step_appends, Hp. reflexivity.
  - destruct (ObjectNav.is_done t) eqn:Hd.
    + apply object_metrics_done, Hd.
    + destruct (object_metrics_not_done t Hd) as [_ ->]. exact Hp.
  - exact Hp.
  - exact Hp.
Qed.

End RewardLog.

(** C4.  In both variants: while the episode is not done, [metrics] returns
    the empty mapping and leaves the reward log as it is; once it is done,
    the summary's [total_reward] is the sum of the log and the log is empty
    afterwards; and along any sequence of calls from construction on, the log
    is exactly the list of rewards the steps returned since the previous
    drain, so that sum is the sum of those rewards. *)
Theorem metrics_drains_reward_log {Env : Type} `{HabitatEnvironment Env}
    `{NumPy} :
  (forall t : PointNav.Task Env,
      PointNav.is_done t = false ->
      snd (PointNav.metrics t) = ∅
      /\ PointNav._rewards (fst (PointNav.metrics t)) = PointNav._rewards t)
  /\ (forall t : PointNav.Task Env,
         PointNav.is_done t = true ->
         snd (PointNav.metrics t) !! "total_reward"
         = Some (PyFloat (np_sum (PointNav._rewards t)))
         /\ PointNav._rewards (fst (PointNav.metrics t)) = [])
  /\ (forall (e : Env) info max (cs : list call),
         PointNav._rewards
           (fst (PointNav.run_pending (PointNav.init e info max) [] cs))
         = snd (PointNav.run_pending (PointNav.init e info max) [] cs))
  /\ (forall t : ObjectNav.Task Env,
         ObjectNav.is_done t = false ->
         snd (ObjectNav.metrics t) = ∅
         /\ ObjectNav._rewards (fst (ObjectNav.metrics t))
            = ObjectNav._rewards t)
  /\ (forall t : ObjectNav.Task Env,
         ObjectNav.is_done t = true ->
         snd (ObjectNav.metrics t) !! "total_reward"
         = Some (PyFloat (np_sum (ObjectNav._rewards t)))
         /\ ObjectNav._rewards (fst (ObjectNav.metrics t)) = [])
  /\ (forall (e : Env) info max (cs : list call),
         ObjectNav._rewards
           (fst (ObjectNav.run_pending (ObjectNav.init e info max) [] cs))
         = snd (ObjectNav.run_pending (ObjectNav.init e info max) [] cs)).
Proof.
  split; [|split; [|split; [|split; [|split]]]].
  - intros t Hd. rewrite point_metrics_not_done by assumption.
    split; reflexivity.
  - intros t Hd. apply point_metrics_done, Hd.
  - intros e info max cs.
    apply (point_run_pending_log cs (PointNav.init e info max) []).
    reflexivity.
  - intros t Hd. apply object_metrics_not_done, Hd.
  - intros t Hd. apply object_metrics_done, Hd.
  - intros e info max cs.
    apply (object_run_pending_log cs (ObjectNav.init e info max) []).
    reflexivity.
Qed.

(** At the start of the approach neither task is done, and after the three
    moves and [end] both are: [metrics] answers accordingly. *)
Lemma metrics_drains_reward_log_witness :
  (snd (PointNav.metrics Scripted.point_start) = ∅
   /\ PointNav._rewards (fst (PointNav.metrics Scripted.point_start))
      = PointNav._rewards Scripted.point_start)
  /\ (snd (PointNav.metrics
             (PointNav.run Scripted.point_start Scripted.moves_then_end))
        !! "total_reward"
      = Some (PyFloat
                (np_sum
                   (PointNav._rewards
                      (PointNav.run Scripted.point_start
                         Scripted.moves_then_end))))
      /\ PointNav._rewards
           (fst (PointNav.metrics
                   (PointNav.run Scripted.point_start
                      Scripted.moves_then_end)))
         = [])
  /\ (snd (ObjectNav.metrics Scripted.object_start) = ∅
      /\ ObjectNav._rewards (fst (ObjectNav.metrics Scripted.object_start))
         = ObjectNav._rewards Scripted.object_start)
  /\ (snd (ObjectNav.metrics
             (ObjectNav.run Scripted.object_start Scripted.moves_then_end))
        !! "total_reward"
      = Some (PyFloat
                (np_sum
                   (ObjectNav._rewards
                      (ObjectNav.run Scripted.object_start
                         Scripted.moves_then_end))))
      /\ ObjectNav._rewards
           (fst (ObjectNav.metrics
                   (ObjectNav.run Scripted.object_start
                      Scripted.moves_then_end)))
         = []).
Proof.
  pose proof (@metrics_drains_reward_log Scripted.Env _ _)
    as (Hp0 & Hp1 & _ & Ho0 & Ho1 & _).
  split; [|split; [|split]].
  - apply Hp0. reflexivity.
  - apply Hp1. vm_compute. reflexivity.
  - apply Ho0. reflexivity.
  - apply Ho1. vm_compute. reflexivity.
Defined.

(** C6.  The scenario: the distance starts at 5.0; three [move_ahead] steps
    bring it to 4.0, 3.0 and 2.5; [end] is then issued with the goal in range
    and the distance still 2.5.  The four rewards are exactly 0.99, 0.99, 0.49
    and 9.99 (as binary64 numbers), and the metrics report
    [total_reward] = 12.46 and [success] = true; in both variants. *)
Theorem approach_scenario :
  (returned_reward (snd (PointNav.step Scripted.point_start 0))
   = [0.99%float]
   /\ returned_reward
        (snd (PointNav.step
                (PointNav.run Scripted.point_start [CallStep 0]) 0))
      = [0.99%float]
   /\ returned_reward
        (snd (PointNav.step
                (PointNav.run Scripted.point_start [CallStep 0; CallStep 0])
                0))
      = [0.49%float]
   /\ returned_reward
        (snd (PointNav.step
                (PointNav.run Scripted.point_start Scripted.three_moves) 3))
      = [9.99%float]
   /\ snd (PointNav.metrics
             (PointNav.run Scripted.point_start Scripted.moves_then_end))
        !! "total_reward"
      = Some (PyFloat 12.46)
   /\ snd (PointNav.metrics
             (PointNav.run Scripted.point_start Scripted.moves_then_end))
        !! "success"
      = Some (PyBool true))
  /\ (returned_reward (snd (ObjectNav.step Scripted.object_start 0))
      = [0.99%float]
      /\ returned_reward
           (snd (ObjectNav.step
                   (ObjectNav.run Scripted.object_start [CallStep 0]) 0))
         = [0.99%float]
      /\ returned_reward
           (snd (ObjectNav.step
                   (ObjectNav.run Scripted.object_start
                      [CallStep 0; CallStep 0]) 0))
         = [0.49%float]
      /\ returned_reward
           (snd (ObjectNav.step
                   (ObjectNav.run Scripted.object_start Scripted.three_moves)
                   3))
         = [9.99%float]
      /\ snd (ObjectNav.metrics
                (ObjectNav.run Scripted.object_start Scripted.moves_then_end))
           !! "total_reward"
         = Some (PyFloat 12.46)
      /\ snd (ObjectNav.metrics
                (ObjectNav.run Scripted.object_start Scripted.moves_then_end))
           !! "success"
         = Some (PyBool true)).
Proof.
  repeat split; vm_compute; reflexivity.
Qed.

(** The scenario's total does not depend on the order in which the four
    rewards are added. *)
Lemma approach_total_any_order :
  let a := 0.99%float in
  let b := 0.49%float in
  let c := 9.99%float in
  (((a + a) + b) + c = 12.46
   /\ (a + (a + b)) + c = 12.46
   /\ (a + a) + (b + c) = 12.46
   /\ a + ((a + b) + c) = 12.46
   /\ a + (a + (b + c)) = 12.46)%float.
Proof.
  repeat split; vm_compute; reflexivity.
Qed.

Lemma is_not_None_spec {A : Type} (x : option A) :
  is_not_None x = true <-> x <> None.
Proof.
  destruct x as [a|]; cbn; split; intros Hx;
    first [reflexivity | discriminate | contradiction ].
Qed.

(** C7.  In both variants: when the goal is in range (the SPL metric is
    truthy), [query_expert] returns the index of [end] in the action set
    (which is 3) with the flag true, and makes no call to the follower;
    otherwise it calls the follower once, on the task's target, and returns
    the action the follower suggests with a flag that is true exactly when
    that action is not [None]. *)
Theorem query_expert_spec {Env : Type} `{HabitatEnvironment Env} :
  (py_index PointNav.action_names END = Returned 3%Z
   /\ (forall t : PointNav.Task Env,
          py_bool (spl (get_metrics (PointNav.env t))) = true ->
          PointNav.query_expert t = (Returned (Some 3%Z, true), []))
   /\ (forall (t : PointNav.Task Env) (target : py_value),
          py_bool (spl (get_metrics (PointNav.env t))) = false ->
          PointNav.task_info t !! "target" = Some target ->
          exists flag,
            PointNav.query_expert t
            = (Returned (get_next_action (PointNav.env t) target, flag),
               [target])
            /\ (flag = true
                <-> get_next_action (PointNav.env t) target <> None)))
  /\ (py_index ObjectNav.action_names END = Returned 3%Z
      /\ (forall t : ObjectNav.Task Env,
             py_bool (spl (get_metrics (ObjectNav.env t))) = true ->
             ObjectNav.query_expert t = (Returned (Some 3%Z, true), []))
      /\ (forall (t : ObjectNav.Task Env) (target : py_value),
             py_bool (spl (get_metrics (ObjectNav.env t))) = false ->
             ObjectNav.task_info t !! "target" = Some target ->
             exists flag,
               ObjectNav.query_expert t
               = (Returned (get_next_action (ObjectNav.env t) target, flag),
                  [target])
               /\ (flag = true
                   <-> get_next_action (ObjectNav.env t) target <> None))).
Proof.
  split; (split; [reflexivity|split]).
  - intros t Hr. unfold PointNav.query_expert, PointNav._is_goal_in_range.
    rewrite Hr. reflexivity.
  - intros t target Hr Ht.
    unfold PointNav.query_expert, PointNav._is_goal_in_range.
    rewrite Hr, Ht. eexists. split; [reflexivity|]. apply is_not_None_spec.
  - intros t Hr. unfold ObjectNav.query_expert, ObjectNav._is_goal_in_range.
    rewrite Hr. reflexivity.
  - intros t target Hr Ht.
    unfold ObjectNav.query_expert, ObjectNav._is_goal_in_range.
    rewrite Hr, Ht. eexists. split; [reflexivity|]. apply is_not_None_spec.
Qed.

(** The oracle at the end of the approach (goal in range) and at its start
    (goal out of range, the follower suggests action 0), in both variants. *)
Lemma query_expert_spec_witness :
  PointNav.query_expert
    (PointNav.run Scripted.point_start Scripted.moves_then_end)
  = (Returned (Some 3%Z, true), [])
  /\ (exists flag,
         PointNav.query_expert Scripted.point_start
         = (Returned (Some 0%Z, flag), [PyList [PyFloat 1; PyFloat 0; PyFloat 2]])
         /\ (flag = true <-> Some 0%Z <> None))
  /\ ObjectNav.query_expert
       (ObjectNav.run Scripted.object_start Scripted.moves_then_end)
     = (Returned (Some 3%Z, true), [])
  /\ (exists flag,
         ObjectNav.query_expert Scripted.object_start
         = (Returned (Some 0%Z, flag), [PyList [PyFloat 1; PyFloat 0; PyFloat 2]])
         /\ (flag = true <-> Some 0%Z <> None)).
Proof.
  pose proof (@query_expert_spec Scripted.Env _)
    as ((_ & Hp1 & Hp2) & (_ & Ho1 & Ho2)).
  split; [|split; [|split]].
  - apply Hp1. reflexivity.
  - apply (Hp2 Scripted.point_start); reflexivity.
  - apply Ho1. reflexivity.
  - apply (Ho2 Scripted.object_start); reflexivity.
Defined.

(** Without a target in [task_info], the out-of-range query fails with
    [KeyError] before the follower is reached. *)
Lemma query_expert_without_target {Env : Type} `{HabitatEnvironment Env}
    (t : PointNav.Task Env) :
  py_bool (spl (get_metrics (PointNav.env t))) = false ->
  PointNav.task_info t !! "target" = None ->
  PointNav.query_expert t = (Raised KeyError, []).
Proof.
  intros Hr Ht. unfold PointNav.query_expert, PointNav._is_goal_in_range.
  rewrite Hr, Ht. reflexivity.
Qed.

(** C8, as stated, fails for the two task variants: their [render] rejects an
    unknown mode with an assertion failure, not with a not-implemented
    error (and answers the mode "depth" with the rgb frame). *)
Lemma render_modes_counterexample :
  PointNav.render Scripted.point_start "semantic" = Raised AssertionError
  /\ PointNav.render Scripted.point_start "semantic"
     <> Raised NotImplementedError
  /\ ObjectNav.render Scripted.object_start "semantic" = Raised AssertionError
  /\ PointNav.render Scripted.point_start "depth"
     = Returned (current_frame_rgb (PointNav.env Scripted.point_start))
  /\ PointNav.render Scripted.point_start "depth"
     <> Returned (current_frame_depth (PointNav.env Scripted.point_start)).
Proof.
  repeat split; try reflexivity; cbn; discriminate.
Qed.

(** C8, amended.  [HabitatTask.render] returns the simulator's rgb frame for
    the mode "rgb", its depth frame for "depth", and raises
    [NotImplementedError] for any other mode.  The [render] of both task
    variants returns the rgb frame for "rgb" and rejects any mode other than
    "rgb" and "depth" with an [AssertionError]. *)
Theorem render_modes {Env : Type} `{HabitatEnvironment Env} :
  (forall e : Env,
      HabitatTask.render e "rgb" = Returned (current_frame_rgb e)
      /\ HabitatTask.render e "depth" = Returned (current_frame_depth e)
      /\ forall mode : string,
           mode <> "rgb" -> mode <> "depth" ->
           HabitatTask.render e mode = Raised NotImplementedError)
  /\ (forall t : PointNav.Task Env,
         PointNav.render t "rgb"
         = Returned (current_frame_rgb (PointNav.env t))
         /\ forall mode : string,
              mode <> "rgb" -> mode <> "depth" ->
              PointNav.render t mode = Raised AssertionError)
  /\ (forall t : ObjectNav.Task Env,
         ObjectNav.render t "rgb"
         = Returned (current_frame_rgb (ObjectNav.env t))
         /\ forall mode : string,
              mode <> "rgb" -> mode <> "depth" ->
              ObjectNav.render t mode = Raised AssertionError).
Proof.
  split; [|split].
  - intros e. split; [reflexivity|]. split; [reflexivity|].
    intros mode Hrgb Hdepth. unfold HabitatTask.render.
    apply String.eqb_neq in Hrgb, Hdepth. rewrite Hrgb, Hdepth. reflexivity.
  - intros t. split; [reflexivity|].
    intros mode Hrgb Hdepth. unfold PointNav.render.
    apply String.eqb_neq in Hrgb, Hdepth. rewrite Hrgb, Hdepth. reflexivity.
  - intros t. split; [reflexivity|].
    intros mode Hrgb Hdepth. unfold ObjectNav.render.
    apply String.eqb_neq in Hrgb, Hdepth. rewrite Hrgb, Hdepth. reflexivity.
Qed.

Lemma render_modes_witness :
  HabitatTask.render Scripted.approach "semantic" = Raised NotImplementedError
  /\ PointNav.render Scripted.point_start "semantic" = Raised AssertionError
  /\ ObjectNav.render Scripted.object_start "semantic"
     = Raised AssertionError.
Proof.
  pose proof (@render_modes Scripted.Env _) as (Hh & Hp & Ho).
  split; [|split].
  - apply (Hh Scripted.approach); discriminate.
  - apply (Hp Scripted.point_start); discriminate.
  - apply (Ho Scripted.object_start); discriminate.
Defined.

(** *** The [info] mapping *)

Section StepInfo.
Context {Env : Type} `{HabitatEnvironment Env} `{NumPy}.

Lemma object_judge_last_action_ind (t : ObjectNav.Task Env) :
  ObjectNav._last_action_ind (fst (ObjectNav.judge t))
  = ObjectNav._last_action_ind t.
Proof.
  unfold ObjectNav.judge.
  destruct (distance_to_goal (get_metrics (ObjectNav.env t))); reflexivity.
Qed.

Lemma object_step_last_action_ind (t : ObjectNav.Task Env) (a : Z) :
  ObjectNav._last_action_ind (fst (ObjectNav.step t a))
  = ObjectNav._last_action_ind t.
Proof.
  assert (Hin : ObjectNav._last_action_ind (fst (ObjectNav._step t a))
                = ObjectNav._last_action_ind t).
  { rewrite object_step_fst.
    destruct (py_getitem ObjectNav.action_names a) as [s|e]; [|reflexivity].
    pose proof (object_judge_last_action_ind
                  (object_acted (object_logged t) s)) as Hj.
    assert (Ha : ObjectNav._last_action_ind (object_acted (object_logged t) s)
                 = ObjectNav._last_action_ind t).
    { unfold object_acted. destruct (String.eqb s END); reflexivity. }
    rewrite Ha in Hj.
    destruct (ObjectNav.judge _) as [t2 [r|e]]; cbn [fst] in Hj; [|exact Hj].
    unfold object_counted. destruct (pose_all_eq _ _); exact Hj. }
  unfold ObjectNav.step.
  destruct (ObjectNav._step t a) as [t' [r|e]]; exact Hin.
Qed.

Lemma point_step_info (t : PointNav.Task Env) (a : Z) r :
  snd (PointNav._step t a) = Returned r ->
  info r
  = {[ "last_action_success" :=
         py_optional_bool
           (PointNav.last_action_success (fst (PointNav._step t a))) ]}.
Proof.
  rewrite point_step_unfold.
  destruct (py_getitem PointNav.action_names a) as [s|e]; cbn [fst snd];
    intros Hr; [|discriminate Hr].
  injection Hr as <-. reflexivity.
Qed.

Lemma object_step_info (t : ObjectNav.Task Env) (a : Z) r :
  snd (ObjectNav._step t a) = Returned r ->
  info r
  = {[ "last_action_success" :=
         py_optional_bool
           (ObjectNav.last_action_success (fst (ObjectNav._step t a))) ]}.
Proof.
  rewrite object_step_unfold. cbn zeta.
  destruct (py_getitem ObjectNav.action_names a) as [s|e]; cbn [fst snd];
    [|intros Hr; discriminate Hr].
  destruct (ObjectNav.judge _) as [t2 [x|e]]; cbn [fst snd];
    intros Hr; [|discriminate Hr].
  injection Hr as <-. cbn [info]. unfold ObjectNav.last_action_success.
  rewrite object_counted_last_action_success. reflexivity.
Qed.

End StepInfo.

(** C9, as stated, fails: the first step of the approach returns a result
    whose [info] has no entry for the action index, in either variant. *)
Lemma step_info_counterexample :
  (exists r,
      snd (PointNav.step Scripted.point_start 0) = Returned r
      /\ info r !! "action" = None
      /\ dom (info r) = {[ "last_action_success" ]})
  /\ (exists r,
         snd (ObjectNav.step Scripted.object_start 0) = Returned r
         /\ info r !! "action" = None
         /\ dom (info r) = {[ "last_action_success" ]}).
Proof.
  split; eexists; (split; [reflexivity|]); split;
    first [ reflexivity | cbn; apply dom_singleton_L ].
Qed.

(** C9, amended.  In both variants the [info] mapping of the result a step
    returns holds exactly one entry, [last_action_success], with the value of
    [last_action_success] after the step; the action index is not in it, and
    the base [step] returns that same result.  Only [HabitatTask._step],
    which the object-goal task overrides, adds the entry [action] with the
    action index. *)
Theorem step_info {Env : Type} `{HabitatEnvironment Env} :
  (forall (t : PointNav.Task Env) (a : Z) r,
      snd (PointNav._step t a) = Returned r ->
      snd (PointNav.step t a) = Returned r
      /\ info r
         = {[ "last_action_success" :=
                py_optional_bool
                  (PointNav.last_action_success (fst (PointNav._step t a))) ]}
      /\ info r !! "action" = None)
  /\ (forall (t : ObjectNav.Task Env) (a : Z) r,
         snd (ObjectNav._step t a) = Returned r ->
         snd (ObjectNav.step t a) = Returned r
         /\ info r
            = {[ "last_action_success" :=
                   py_optional_bool
                     (ObjectNav.last_action_success
                        (fst (ObjectNav._step t a))) ]}
         /\ info r !! "action" = None)
  /\ (forall (t : ObjectNav.Task Env) (a : Z) r,
         snd (ObjectNav.HabitatTask_step t a) = Returned r ->
         info r !! "action" = Some (PyInt a)
         /\ is_Some (info r !! "last_action_success")).
Proof.
  split; [|split].
  - intros t a r Hr. rewrite point_step_snd. split; [exact Hr|].
    rewrite (point_step_info t a r Hr). split; [reflexivity|].
    apply lookup_singleton_ne. discriminate.
  - intros t a r Hr. rewrite object_step_snd. split; [exact Hr|].
    rewrite (object_step_info t a r Hr). split; [reflexivity|].
    apply lookup_singleton_ne. discriminate.
  - intros t a r. unfold ObjectNav.HabitatTask_step. cbn zeta.
    destruct (py_getitem ObjectNav.action_names a) as [s|e]; cbn [snd];
      [|intros Hr; discriminate Hr].
    set (t0 := ObjectNav.set_last_action_success None _).
    pose proof (object_step_last_action_ind t0 a) as Hind.
    pose proof (object_step_snd t0 a) as Hsnd.
    destruct (ObjectNav.step t0 a) as [t1 [r1|e]]; cbn [fst snd] in *;
      intros Hr; [|discriminate Hr].
    injection Hr as <-. cbn [info]. rewrite Hind. cbn.
    rewrite lookup_insert_ne by discriminate.
    rewrite lookup_insert_eq. split; [reflexivity|].
    rewrite lookup_insert_ne by discriminate.
    rewrite lookup_insert_ne by discriminate.
    rewrite (object_step_info t0 a r1 (eq_sym Hsnd)).
    rewrite lookup_singleton_eq. eexists. reflexivity.
Qed.

Lemma step_info_witness :
  (exists r,
      snd (PointNav.step Scripted.point_start 0) = Returned r
      /\ info r !! "action" = None)
  /\ (exists r,
         snd (ObjectNav.step Scripted.object_start 0) = Returned r
         /\ info r !! "action" = None)
  /\ (exists r,
         snd (ObjectNav.HabitatTask_step Scripted.object_start 0) = Returned r
         /\ info r !! "action" = Some (PyInt 0)).
Proof.
  pose proof (@step_info Scripted.Env _) as (Hp & Ho & Hh).
  assert (Hrp : exists r,
             snd (PointNav._step Scripted.point_start 0) = Returned r)
    by (vm_compute; eexists; reflexivity).
  assert (Hro : exists r,
             snd (ObjectNav._step Scripted.object_start 0) = Returned r)
    by (vm_compute; eexists; reflexivity).
  assert (Hrh : exists r,
             snd (ObjectNav.HabitatTask_step Scripted.object_start 0)
             = Returned r)
    by (vm_compute; eexists; reflexivity).
  destruct Hrp as [rp Hrp], Hro as [ro Hro], Hrh as [rh Hrh].
  split; [|split].
  - exists rp. destruct (Hp _ _ _ Hrp) as (Hs & _ & Hn).
    split; [exact Hs | exact Hn].
  - exists ro. destruct (Ho _ _ _ Hro) as (Hs & _ & Hn).
    split; [exact Hs | exact Hn].
  - exists rh. split; [exact Hrh|]. apply (Hh _ _ _ Hrh).
Defined.

(** *** Strings and the episode identifier *)

Lemma string_app_cons (c : ascii) (s1 s2 : string) :
  String c s1 +:+ s2 = String c (s1 +:+ s2).
Proof. reflexivity. Qed.

Lemma string_app_nil_l (s : string) : "" +:+ s = s.
Proof. reflexivity. Qed.

Lemma string_app_nil_r (s : string) : s +:+ "" = s.
Proof.
  induction s as [|c s IH]; [reflexivity|].
  rewrite string_app_cons, IH. reflexivity.
Qed.

Lemma string_length_app (s1 s2 : string) :
  String.length (s1 +:+ s2) = (String.length s1 + String.length s2)%nat.
Proof.
  induction s1 as [|c s1 IH]; [reflexivity|].
  rewrite string_app_cons. cbn [String.length]. rewrite IH. reflexivity.
Qed.

Lemma string_drop_app (s1 s2 : string) :
  string_drop (String.length s1) (s1 +:+ s2) = s2.
Proof.
  induction s1 as [|c s1 IH]; [reflexivity|].
  rewrite string_app_cons. exact IH.
Qed.

Lemma string_take_app (s1 s2 : string) :
  string_take (String.length s1) (s1 +:+ s2) = s1.
Proof.
  induction s1 as [|c s1 IH]; [destruct s2; reflexivity|].
  rewrite string_app_cons. cbn [String.length string_take].
  rewrite IH. reflexivity.
Qed.

Lemma dirname_basename (s : string) : dirname_part s +:+ basename s = s.
Proof.
  induction s as [|c s IH]; [reflexivity|].
  cbn [dirname_part basename].
  destruct (has_char "/" s); [rewrite string_app_cons, IH; reflexivity|].
  destruct (Ascii.eqb c "/"); reflexivity.
Qed.

Lemma before_from_last_dot (s : string) :
  before_last_dot s +:+ from_last_dot s = s.
Proof.
  induction s as [|c s IH]; [reflexivity|].
  cbn [before_last_dot from_last_dot].
  destruct (has_char "." s); [rewrite string_app_cons, IH; reflexivity|].
  destruct (Ascii.eqb c "."); [reflexivity|].
  apply string_app_nil_r.
Qed.

(** A path is its directory part, its filename stem and its suffix. *)
Lemma path_decomposition (path : string) :
  dirname_part path +:+ filename_stem path +:+ filename_suffix path = path.
Proof.
  unfold filename_stem, filename_suffix.
  rewrite <- (dirname_basename path) at 4.
  destruct (basename path) as [|c rest]; [reflexivity|].
  rewrite string_app_cons, before_from_last_dot. reflexivity.
Qed.

(** The slice [[-15:-4]] picks the 11 characters that precede the last 4. *)
Lemma py_slice_stem (dir stem suffix : string) :
  String.length stem = 11%nat ->
  String.length suffix = 4%nat ->
  py_slice (dir +:+ stem +:+ suffix) (-15) (-4) = stem.
Proof.
  intros Hstem Hsuffix. unfold py_slice, py_slice_bound.
  rewrite !string_length_app, Hstem, Hsuffix.
  replace (Z.of_nat (String.length dir + (11 + 4)))
    with (Z.of_nat (String.length dir) + 15)%Z by lia.
  change (-15 <? 0)%Z with true. change (-4 <? 0)%Z with true. cbv iota.
  replace (Z.to_nat (Z.max 0 (Z.min (Z.of_nat (String.length dir) + 15)
                                (-4 + (Z.of_nat (String.length dir) + 15)))
                     - Z.max 0 (Z.min (Z.of_nat (String.length dir) + 15)
                                  (-15 + (Z.of_nat (String.length dir) + 15)))))
    with (String.length stem) by lia.
  replace (Z.to_nat (Z.max 0 (Z.min (Z.of_nat (String.length dir) + 15)
                                (-15 + (Z.of_nat (String.length dir) + 15)))))
    with (String.length dir) by lia.
  rewrite string_drop_app. apply string_take_app.
Qed.

(** C10, as stated, fails: for a Gibson scene the stored identifier is not
    built from the filename stem ("Adrian") but from the 11 characters before
    the extension, which reach into the directory name. *)
Lemma episode_identifier_counterexample :
  filename_stem (scene_id Scripted.gibson_episode) = "Adrian"
  /\ HabitatTask._episode_id Scripted.gibson_episode = "bson/Adrian_7"
  /\ HabitatTask._episode_id Scripted.gibson_episode
     <> filename_stem (scene_id Scripted.gibson_episode)
        +:+ "_" +:+ episode_id Scripted.gibson_episode.
Proof.
  split; [reflexivity|]. split; [reflexivity|]. vm_compute. discriminate.
Qed.

(** C10, amended.  The stored episode identifier is the slice [[-15:-4]] of
    the scene path, a "_" and the episode id; that slice is the filename stem
    for every scene path whose stem has 11 characters and whose suffix has 4
    (a dot and three characters), and the object-goal task stores and
    reports that identifier. *)
Theorem episode_identifier :
  (forall ep : Episode,
      HabitatTask._episode_id ep
      = py_slice (scene_id ep) (-15) (-4) +:+ "_" +:+ episode_id ep)
  /\ (forall ep : Episode,
         String.length (filename_stem (scene_id ep)) = 11%nat ->
         String.length (filename_suffix (scene_id ep)) = 4%nat ->
         HabitatTask._episode_id ep
         = filename_stem (scene_id ep) +:+ "_" +:+ episode_id ep)
  /\ (forall (Env : Type) (E : HabitatEnvironment Env) (N : NumPy) (e : Env)
          info max,
         ObjectNav._episode_id (ObjectNav.init e info max)
         = HabitatTask._episode_id (get_current_episode e)
         /\ ObjectNav.task_info
              (fst (ObjectNav.metrics (ObjectNav.init e info max)))
              !! "episode_id"
            = Some (PyStr (HabitatTask._episode_id (get_current_episode e)))).
Proof.
  split; [reflexivity|]. split.
  - intros ep Hstem Hsuffix. unfold HabitatTask._episode_id.
    rewrite <- (path_decomposition (scene_id ep)) at 1.
    rewrite py_slice_stem by assumption. reflexivity.
  - intros Env E N e info max. split; [reflexivity|].
    unfold ObjectNav.metrics. cbn zeta.
    destruct (negb _); cbn [fst]; cbn; apply lookup_insert_eq.
Qed.

Lemma episode_identifier_witness :
  HabitatTask._episode_id Scripted.mp3d_episode = "17DRP5sb8fy_42".
Proof.
  apply (proj1 (proj2 episode_identifier) Scripted.mp3d_episode);
    reflexivity.
Defined.

(** *** The running minimum of the object-goal task *)

Lemma SFcompare_antisym (a b : spec_float) :
  SFcompare b a = option_map CompOpp (SFcompare a b).
Proof.
  destruct a as [sa|sa| |sa ma ea], b as [sb|sb| |sb mb eb]; cbn;
    try destruct sa; try destruct sb; cbn; try reflexivity.
  - pose proof (Pos.compare_cont_antisym ma mb Eq) as Hanti. cbn in Hanti.
    rewrite (Z.compare_antisym ea eb).
    destruct (ea ?= eb)%Z; cbn; try reflexivity.
    rewrite <- Hanti, ?CompOpp_involutive. reflexivity.
  - pose proof (Pos.compare_cont_antisym ma mb Eq) as Hanti. cbn in Hanti.
    rewrite (Z.compare_antisym ea eb).
    destruct (ea ?= eb)%Z; cbn; try reflexivity.
    rewrite <- Hanti, ?CompOpp_involutive. reflexivity.
Qed.

Lemma SFcompare_not_nan (a b : spec_float) :
  SFeqb a a = true -> SFeqb b b = true -> SFcompare a b <> None.
Proof.
  destruct a as [sa|sa| |sa ma ea], b as [sb|sb| |sb mb eb]; cbn;
    intros Ha Hb; try discriminate.
Qed.

(** On two numbers, [not (m < x)] gives [x <= m]. *)
Lemma float_not_ltb_leb (x m : float) :
  PrimFloat.is_nan x = false -> PrimFloat.is_nan m = false ->
  (m <? x)%float = false -> (x <=? m)%float = true.
Proof.
  unfold PrimFloat.is_nan.
  rewrite !FloatAxioms.eqb_spec, ltb_spec, leb_spec.
  unfold SFltb, SFleb. intros Hx Hm.
  apply negb_false_iff in Hx, Hm.
  pose proof (SFcompare_not_nan _ _ Hm Hx) as Hnn.
  rewrite (SFcompare_antisym (Prim2SF m) (Prim2SF x)).
  destruct (SFcompare (Prim2SF m) (Prim2SF x)) as [[| |]|]; cbn;
    intros Hlt; first [reflexivity | discriminate Hlt | contradiction].
Qed.

Lemma float_leb_refl (m : float) :
  PrimFloat.is_nan m = false -> (m <=? m)%float = true.
Proof.
  unfold PrimFloat.is_nan. rewrite FloatAxioms.eqb_spec, leb_spec.
  unfold SFeqb, SFleb. intros Hm. apply negb_false_iff in Hm.
  destruct (SFcompare (Prim2SF m) (Prim2SF m)) as [[| |]|];
    first [reflexivity | discriminate Hm].
Qed.

Lemma float_ltb_leb (m x : float) :
  (m <? x)%float = true -> (m <=? x)%float = true.
Proof.
  rewrite ltb_spec, leb_spec. unfold SFltb, SFleb.
  destruct (SFcompare (Prim2SF m) (Prim2SF x)) as [[| |]|]; intros Hlt;
    first [reflexivity | discriminate Hlt].
Qed.

(** On two numbers Python's [min] is a lower bound of both and again a
    number. *)
Lemma py_min_numbers (x m : float) :
  PrimFloat.is_nan x = false -> PrimFloat.is_nan m = false ->
  (py_min x m <=? m)%float = true
  /\ (py_min x m <=? x)%float = true
  /\ PrimFloat.is_nan (py_min x m) = false.
Proof.
  intros Hx Hm. unfold py_min. destruct (m <? x)%float eqn:Hlt.
  - split; [apply float_leb_refl, Hm|]. split; [|exact Hm].
    apply float_ltb_leb, Hlt.
  - split; [apply float_not_ltb_leb; assumption|].
    split; [apply float_leb_refl, Hx | exact Hx].
Qed.

(** On a NaN reading Python's [min] returns the NaN, and from a NaN minimum
    it returns the next reading, whatever it is. *)
Lemma py_min_nan_reading (x m : float) :
  PrimFloat.is_nan x = true -> py_min x m = x.
Proof.
  unfold py_min, PrimFloat.is_nan.
  rewrite FloatAxioms.eqb_spec, ltb_spec. unfold SFeqb, SFltb.
  destruct (Prim2SF x) as [sx|sx| |sx mx ex] eqn:Ex; intros Hx.
  - discriminate Hx.
  - destruct sx; discriminate Hx.
  - destruct (Prim2SF m); reflexivity.
  - exfalso. revert Hx. cbn.
    destruct sx; rewrite Z.compare_refl, Pos.compare_cont_refl;
      discriminate.
Qed.

Lemma py_min_nan_minimum (x m : float) :
  PrimFloat.is_nan m = true -> py_min x m = x.
Proof.
  unfold py_min, PrimFloat.is_nan.
  rewrite FloatAxioms.eqb_spec, ltb_spec. unfold SFeqb, SFltb.
  destruct (Prim2SF m) as [sm|sm| |sm mm em] eqn:Em; intros Hm.
  - discriminate Hm.
  - destruct sm; discriminate Hm.
  - reflexivity.
  - exfalso. revert Hm. cbn.
    destruct sm; rewrite Z.compare_refl, Pos.compare_cont_refl;
      discriminate.
Qed.

(** The running minimum after an object-goal step. *)
Lemma object_step_min {Env : Type} `{HabitatEnvironment Env}
    (t : ObjectNav.Task Env) (a : Z) :
  ObjectNav._min_distance_to_goal (fst (ObjectNav._step t a))
  = match py_getitem ObjectNav.action_names a with
    | Raised _ => ObjectNav._min_distance_to_goal t
    | Returned s =>
        match distance_to_goal (get_metrics (env_step s (ObjectNav.env t))) with
        | None => ObjectNav._min_distance_to_goal t
        | Some x => py_min x (ObjectNav._min_distance_to_goal t)
        end
    end.
Proof.
  rewrite object_step_fst.
  destruct (py_getitem ObjectNav.action_names a) as [s|e]; [|reflexivity].
  set (t1 := object_acted (object_logged t) s).
  assert (He1 : ObjectNav.env t1 = env_step s (ObjectNav.env t)).
  { subst t1. rewrite object_acted_env. reflexivity. }
  assert (Hm1 : ObjectNav._min_distance_to_goal t1
                = ObjectNav._min_distance_to_goal t).
  { subst t1. unfold object_acted. destruct (String.eqb s END); reflexivity. }
  rewrite <- He1, <- Hm1.
  destruct (distance_to_goal (get_metrics (ObjectNav.env t1))) as [x|] eqn:Hx.
  - destruct (object_judge_some t1 x Hx) as (t2 & -> & _ & Hm2 & _).
    rewrite object_counted_min. exact Hm2.
  - rewrite (object_judge_none t1 Hx). reflexivity.
Qed.

(** While the readings are numbers the running minimum behaves as one: it
    does not increase, and it is at most the reading. *)
Lemma min_distance_monotone_on_numbers {Env : Type} `{HabitatEnvironment Env}
    (t : ObjectNav.Task Env) (a : Z) (s : string) (x : float) :
  py_getitem ObjectNav.action_names a = Returned s ->
  distance_to_goal (get_metrics (env_step s (ObjectNav.env t))) = Some x ->
  PrimFloat.is_nan x = false ->
  PrimFloat.is_nan (ObjectNav._min_distance_to_goal t) = false ->
  let m' := ObjectNav._min_distance_to_goal (fst (ObjectNav._step t a)) in
  (m' <=? ObjectNav._min_distance_to_goal t)%float = true
  /\ (m' <=? x)%float = true
  /\ PrimFloat.is_nan m' = false.
Proof.
  intros Ha Hr Hx Hm m'. subst m'. rewrite object_step_min, Ha, Hr.
  apply py_min_numbers; assumption.
Qed.

(** C5 on the code.  On the glitching episode (first reading 3.0, then NaN,
    then 5.0) the running minimum goes from 3.0 to NaN to 5.0: it increases
    and is not the minimum of the readings.  On the episode whose simulator
    drops the reading, the step raises [TypeError]. *)
Theorem min_distance_after_glitch :
  let t0 := ObjectNav.init Scripted.glitch Scripted.goal 500 in
  let t1 := fst (ObjectNav.step t0 0) in
  let t2 := fst (ObjectNav.step t1 0) in
  ObjectNav._min_distance_to_goal t0 = 3.0%float
  /\ PrimFloat.is_nan (ObjectNav._min_distance_to_goal t1) = true
  /\ ObjectNav._min_distance_to_goal t2 = 5.0%float
  /\ (ObjectNav._min_distance_to_goal t0
      <? ObjectNav._min_distance_to_goal t2)%float = true
  /\ snd (ObjectNav.step
            (ObjectNav.init Scripted.dropout Scripted.goal 500) 0)
     = Raised TypeError.
Proof.
  repeat split; vm_compute; reflexivity.
Qed.

(** * Further properties of the code *)

(** ** Floats, continued *)

(** A finite float passes the guard. *)
Lemma finite_passes_guard (x : float) :
  PrimFloat.is_finite x = true -> is_inf_or_nan x = false.
Proof.
  unfold is_inf_or_nan, PrimFloat.is_finite, PrimFloat.is_infinity.
  rewrite eqb_neg_infinity, (eqb_infinity x), (eqb_infinity (abs x)), abs_spec.
  generalize (PrimFloat.is_nan x); intros isnan.
  destruct (Prim2SF x) as [sg | sg | | sg m e];
    try destruct sg; destruct isnan; cbn; intros Hg;
    first [ reflexivity | discriminate Hg ].
Qed.

Lemma guarded_distance_of_finite (x fallback : float) :
  PrimFloat.is_finite x = true -> guarded_distance (Some x) fallback = x.
Proof.
  intros Hx. cbn. rewrite finite_passes_guard by assumption. reflexivity.
Qed.

(** A finite float minus itself is +0. *)
Lemma finite_sub_diag (x : float) :
  PrimFloat.is_finite x = true -> (x - x)%float = 0%float.
Proof.
  intros Hx. apply Prim2SF_inj. rewrite sub_spec.
  revert Hx. unfold PrimFloat.is_finite, PrimFloat.is_infinity, PrimFloat.is_nan.
  rewrite (eqb_infinity (abs x)), abs_spec, FloatAxioms.eqb_spec.
  destruct (Prim2SF x) as [sg | sg | | sg m e]; intros Hx.
  - destruct sg; reflexivity.
  - destruct sg; discriminate Hx.
  - discriminate Hx.
  - unfold SF64sub, SFsub. cbv zeta. rewrite Z.sub_diag. reflexivity.
Qed.

(** The step cost plus a zero distance term is the step cost. *)
Lemma step_cost_plus_zero : (-0.01 + 0)%float = (-0.01)%float.
Proof. vm_compute. reflexivity. Qed.

(** A float compares equal to zero exactly when it is +0 or -0. *)
Lemma eqb_zero_iff (x : float) :
  (x =? 0)%float = true <-> x = 0%float \/ x = neg_zero.
Proof.
  split.
  - rewrite FloatAxioms.eqb_spec. intros Hx.
    rewrite <- (SF2Prim_Prim2SF x).
    change (Prim2SF 0) with (S754_zero false) in Hx.
    destruct (Prim2SF x) as [sg | sg | | sg m e].
    + destruct sg; [right | left]; reflexivity.
    + destruct sg; discriminate Hx.
    + discriminate Hx.
    + destruct sg; discriminate Hx.
  - intros [-> | ->]; reflexivity.
Qed.

Lemma nan_is_truthy (x : float) :
  PrimFloat.is_nan x = true -> py_bool (Some x) = true.
Proof.
  intros Hx. cbn. destruct (x =? 0)%float eqn:Hz; [|reflexivity].
  apply eqb_zero_iff in Hz. destruct Hz as [-> | ->]; discriminate Hx.
Qed.

(** ** Action indices *)

Lemma py_getitem_out_of_range {A : Type} (l : list A) (i : Z) :
  (i < - Z.of_nat (length l) \/ Z.of_nat (length l) <= i)%Z ->
  py_getitem l i = Raised IndexError.
Proof.
  intros Hi. unfold py_getitem.
  destruct (i <? 0)%Z eqn:Hneg.
  - apply Z.ltb_lt in Hneg.
    replace (0 <=? i + Z.of_nat (length l))%Z with false; [reflexivity|].
    symmetry. apply Z.leb_gt. lia.
  - apply Z.ltb_ge in Hneg.
    replace (i <? Z.of_nat (length l))%Z with false
      by (symmetry; apply Z.ltb_ge; lia).
    rewrite andb_false_r. reflexivity.
Qed.

Lemma py_getitem_in_range {A : Type} (l : list A) (i : Z) :
  (- Z.of_nat (length l) <= i < Z.of_nat (length l))%Z ->
  exists x, py_getitem l i = Returned x /\ x ∈ l.
Proof.
  intros Hi. unfold py_getitem.
  set (j := if (i <? 0)%Z then (i + Z.of_nat (length l))%Z else i).
  assert (Hj : (0 <= j < Z.of_nat (length l))%Z).
  { subst j. destruct (i <? 0)%Z eqn:Hneg;
      [apply Z.ltb_lt in Hneg | apply Z.ltb_ge in Hneg]; lia. }
  replace (0 <=? j)%Z with true by (symmetry; apply Z.leb_le; lia).
  replace (j <? Z.of_nat (length l))%Z with true
    by (symmetry; apply Z.ltb_lt; lia).
  cbn [andb].
  destruct (l !! Z.to_nat j) as [x|] eqn:Hx.
  - exists x. split; [reflexivity|]. eapply list_elem_of_lookup_2, Hx.
  - apply lookup_ge_None in Hx. lia.
Qed.

Lemma py_getitem_returned {A : Type} (l : list A) (i : Z) (x : A) :
  py_getitem l i = Returned x ->
  (- Z.of_nat (length l) <= i < Z.of_nat (length l))%Z /\ x ∈ l.
Proof.
  intros Hx.
  destruct (Z_lt_dec i (- Z.of_nat (length l))) as [Hlo|Hlo].
  { rewrite py_getitem_out_of_range in Hx by lia. discriminate Hx. }
  destruct (Z_le_dec (Z.of_nat (length l)) i) as [Hhi|Hhi].
  { rewrite py_getitem_out_of_range in Hx by lia. discriminate Hx. }
  split; [lia|].
  destruct (py_getitem_in_range l i) as (y & Hy & Hin); [lia|].
  rewrite Hy in Hx. injection Hx as <-. exact Hin.
Qed.

Lemma py_getitem_wrap {A : Type} (l : list A) (i : Z) :
  (- Z.of_nat (length l) <= i < 0)%Z ->
  py_getitem l i = py_getitem l (i + Z.of_nat (length l)).
Proof.
  intros Hi. unfold py_getitem.
  replace (i <? 0)%Z with true by (symmetry; apply Z.ltb_lt; lia).
  replace (i + Z.of_nat (length l) <? 0)%Z with false
    by (symmetry; apply Z.ltb_ge; lia).
  reflexivity.
Qed.

(** X1.  A step with an index outside [-n, n), n the size of the action
    space, raises [IndexError] and sends nothing to the simulator.  The
    point-goal task is left exactly as it was; the object-goal task has by
    then logged the agent's pose, and nothing else.  With an index inside the
    range the point-goal step always returns a result. *)
Theorem step_rejects_index_out_of_range
    {Env : Type} `{HabitatEnvironment Env} :
  (forall (t : PointNav.Task Env) (a : Z),
      (a < - Z.of_nat PointNav.action_space
       \/ Z.of_nat PointNav.action_space <= a)%Z ->
      PointNav._step t a = (t, Raised IndexError))
  /\ (forall (t : PointNav.Task Env) (a : Z),
         (- Z.of_nat PointNav.action_space <= a
          < Z.of_nat PointNav.action_space)%Z ->
         exists r, snd (PointNav._step t a) = Returned r)
  /\ (forall (t : ObjectNav.Task Env) (a : Z),
         (a < - Z.of_nat ObjectNav.action_space
          \/ Z.of_nat ObjectNav.action_space <= a)%Z ->
         let t' := fst (ObjectNav._step t a) in
         snd (ObjectNav._step t a) = Raised IndexError
         /\ ObjectNav.env t' = ObjectNav.env t
         /\ ObjectNav._actions_taken t' = ObjectNav._actions_taken t
         /\ ObjectNav._rewards t' = ObjectNav._rewards t
         /\ ObjectNav.last_geodesic_distance t'
            = ObjectNav.last_geodesic_distance t
         /\ ObjectNav._min_distance_to_goal t'
            = ObjectNav._min_distance_to_goal t
         /\ ObjectNav._num_invalid_actions t'
            = ObjectNav._num_invalid_actions t
         /\ ObjectNav._took_end_action t' = ObjectNav._took_end_action t
         /\ ObjectNav._positions t'
            = ObjectNav._positions t
              ++ [ObjectNav.position_record
                    (agent_position_and_rotation
                       (get_observations (ObjectNav.env t)))]).
Proof.
  split; [|split].
  - intros t a Ha. apply point_step_raised.
    apply py_getitem_out_of_range. exact Ha.
  - intros t a Ha.
    destruct (py_getitem_in_range PointNav.action_names a Ha) as (s & Hs & _).
    rewrite point_step_unfold, Hs. cbn zeta. cbn [snd]. eexists. reflexivity.
  - intros t a Ha t'. subst t'.
    rewrite object_step_unfold.
    rewrite (py_getitem_out_of_range ObjectNav.action_names a Ha).
    cbn zeta. cbn [fst snd]. repeat split; reflexivity.
Qed.

Lemma step_rejects_index_out_of_range_witness :
  PointNav._step Scripted.point_start 4
  = (Scripted.point_start, Raised IndexError)
  /\ (exists r, snd (PointNav._step Scripted.point_start (-4)) = Returned r)
  /\ snd (ObjectNav._step Scripted.object_start (-7)) = Raised IndexError.
Proof.
  pose proof (@step_rejects_index_out_of_range Scripted.Env _)
    as (Hout & Hin & Hobj).
  split; [|split].
  - apply Hout. vm_compute. right. discriminate.
  - apply Hin. vm_compute. split; [discriminate | reflexivity].
  - apply (Hobj Scripted.object_start (-7)%Z). vm_compute. left. reflexivity.
Defined.

(** X2.  A negative index counts from the end of the action set: for
    -n <= a < 0 the step with index [a] is the step with index [a + n]. *)
Theorem step_negative_index_wraps {Env : Type} `{HabitatEnvironment Env} :
  (forall (t : PointNav.Task Env) (a : Z),
      (- Z.of_nat PointNav.action_space <= a < 0)%Z ->
      PointNav._step t a
      = PointNav._step t (a + Z.of_nat PointNav.action_space))
  /\ (forall (t : ObjectNav.Task Env) (a : Z),
         (- Z.of_nat ObjectNav.action_space <= a < 0)%Z ->
         ObjectNav._step t a
         = ObjectNav._step t (a + Z.of_nat ObjectNav.action_space)).
Proof.
  split.
  - intros t a Ha. rewrite !point_step_unfold.
    rewrite (py_getitem_wrap PointNav.action_names a Ha). reflexivity.
  - intros t a Ha. rewrite !object_step_unfold.
    rewrite (py_getitem_wrap ObjectNav.action_names a Ha). reflexivity.
Qed.

(** Index -1 is [end] for the point-goal task; for the object-goal task it
    is [look_down], and [end] is -3. *)
Lemma step_negative_index_wraps_witness :
  PointNav._step Scripted.point_start (-1)
  = PointNav._step Scripted.point_start 3
  /\ ObjectNav._step Scripted.object_start (-3)
     = ObjectNav._step Scripted.object_start 3.
Proof.
  pose proof (@step_negative_index_wraps Scripted.Env _) as (Hp & Ho).
  split.
  - apply (Hp Scripted.point_start (-1)%Z). vm_compute.
    split; [discriminate | reflexivity].
  - apply (Ho Scripted.object_start (-3)%Z). vm_compute.
    split; [discriminate | reflexivity].
Defined.

(** X3.  In both action sets, an index of the action space and its name
    determine each other: [action_names()[i]] is a name whose [index] is [i],
    and a name that [index] finds at [i] is the one stored at [i]; a name
    outside the set makes [index] raise [ValueError]. *)
Theorem action_index_round_trip :
  (forall i : Z,
      (0 <= i < Z.of_nat PointNav.action_space)%Z ->
      exists s,
        py_getitem PointNav.action_names i = Returned s
        /\ py_index PointNav.action_names s = Returned i)
  /\ (forall (s : string) (i : Z),
         py_index PointNav.action_names s = Returned i ->
         py_getitem PointNav.action_names i = Returned s)
  /\ (forall s : string,
         s ∉ PointNav.action_names ->
         py_index PointNav.action_names s = Raised ValueError)
  /\ (forall i : Z,
         (0 <= i < Z.of_nat ObjectNav.action_space)%Z ->
         exists s,
           py_getitem ObjectNav.action_names i = Returned s
           /\ py_index ObjectNav.action_names s = Returned i)
  /\ (forall (s : string) (i : Z),
         py_index ObjectNav.action_names s = Returned i ->
         py_getitem ObjectNav.action_names i = Returned s)
  /\ (forall s : string,
         s ∉ ObjectNav.action_names ->
         py_index ObjectNav.action_names s = Raised ValueError).
Proof.
  split; [|split; [|split; [|split; [|split]]]].
  - intros i Hi.
    assert (Hc : i = 0%Z \/ i = 1%Z \/ i = 2%Z \/ i = 3%Z)
      by (unfold PointNav.action_space in Hi; cbn in Hi; lia).
    destruct Hc as [-> | [-> | [-> | ->]]];
      eexists; split; reflexivity.
  - intros s i. unfold PointNav.action_names, PointNav._actions.
    cbn [py_index].
    repeat (match goal with
            | |- context [String.eqb ?x s] =>
                destruct (String.eqb_spec x s) as [<- | ?]
            end; [intros [= <-]; reflexivity|]).
    intros Hs. discriminate Hs.
  - intros s Hs. unfold PointNav.action_names, PointNav._actions in *.
    cbn [py_index].
    repeat (match goal with
            | |- context [String.eqb ?x s] =>
                destruct (String.eqb_spec x s) as [<- | ?]
            end; [exfalso; apply Hs; set_solver|]).
    reflexivity.
  - intros i Hi.
    assert (Hc : i = 0%Z \/ i = 1%Z \/ i = 2%Z \/ i = 3%Z \/ i = 4%Z
                 \/ i = 5%Z)
      by (unfold ObjectNav.action_space in Hi; cbn in Hi; lia).
    destruct Hc as [-> | [-> | [-> | [-> | [-> | ->]]]]];
      eexists; split; reflexivity.
  - intros s i. unfold ObjectNav.action_names, ObjectNav._actions.
    cbn [py_index].
    repeat (match goal with
            | |- context [String.eqb ?x s] =>
                destruct (String.eqb_spec x s) as [<- | ?]
            end; [intros [= <-]; reflexivity|]).
    intros Hs. discriminate Hs.
  - intros s Hs. unfold ObjectNav.action_names, ObjectNav._actions in *.
    cbn [py_index].
    repeat (match goal with
            | |- context [String.eqb ?x s] =>
                destruct (String.eqb_spec x s) as [<- | ?]
            end; [exfalso; apply Hs; set_solver|]).
    reflexivity.
Qed.

Lemma action_index_round_trip_witness :
  (exists s,
      py_getitem PointNav.action_names 3 = Returned s
      /\ py_index PointNav.action_names s = Returned 3%Z)
  /\ py_getitem ObjectNav.action_names 4 = Returned LOOK_UP
  /\ py_index PointNav.action_names LOOK_UP = Raised ValueError.
Proof.
  pose proof action_index_round_trip as (Hp1 & _ & Hp3 & _ & Ho2 & _).
  split; [|split].
  - apply Hp1. vm_compute. split; [discriminate | reflexivity].
  - apply Ho2. reflexivity.
  - apply Hp3. unfold PointNav.action_names, PointNav._actions.
    rewrite !elem_of_cons, elem_of_nil.
    intros [Hs | [Hs | [Hs | [Hs | []]]]]; discriminate Hs.
Defined.

(** ** The object-goal task's logs *)

Lemma nan_eqb_false (x y : float) :
  PrimFloat.is_nan x = true -> (x =? y)%float = false.
Proof.
  unfold PrimFloat.is_nan. rewrite !FloatAxioms.eqb_spec. unfold SFeqb.
  destruct (Prim2SF x) as [sx|sx| |sx mx ex]; intros Hx.
  - discriminate Hx.
  - destruct sx; discriminate Hx.
  - reflexivity.
  - exfalso. revert Hx. cbn.
    destruct sx; rewrite Z.compare_refl, Pos.compare_cont_refl;
      discriminate.
Qed.

Section ObjectLogs.
Context {Env : Type} `{HabitatEnvironment Env} `{NumPy}.
Implicit Types (t : ObjectNav.Task Env) (a : Z).

(** [judge] touches the running minimum, the reward log and the stored
    distance only. *)
Lemma object_judge_frame t :
  let t' := fst (ObjectNav.judge t) in
  ObjectNav._num_invalid_actions t' = ObjectNav._num_invalid_actions t
  /\ ObjectNav._actions_taken t' = ObjectNav._actions_taken t
  /\ ObjectNav._positions t' = ObjectNav._positions t
  /\ ObjectNav.task_info t' = ObjectNav.task_info t
  /\ ObjectNav._num_steps_taken t' = ObjectNav._num_steps_taken t
  /\ ObjectNav.max_steps t' = ObjectNav.max_steps t.
Proof.
  unfold ObjectNav.judge.
  destruct (distance_to_goal (get_metrics (ObjectNav.env t)));
    repeat split; reflexivity.
Qed.

Lemma object_acted_frame t s :
  let t' := object_acted t s in
  ObjectNav._num_invalid_actions t' = ObjectNav._num_invalid_actions t
  /\ ObjectNav._actions_taken t' = ObjectNav._actions_taken t ++ [s]
  /\ ObjectNav._positions t' = ObjectNav._positions t
  /\ ObjectNav.task_info t' = ObjectNav.task_info t
  /\ ObjectNav._num_steps_taken t' = ObjectNav._num_steps_taken t
  /\ ObjectNav.max_steps t' = ObjectNav.max_steps t.
Proof.
  unfold object_acted. destruct (String.eqb s END); repeat split; reflexivity.
Qed.

Lemma object_counted_frame p t :
  let t' := object_counted p t in
  ObjectNav._actions_taken t' = ObjectNav._actions_taken t
  /\ ObjectNav._positions t' = ObjectNav._positions t
  /\ ObjectNav.task_info t' = ObjectNav.task_info t
  /\ ObjectNav._num_steps_taken t' = ObjectNav._num_steps_taken t
  /\ ObjectNav.max_steps t' = ObjectNav.max_steps t.
Proof.
  unfold object_counted. destruct (pose_all_eq _ _); repeat split; reflexivity.
Qed.

(** What a step appends to the two logs. *)
Lemma object_step_logs t a :
  ObjectNav._positions (fst (ObjectNav._step t a))
  = ObjectNav._positions t
    ++ [ObjectNav.position_record
          (agent_position_and_rotation (get_observations (ObjectNav.env t)))]
  /\ ObjectNav._actions_taken (fst (ObjectNav._step t a))
     = match py_getitem ObjectNav.action_names a with
       | Raised _ => ObjectNav._actions_taken t
       | Returned s => ObjectNav._actions_taken t ++ [s]
       end.
Proof.
  rewrite object_step_fst.
  destruct (py_getitem ObjectNav.action_names a) as [s|e];
    [|split; reflexivity].
  pose proof (object_judge_frame (object_acted (object_logged t) s))
    as (_ & Ha & Hp & _).
  pose proof (object_acted_frame (object_logged t) s) as (_ & Ha1 & Hp1 & _).
  cbv zeta in *. rewrite Ha1 in Ha. rewrite Hp1 in Hp.
  destruct (ObjectNav.judge _) as [t2 [r|e]]; cbn [fst] in *.
  - pose proof (object_counted_frame
                  (agent_position_and_rotation
                     (get_observations (ObjectNav.env t))) t2)
      as (Ha2 & Hp2 & _).
    cbv zeta in *. rewrite Ha2, Hp2, Ha, Hp. split; reflexivity.
  - rewrite Ha, Hp. split; reflexivity.
Qed.

(** The invalid-action count after a step. *)
Lemma object_step_count t a :
  ObjectNav._num_invalid_actions (fst (ObjectNav._step t a))
  = match py_getitem ObjectNav.action_names a with
    | Raised _ => ObjectNav._num_invalid_actions t
    | Returned s =>
        match distance_to_goal (get_metrics (env_step s (ObjectNav.env t))) with
        | None => ObjectNav._num_invalid_actions t
        | Some _ =>
            if pose_all_eq
                 (agent_position_and_rotation
                    (get_observations (ObjectNav.env t)))
                 (agent_position_and_rotation
                    (get_observations (env_step s (ObjectNav.env t))))
            then S (ObjectNav._num_invalid_actions t)
            else ObjectNav._num_invalid_actions t
        end
    end.
Proof.
  rewrite object_step_fst.
  destruct (py_getitem ObjectNav.action_names a) as [s|e]; [|reflexivity].
  set (t1 := object_acted (object_logged t) s).
  assert (He1 : ObjectNav.env t1 = env_step s (ObjectNav.env t)).
  { subst t1. rewrite object_acted_env. reflexivity. }
  pose proof (object_judge_frame t1) as (Hn & _).
  pose proof (object_judge_env t1) as He2.
  pose proof (object_acted_frame (object_logged t) s) as (Hn1 & _).
  cbv zeta in *. fold t1 in Hn1.
  rewrite <- He1.
  destruct (distance_to_goal (get_metrics (ObjectNav.env t1))) as [x|] eqn:Hx.
  - destruct (object_judge_some t1 x Hx) as (t2 & Hj & _).
    rewrite Hj in *. cbn [fst] in *.
    unfold object_counted. rewrite He2.
    destruct (pose_all_eq _ _); cbn; rewrite Hn, Hn1; reflexivity.
  - rewrite (object_judge_none t1 Hx) in *. cbn [fst] in *.
    rewrite Hn1. reflexivity.
Qed.

Lemma object_step_fst_fields t a :
  ObjectNav._num_invalid_actions (fst (ObjectNav.step t a))
  = ObjectNav._num_invalid_actions (fst (ObjectNav._step t a))
  /\ ObjectNav._actions_taken (fst (ObjectNav.step t a))
     = ObjectNav._actions_taken (fst (ObjectNav._step t a))
  /\ ObjectNav._positions (fst (ObjectNav.step t a))
     = ObjectNav._positions (fst (ObjectNav._step t a))
  /\ ObjectNav._min_distance_to_goal (fst (ObjectNav.step t a))
     = ObjectNav._min_distance_to_goal (fst (ObjectNav._step t a))
  /\ ObjectNav._success (fst (ObjectNav.step t a))
     = ObjectNav._success (fst (ObjectNav._step t a))
  /\ ObjectNav.task_info (fst (ObjectNav.step t a))
     = ObjectNav.task_info (fst (ObjectNav._step t a)).
Proof.
  unfold ObjectNav.step.
  destruct (ObjectNav._step t a) as [t' [r|e]]; repeat split; reflexivity.
Qed.

Lemma object_metrics_frame t :
  let t' := fst (ObjectNav.metrics t) in
  ObjectNav.env t' = ObjectNav.env t
  /\ ObjectNav._num_invalid_actions t' = ObjectNav._num_invalid_actions t
  /\ ObjectNav._actions_taken t' = ObjectNav._actions_taken t
  /\ ObjectNav._positions t' = ObjectNav._positions t
  /\ ObjectNav._min_distance_to_goal t' = ObjectNav._min_distance_to_goal t
  /\ ObjectNav._success t' = ObjectNav._success t
  /\ ObjectNav._num_steps_taken t' = ObjectNav._num_steps_taken t
  /\ ObjectNav.max_steps t' = ObjectNav.max_steps t.
Proof.
  unfold ObjectNav.metrics. destruct (negb _); repeat split; reflexivity.
Qed.

End ObjectLogs.

(** X4.  The object-goal task counts a step as an invalid action exactly
    when the step returns and the pose observed after the action equals,
    coordinate by coordinate, the pose observed before it; a step that raises
    is not counted.  No call ever lowers the count, and a pose with a NaN
    coordinate never equals itself, so an agent reporting one is not counted
    even when it stands still. *)
Theorem invalid_action_count
    {Env : Type} `{HabitatEnvironment Env} `{NumPy} :
  (forall (t : ObjectNav.Task Env) (a : Z),
      ObjectNav._num_invalid_actions (fst (ObjectNav._step t a))
      = match snd (ObjectNav._step t a) with
        | Raised _ => ObjectNav._num_invalid_actions t
        | Returned _ =>
            if pose_all_eq
                 (agent_position_and_rotation
                    (get_observations (ObjectNav.env t)))
                 (agent_position_and_rotation
                    (get_observations
                       (ObjectNav.env (fst (ObjectNav._step t a)))))
            then S (ObjectNav._num_invalid_actions t)
            else ObjectNav._num_invalid_actions t
        end)
  /\ (forall (t : ObjectNav.Task Env) (c : call),
         ObjectNav._num_invalid_actions t
         <= ObjectNav._num_invalid_actions (ObjectNav.do_call t c))
  /\ (forall p : Pose,
         PrimFloat.is_nan (pos0 p) = true \/ PrimFloat.is_nan (pos1 p) = true
         \/ PrimFloat.is_nan (pos2 p) = true
         \/ PrimFloat.is_nan (pos3 p) = true ->
         pose_all_eq p p = false).
Proof.
  split; [|split].
  - intros t a. rewrite object_step_count, object_step_env.
    rewrite object_step_unfold. cbn zeta.
    destruct (py_getitem ObjectNav.action_names a) as [s|e]; [|reflexivity].
    set (t1 := object_acted (object_logged t) s).
    assert (He1 : ObjectNav.env t1 = env_step s (ObjectNav.env t)).
    { subst t1. rewrite object_acted_env. reflexivity. }
    rewrite <- He1.
    destruct (distance_to_goal (get_metrics (ObjectNav.env t1)))
      as [x|] eqn:Hx.
    + destruct (object_judge_some t1 x Hx) as (t2 & -> & _). reflexivity.
    + rewrite (object_judge_none t1 Hx). reflexivity.
  - intros t c.
    assert (Hstep : forall a,
               ObjectNav._num_invalid_actions t
               <= ObjectNav._num_invalid_actions (fst (ObjectNav._step t a))).
    { intros a. rewrite object_step_count.
      destruct (py_getitem ObjectNav.action_names a) as [s|e]; [|lia].
      destruct (distance_to_goal _); [|lia].
      destruct (pose_all_eq _ _); lia. }
    destruct c as [a|a| | |m]; cbn [ObjectNav.do_call]; try lia.
    + destruct (object_step_fst_fields t a) as (-> & _). apply Hstep.
    + apply Hstep.
    + destruct (object_metrics_frame t) as (_ & -> & _). lia.
  - intros p Hp. unfold pose_all_eq.
    destruct Hp as [Hp | [Hp | [Hp | Hp]]];
      rewrite (nan_eqb_false _ _ Hp); cbn;
      rewrite ?andb_false_r; reflexivity.
Qed.

Lemma invalid_action_count_witness :
  pose_all_eq {| pos0 := 1; pos1 := nan; pos2 := 0; pos3 := 90 |}
    {| pos0 := 1; pos1 := nan; pos2 := 0; pos3 := 90 |}
  = false.
Proof.
  apply (proj2 (proj2 (@invalid_action_count Scripted.Env _ _))).
  right. left. reflexivity.
Defined.

(** On the turning episode the first action leaves the pose as it was and is
    counted; the second one moves the agent and is not. *)
Lemma invalid_action_count_example :
  ObjectNav._num_invalid_actions
    (ObjectNav.run (ObjectNav.init Scripted.turn_then_move Scripted.goal 500)
       [CallStep 1])
  = 1
  /\ ObjectNav._num_invalid_actions
       (ObjectNav.run
          (ObjectNav.init Scripted.turn_then_move Scripted.goal 500)
          [CallStep 1; CallStep 0])
     = 1.
Proof. split; vm_compute; reflexivity. Qed.

(** X5.  Along every sequence of calls on an object-goal task, from
    construction on: the simulator's state is the initial one advanced by
    exactly the logged actions, in order (nothing else is sent to it, and
    every action sent is logged); every logged action is a name of the action
    set; and one pose is logged per step, also for a step that failed on its
    index, so the pose log is never shorter than the action log. *)
Theorem action_log_is_simulator_trajectory
    {Env : Type} `{HabitatEnvironment Env} `{NumPy}
    (e : Env) (info : gmap string py_value) (max : nat) (cs : list call) :
  let t := ObjectNav.run (ObjectNav.init e info max) cs in
  ObjectNav.env t
  = fold_left (fun e' s => env_step s e') (ObjectNav._actions_taken t) e
  /\ Forall (fun s => s ∈ ObjectNav.action_names) (ObjectNav._actions_taken t)
  /\ length (ObjectNav._actions_taken t) <= length (ObjectNav._positions t).
Proof.
  cbv zeta.
  set (I := fun t : ObjectNav.Task Env =>
              ObjectNav.env t
              = fold_left (fun e' s => env_step s e')
                  (ObjectNav._actions_taken t) e
              /\ Forall (fun s => s ∈ ObjectNav.action_names)
                   (ObjectNav._actions_taken t)
              /\ length (ObjectNav._actions_taken t)
                 <= length (ObjectNav._positions t)).
  assert (Hstep : forall t a, I t -> I (fst (ObjectNav._step t a))).
  { intros t a (He & Hf & Hl). unfold I.
    destruct (object_step_logs t a) as (Hp & Ha).
    rewrite Hp, Ha, object_step_env, length_app. cbn [length].
    destruct (py_getitem ObjectNav.action_names a) as [s|ex] eqn:Hg.
    - rewrite fold_left_app, length_app. cbn. rewrite He.
      split; [reflexivity|]. split; [|lia].
      apply Forall_app. split; [exact Hf|].
      apply Forall_singleton. apply (py_getitem_returned _ _ _ Hg).
    - split; [exact He|]. split; [exact Hf|lia]. }
  assert (Hcall : forall t c, I t -> I (ObjectNav.do_call t c)).
  { intros t c Ht. destruct c as [a|a| | |m]; cbn [ObjectNav.do_call];
      try exact Ht.
    - pose proof (Hstep t a Ht) as Hs. unfold I in *.
      destruct (object_step_fst_fields t a) as (_ & -> & -> & _).
      rewrite object_step_fst_env. exact Hs.
    - apply Hstep, Ht.
    - unfold I in *.
      destruct (object_metrics_frame t) as (-> & _ & -> & -> & _).
      exact Ht. }
  assert (Hrun : forall cs' t, I t -> I (ObjectNav.run t cs')).
  { unfold ObjectNav.run.
    induction cs' as [|c cs' IH]; intros t Ht; cbn [fold_left];
      [exact Ht|].
    apply IH, Hcall, Ht. }
  apply Hrun. unfold I. cbn. split; [reflexivity|]. split; [constructor|lia].
Qed.

(** ** The metrics summary *)

Lemma trajectory_info_idempotent actions names positions id base :
  trajectory_info actions names positions id
    (trajectory_info actions names positions id base)
  = trajectory_info actions names positions id base.
Proof.
  unfold trajectory_info. apply map_eq. intros k.
  rewrite !lookup_insert. repeat case_decide; reflexivity.
Qed.

Lemma trajectory_info_other actions names positions id base (k : string) :
  k <> "taken_actions" -> k <> "action_names" -> k <> "followed_path" ->
  k <> "episode_id" ->
  trajectory_info actions names positions id base !! k = base !! k.
Proof.
  intros H1 H2 H3 H4. unfold trajectory_info.
  rewrite !lookup_insert_ne by congruence. reflexivity.
Qed.

Section MetricsSummary.
Context {Env : Type} `{HabitatEnvironment Env} `{NumPy}.

Lemma point_metrics_done_eq (t : PointNav.Task Env) :
  PointNav.is_done t = true ->
  PointNav.metrics t
  = (PointNav.set_rewards [] t,
     <[ "success" := PyBool (PointNav._success t) ]>
     (<[ "ep_length" := PyInt (Z.of_nat (PointNav.num_steps_taken t)) ]>
     (<[ "total_reward" := PyFloat (np_sum (PointNav._rewards t)) ]>
     (<[ "spl" := PyFloat (match spl (get_metrics (PointNav.env t)) with
                           | Some s => s
                           | None => 0.0%float
                           end) ]> ∅)))).
Proof. unfold PointNav.metrics. intros ->. reflexivity. Qed.

(** The object-goal task once [metrics] has written the trajectory. *)
Lemma object_metrics_task_info (t : ObjectNav.Task Env) :
  ObjectNav.task_info (fst (ObjectNav.metrics t))
  = trajectory_info (ObjectNav._actions_taken t) ObjectNav.action_names
      (ObjectNav._positions t) (ObjectNav._episode_id t)
      (ObjectNav.task_info t).
Proof. unfold ObjectNav.metrics. destruct (negb _); reflexivity. Qed.

Lemma object_metrics_done_eq (t : ObjectNav.Task Env) :
  ObjectNav.is_done t = true ->
  snd (ObjectNav.metrics t)
  = <[ "success" := PyBool (ObjectNav._success t) ]>
    (<[ "ep_length" := PyInt (Z.of_nat (ObjectNav.num_steps_taken t)) ]>
    (<[ "total_reward" := PyFloat (np_sum (ObjectNav._rewards t)) ]>
    (<[ "spl" := PyFloat (match spl (get_metrics (ObjectNav.env t)) with
                          | Some s => s
                          | None => 0.0%float
                          end) ]>
    (<[ "min_distance_to_target" :=
          PyFloat (ObjectNav._min_distance_to_goal t) ]>
    (<[ "num_invalid_actions" :=
          PyInt (Z.of_nat (ObjectNav._num_invalid_actions t)) ]>
    (<[ "task_info" :=
          PyDict (ObjectNav.task_info (fst (ObjectNav.metrics t))) ]>
       ∅)))))).
Proof.
  intros Hd. unfold ObjectNav.metrics. cbn zeta.
  change (ObjectNav.is_done
            (ObjectNav.set_task_info _
               (ObjectNav.set_task_info _
                  (ObjectNav.set_task_info _
                     (ObjectNav.set_task_info _ t)))))
    with (ObjectNav.is_done t).
  rewrite Hd. reflexivity.
Qed.

Lemma object_metrics_is_done (t : ObjectNav.Task Env) :
  ObjectNav.is_done (fst (ObjectNav.metrics t)) = ObjectNav.is_done t.
Proof. unfold ObjectNav.metrics. destruct (negb _); reflexivity. Qed.

Lemma point_metrics_is_done (t : PointNav.Task Env) :
  PointNav.is_done (fst (PointNav.metrics t)) = PointNav.is_done t.
Proof. unfold PointNav.metrics. destruct (negb _); reflexivity. Qed.

End MetricsSummary.

(** X6.  The summary [metrics] returns on a finished episode: for the
    point-goal task it has exactly the entries [success], [ep_length],
    [total_reward] and [spl]; the object-goal task adds
    [min_distance_to_target], [num_invalid_actions] and [task_info].
    [success] and [ep_length] are the task's success flag and step count, and
    [spl] is the simulator's value, with 0.0 in place of a missing one. *)
Theorem metrics_summary_entries
    {Env : Type} `{HabitatEnvironment Env} `{NumPy} :
  (forall t : PointNav.Task Env,
      PointNav.is_done t = true ->
      let m := snd (PointNav.metrics t) in
      dom m = {[ "success"; "ep_length"; "total_reward"; "spl" ]}
      /\ m !! "success" = Some (PyBool (PointNav._success t))
      /\ m !! "ep_length"
         = Some (PyInt (Z.of_nat (PointNav._num_steps_taken t)))
      /\ m !! "spl"
         = Some (PyFloat (match spl (get_metrics (PointNav.env t)) with
                          | Some s => s
                          | None => 0%float
                          end)))
  /\ (forall t : ObjectNav.Task Env,
         ObjectNav.is_done t = true ->
         let m := snd (ObjectNav.metrics t) in
         dom m = {[ "success"; "ep_length"; "total_reward"; "spl";
                    "min_distance_to_target"; "num_invalid_actions";
                    "task_info" ]}
         /\ m !! "success" = Some (PyBool (ObjectNav._success t))
         /\ m !! "ep_length"
            = Some (PyInt (Z.of_nat (ObjectNav._num_steps_taken t)))
         /\ m !! "spl"
            = Some (PyFloat (match spl (get_metrics (ObjectNav.env t)) with
                             | Some s => s
                             | None => 0%float
                             end))
         /\ m !! "min_distance_to_target"
            = Some (PyFloat (ObjectNav._min_distance_to_goal t))
         /\ m !! "num_invalid_actions"
            = Some (PyInt (Z.of_nat (ObjectNav._num_invalid_actions t)))).
Proof.
  split.
  - intros t Hd m. subst m. rewrite (point_metrics_done_eq t Hd). cbn [snd].
    split.
    { rewrite !dom_insert_L, dom_empty_L. set_solver. }
    repeat split; rewrite !lookup_insert; repeat case_decide;
      first [reflexivity | congruence].
  - intros t Hd m. subst m. rewrite (object_metrics_done_eq t Hd).
    split.
    { rewrite !dom_insert_L, dom_empty_L. set_solver. }
    repeat split; rewrite !lookup_insert; repeat case_decide;
      first [reflexivity | congruence].
Qed.

Lemma metrics_summary_entries_witness :
  snd (PointNav.metrics
         (PointNav.run Scripted.point_start Scripted.moves_then_end))
    !! "ep_length"
  = Some (PyInt 4)
  /\ snd (ObjectNav.metrics
            (ObjectNav.run Scripted.object_start Scripted.moves_then_end))
       !! "min_distance_to_target"
     = Some (PyFloat 2.5).
Proof.
  pose proof (@metrics_summary_entries Scripted.Env _ _) as (Hp & Ho).
  split.
  - assert (Hd : PointNav.is_done
                   (PointNav.run Scripted.point_start Scripted.moves_then_end)
                 = true) by (vm_compute; reflexivity).
    destruct (Hp _ Hd) as (_ & _ & He & _).
    rewrite He. vm_compute. reflexivity.
  - assert (Hd : ObjectNav.is_done
                   (ObjectNav.run Scripted.object_start
                      Scripted.moves_then_end)
                 = true) by (vm_compute; reflexivity).
    destruct (Ho _ Hd) as (_ & _ & _ & _ & Hm & _).
    rewrite Hm. vm_compute. reflexivity.
Defined.

(** X7.  Reading the metrics of a finished episode twice: the task is still
    done after the first read, so the second read does not return the empty
    mapping; it returns the first summary with [total_reward] replaced by the
    sum of the empty log, and the log stays empty. *)
Theorem metrics_second_read {Env : Type} `{HabitatEnvironment Env} `{NumPy} :
  (forall t : PointNav.Task Env,
      PointNav.is_done t = true ->
      let t1 := fst (PointNav.metrics t) in
      PointNav.is_done t1 = true
      /\ snd (PointNav.metrics t1)
         = <[ "total_reward" := PyFloat (np_sum []) ]>
             (snd (PointNav.metrics t))
      /\ PointNav._rewards (fst (PointNav.metrics t1)) = [])
  /\ (forall t : ObjectNav.Task Env,
         ObjectNav.is_done t = true ->
         let t1 := fst (ObjectNav.metrics t) in
         ObjectNav.is_done t1 = true
         /\ snd (ObjectNav.metrics t1)
            = <[ "total_reward" := PyFloat (np_sum []) ]>
                (snd (ObjectNav.metrics t))
         /\ ObjectNav._rewards (fst (ObjectNav.metrics t1)) = []).
Proof.
  split.
  - intros t Hd t1.
    assert (Hd1 : PointNav.is_done t1 = true).
    { subst t1. rewrite point_metrics_is_done. exact Hd. }
    split; [exact Hd1|]. split.
    + rewrite (point_metrics_done_eq t1 Hd1). cbn [snd].
      subst t1. rewrite (point_metrics_done_eq t Hd). cbn [fst snd].
      apply map_eq. intros k. rewrite !lookup_insert.
      repeat case_decide; first [reflexivity | congruence].
    + apply point_metrics_done, Hd1.
  - intros t Hd t1.
    assert (Hd1 : ObjectNav.is_done t1 = true).
    { subst t1. rewrite object_metrics_is_done. exact Hd. }
    split; [exact Hd1|]. split.
    + rewrite (object_metrics_done_eq t1 Hd1).
      rewrite (object_metrics_task_info t1).
      pose proof (object_metrics_task_info t) as Hti.
      pose proof (object_metrics_frame t)
        as (He & Hn & Ha & Hp & Hm & Hs & Hk & _).
      pose proof (proj2 (object_metrics_done t Hd)) as Hr.
      cbv zeta in *. fold t1 in Hti, He, Hn, Ha, Hp, Hm, Hs, Hk, Hr.
      assert (Hid : ObjectNav._episode_id t1 = ObjectNav._episode_id t).
      { subst t1. unfold ObjectNav.metrics. destruct (negb _); reflexivity. }
      unfold ObjectNav.num_steps_taken.
      rewrite He, Hn, Ha, Hp, Hm, Hs, Hk, Hr, Hid, Hti.
      rewrite trajectory_info_idempotent.
      rewrite (object_metrics_done_eq t Hd), (object_metrics_task_info t).
      apply map_eq. intros k. rewrite !lookup_insert.
      repeat case_decide; first [reflexivity | congruence].
    + apply object_metrics_done, Hd1.
Qed.

Lemma metrics_second_read_witness :
  PointNav.is_done
    (fst (PointNav.metrics
            (PointNav.run Scripted.point_start Scripted.moves_then_end)))
  = true
  /\ ObjectNav.is_done
       (fst (ObjectNav.metrics
               (ObjectNav.run Scripted.object_start Scripted.moves_then_end)))
     = true.
Proof.
  pose proof (@metrics_second_read Scripted.Env _ _) as (Hp & Ho).
  split.
  - assert (Hd : PointNav.is_done
                   (PointNav.run Scripted.point_start Scripted.moves_then_end)
                 = true) by (vm_compute; reflexivity).
    exact (proj1 (Hp _ Hd)).
  - assert (Hd : ObjectNav.is_done
                   (ObjectNav.run Scripted.object_start
                      Scripted.moves_then_end)
                 = true) by (vm_compute; reflexivity).
    exact (proj1 (Ho _ Hd)).
Defined.

(** X8.  [ObjectNavTask.metrics] writes the trajectory into [task_info] on
    every call, done or not: the actions taken, the action names, the
    followed path and the episode identifier, replacing whatever those four
    keys held.  Every other entry of [task_info] is kept, so the expert
    query, which reads the target from it, answers the same before and after;
    on a finished episode the summary's [task_info] entry is that updated
    mapping. *)
Theorem metrics_writes_trajectory
    {Env : Type} `{HabitatEnvironment Env} `{NumPy} (t : ObjectNav.Task Env) :
  let t' := fst (ObjectNav.metrics t) in
  ObjectNav.task_info t' !! "taken_actions"
  = Some (PyList (PyStr <$> ObjectNav._actions_taken t))
  /\ ObjectNav.task_info t' !! "action_names"
     = Some (PyList (PyStr <$> ObjectNav.action_names))
  /\ ObjectNav.task_info t' !! "followed_path"
     = Some (PyList (ObjectNav._positions t))
  /\ ObjectNav.task_info t' !! "episode_id"
     = Some (PyStr (ObjectNav._episode_id t))
  /\ (forall k : string,
         k <> "taken_actions" -> k <> "action_names" ->
         k <> "followed_path" -> k <> "episode_id" ->
         ObjectNav.task_info t' !! k = ObjectNav.task_info t !! k)
  /\ ObjectNav.query_expert t' = ObjectNav.query_expert t
  /\ (ObjectNav.is_done t = true ->
      snd (ObjectNav.metrics t) !! "task_info"
      = Some (PyDict (ObjectNav.task_info t'))).
Proof.
  intros t'. subst t'. rewrite object_metrics_task_info.
  split; [|split; [|split; [|split; [|split; [|split]]]]].
  - unfold trajectory_info. rewrite !lookup_insert.
    repeat case_decide; first [reflexivity | congruence].
  - unfold trajectory_info. rewrite !lookup_insert.
    repeat case_decide; first [reflexivity | congruence].
  - unfold trajectory_info. rewrite !lookup_insert.
    repeat case_decide; first [reflexivity | congruence].
  - unfold trajectory_info. rewrite !lookup_insert.
    repeat case_decide; first [reflexivity | congruence].
  - intros k H1 H2 H3 H4. apply trajectory_info_other; assumption.
  - unfold ObjectNav.query_expert, ObjectNav._is_goal_in_range.
    destruct (object_metrics_frame t) as (-> & _).
    rewrite object_metrics_task_info.
    rewrite trajectory_info_other by discriminate. reflexivity.
  - intros Hd. rewrite (object_metrics_done_eq t Hd).
    rewrite object_metrics_task_info.
    rewrite !lookup_insert. repeat case_decide;
      first [reflexivity | congruence].
Qed.

(** The target survives a metrics read taken in mid-episode. *)
Lemma metrics_writes_trajectory_witness :
  ObjectNav.task_info
    (fst (ObjectNav.metrics
            (ObjectNav.run Scripted.object_start [CallStep 0])))
    !! "target"
  = Some (PyList [PyFloat 1; PyFloat 0; PyFloat 2]).
Proof.
  pose proof (@metrics_writes_trajectory Scripted.Env _ _
                (ObjectNav.run Scripted.object_start [CallStep 0]))
    as (_ & _ & _ & _ & Hk & _).
  rewrite (Hk "target") by discriminate.
  vm_compute. reflexivity.
Defined.

Section DoneFlag.
Context {Env : Type} `{HabitatEnvironment Env} `{NumPy}.

Lemma point_step_done (t : PointNav.Task Env) (a : Z) r :
  snd (PointNav._step t a) = Returned r ->
  done r = PointNav.is_done (fst (PointNav._step t a)).
Proof.
  rewrite point_step_unfold.
  destruct (py_getitem PointNav.action_names a) as [s|e]; cbn [fst snd];
    intros Hr; [|discriminate Hr].
  injection Hr as <-. reflexivity.
Qed.

Lemma object_step_done (t : ObjectNav.Task Env) (a : Z) r :
  snd (ObjectNav._step t a) = Returned r ->
  done r = ObjectNav.is_done (fst (ObjectNav._step t a)).
Proof.
  rewrite object_step_unfold. cbn zeta.
  destruct (py_getitem ObjectNav.action_names a) as [s|e]; cbn [fst snd];
    [|intros Hr; discriminate Hr].
  destruct (ObjectNav.judge _) as [t2 [x|e]]; cbn [fst snd];
    intros Hr; [|discriminate Hr].
  injection Hr as <-. cbn [done].
  unfold ObjectNav.is_done, ObjectNav.reached_terminal_state.
  rewrite object_counted_took_end, object_counted_env.
  destruct (object_counted_frame
              (agent_position_and_rotation
                 (get_observations (ObjectNav.env t))) t2)
    as (_ & _ & _ & -> & ->).
  reflexivity.
Qed.

End DoneFlag.

(** X9.  The [done] flag of a returned step result is the task's done state
    right after the step, so it tells what [metrics] will answer: the empty
    mapping after [done] = false, and after [done] = true a summary whose
    [total_reward] sums the earlier log followed by the reward just
    returned.  The flag is true whenever the simulator reports the episode
    over after the action. *)
Theorem done_flag_matches_metrics
    {Env : Type} `{HabitatEnvironment Env} `{NumPy} :
  (forall (t : PointNav.Task Env) (a : Z) r,
      snd (PointNav._step t a) = Returned r ->
      let t' := fst (PointNav._step t a) in
      (done r = false -> snd (PointNav.metrics t') = ∅)
      /\ (done r = true ->
          snd (PointNav.metrics t') !! "total_reward"
          = Some (PyFloat (np_sum (PointNav._rewards t ++ [reward r]))))
      /\ (episode_over (PointNav.env t') = true -> done r = true))
  /\ (forall (t : ObjectNav.Task Env) (a : Z) r,
         snd (ObjectNav._step t a) = Returned r ->
         let t' := fst (ObjectNav._step t a) in
         (done r = false -> snd (ObjectNav.metrics t') = ∅)
         /\ (done r = true ->
             snd (ObjectNav.metrics t') !! "total_reward"
             = Some (PyFloat (np_sum (ObjectNav._rewards t ++ [reward r]))))
         /\ (episode_over (ObjectNav.env t') = true -> done r = true)).
Proof.
  split.
  - intros t a r Hr t'. subst t'.
    pose proof (point_step_done t a r Hr) as Hd.
    pose proof (point_step_appends t a) as Hl. rewrite Hr in Hl. cbn in Hl.
    split; [|split].
    + intros Hf. rewrite Hf in Hd.
      rewrite point_metrics_not_done by (symmetry; exact Hd). reflexivity.
    + intros Ht. rewrite Ht in Hd.
      destruct (point_metrics_done _ (eq_sym Hd)) as (-> & _).
      rewrite Hl. reflexivity.
    + intros Ho. rewrite Hd.
      unfold PointNav.is_done, PointNav.reached_terminal_state, Task_is_done.
      rewrite Ho. apply orb_true_r.
  - intros t a r Hr t'. subst t'.
    pose proof (object_step_done t a r Hr) as Hd.
    pose proof (object_step_appends t a) as Hl. rewrite Hr in Hl. cbn in Hl.
    split; [|split].
    + intros Hf. rewrite Hf in Hd.
      apply object_metrics_not_done. symmetry. exact Hd.
    + intros Ht. rewrite Ht in Hd.
      destruct (object_metrics_done _ (eq_sym Hd)) as (-> & _).
      rewrite Hl. reflexivity.
    + intros Ho. rewrite Hd.
      unfold ObjectNav.is_done, ObjectNav.reached_terminal_state, Task_is_done.
      rewrite Ho. apply orb_true_r.
Qed.

(** The first move of the approach returns [done] = false and leaves the
    metrics empty, in both variants. *)
Lemma done_flag_matches_metrics_witness :
  snd (PointNav.metrics (fst (PointNav._step Scripted.point_start 0))) = ∅
  /\ snd (ObjectNav.metrics (fst (ObjectNav._step Scripted.object_start 0)))
     = ∅.
Proof.
  pose proof (@done_flag_matches_metrics Scripted.Env _ _) as (Hp & Ho).
  assert (Hrp : exists r,
             snd (PointNav._step Scripted.point_start 0) = Returned r
             /\ done r = false)
    by (vm_compute; eexists; split; reflexivity).
  assert (Hro : exists r,
             snd (ObjectNav._step Scripted.object_start 0) = Returned r
             /\ done r = false)
    by (vm_compute; eexists; split; reflexivity).
  destruct Hrp as (rp & Hrp & Hdp), Hro as (ro & Hro & Hdo).
  split.
  - exact (proj1 (Hp _ _ _ Hrp) Hdp).
  - exact (proj1 (Ho _ _ _ Hro) Hdo).
Defined.

(** ** Construction, the success flag and stalled steps *)

(** X10.  Construction guards the first distance reading: a reading that is
    [None], NaN or an infinity is replaced by 0.0, a finite reading is stored
    as it is; the object-goal task starts its running minimum at the stored
    value. *)
Theorem init_guards_first_reading
    {Env : Type} `{HabitatEnvironment Env} :
  (forall (e : Env) info max,
      invalid_reading (distance_to_goal (get_metrics e)) ->
      PointNav.last_geodesic_distance (PointNav.init e info max) = 0%float
      /\ ObjectNav.last_geodesic_distance (ObjectNav.init e info max)
         = 0%float
      /\ ObjectNav._min_distance_to_goal (ObjectNav.init e info max)
         = 0%float)
  /\ (forall (e : Env) info max (x : float),
         distance_to_goal (get_metrics e) = Some x ->
         PrimFloat.is_finite x = true ->
         PointNav.last_geodesic_distance (PointNav.init e info max) = x
         /\ ObjectNav.last_geodesic_distance (ObjectNav.init e info max) = x
         /\ ObjectNav._min_distance_to_goal (ObjectNav.init e info max) = x).
Proof.
  split.
  - intros e info max Hinv. cbn.
    rewrite (guarded_distance_invalid _ _ Hinv). repeat split; reflexivity.
  - intros e info max x Hx Hfin. cbn. rewrite Hx.
    change (guarded_distance (Some x) 0) with (guarded_distance (Some x) 0%float).
    rewrite (guarded_distance_of_finite x 0%float Hfin).
    repeat split; reflexivity.
Qed.

Lemma init_guards_first_reading_witness :
  PointNav.last_geodesic_distance
    (PointNav.init
       (Scripted.script (Scripted.moving (Some neg_infinity)) [])
       Scripted.goal 500)
  = 0%float
  /\ ObjectNav._min_distance_to_goal
       (ObjectNav.init Scripted.approach Scripted.goal 500)
     = 5.0%float.
Proof.
  pose proof (@init_guards_first_reading Scripted.Env _) as (Hinv & Hfin).
  split.
  - apply (Hinv (Scripted.script (Scripted.moving (Some neg_infinity)) [])).
    cbn. right. right. reflexivity.
  - apply (Hfin Scripted.approach Scripted.goal 500 5.0%float);
      reflexivity.
Defined.

(** X11.  The goal-in-range test is false exactly when the simulator's SPL
    is [None], +0.0 or -0.0; any other value counts as in range, a NaN
    included. *)
Theorem goal_in_range_iff {Env : Type} `{HabitatEnvironment Env} :
  (forall t : PointNav.Task Env,
      PointNav._is_goal_in_range t = false
      <-> spl (get_metrics (PointNav.env t)) = None
          \/ spl (get_metrics (PointNav.env t)) = Some 0%float
          \/ spl (get_metrics (PointNav.env t)) = Some neg_zero)
  /\ (forall t : ObjectNav.Task Env,
         ObjectNav._is_goal_in_range t = false
         <-> spl (get_metrics (ObjectNav.env t)) = None
             \/ spl (get_metrics (ObjectNav.env t)) = Some 0%float
             \/ spl (get_metrics (ObjectNav.env t)) = Some neg_zero)
  /\ (forall (t : PointNav.Task Env) (x : float),
         spl (get_metrics (PointNav.env t)) = Some x ->
         PrimFloat.is_nan x = true ->
         PointNav._is_goal_in_range t = true)
  /\ (forall (t : ObjectNav.Task Env) (x : float),
         spl (get_metrics (ObjectNav.env t)) = Some x ->
         PrimFloat.is_nan x = true ->
         ObjectNav._is_goal_in_range t = true).
Proof.
  assert (Hiff : forall o : option float,
             py_bool o = false
             <-> o = None \/ o = Some 0%float \/ o = Some neg_zero).
  { intros [x|]; cbn.
    - rewrite negb_false_iff, eqb_zero_iff. split.
      + intros [-> | ->]; [right; left | right; right]; reflexivity.
      + intros [Hn | [[= ->] | [= ->]]];
          [discriminate Hn | left | right]; reflexivity.
    - split; [intros _; left|]; reflexivity. }
  split; [|split; [|split]].
  - intros t. apply Hiff.
  - intros t. apply Hiff.
  - intros t x Hx Hnan. unfold PointNav._is_goal_in_range. rewrite Hx.
    apply nan_is_truthy, Hnan.
  - intros t x Hx Hnan. unfold ObjectNav._is_goal_in_range. rewrite Hx.
    apply nan_is_truthy, Hnan.
Qed.

(** On the episode whose simulator reports a NaN SPL, the goal counts as in
    range after the first action. *)
Lemma goal_in_range_iff_witness :
  PointNav._is_goal_in_range
    (fst (PointNav._step
            (PointNav.init Scripted.nan_spl Scripted.goal 500) 0))
  = true
  /\ ObjectNav._is_goal_in_range
       (fst (ObjectNav._step
               (ObjectNav.init Scripted.nan_spl Scripted.goal 500) 0))
     = true.
Proof.
  pose proof (@goal_in_range_iff Scripted.Env _) as (_ & _ & Hp & Ho).
  split.
  - apply (Hp _ nan); vm_compute; reflexivity.
  - apply (Ho _ nan); vm_compute; reflexivity.
Defined.

Section StalledStep.
Context {Env : Type} `{HabitatEnvironment Env} `{NumPy}.

(** With a finite stored distance, a reading that is invalid or equal to the
    stored distance gives a base reward of exactly the step cost. *)
Lemma base_reward_stalled (last : float) (e : Env) :
  PrimFloat.is_finite last = true ->
  invalid_reading (distance_to_goal (get_metrics e))
  \/ distance_to_goal (get_metrics e) = Some last ->
  base_reward last e = (-0.01)%float.
Proof.
  intros Hfin Hd. unfold base_reward.
  assert (Hg : guarded_distance (distance_to_goal (get_metrics e)) last
               = last).
  { destruct Hd as [Hinv | ->].
    - apply guarded_distance_invalid, Hinv.
    - apply guarded_distance_of_finite, Hfin. }
  rewrite Hg, (finite_sub_diag last Hfin). apply step_cost_plus_zero.
Qed.

Lemma point_step_success (t : PointNav.Task Env) (a : Z) :
  PointNav._success (fst (PointNav._step t a))
  = match py_getitem PointNav.action_names a with
    | Raised _ => PointNav._success t
    | Returned s =>
        if String.eqb s END
        then py_bool (spl (get_metrics (env_step s (PointNav.env t))))
        else PointNav._success t
    end.
Proof.
  rewrite point_step_unfold.
  destruct (py_getitem PointNav.action_names a) as [s|e]; [|reflexivity].
  cbn [fst]. unfold point_acted.
  destruct (String.eqb s END); reflexivity.
Qed.

Lemma object_step_success (t : ObjectNav.Task Env) (a : Z) :
  ObjectNav._success (fst (ObjectNav._step t a))
  = match py_getitem ObjectNav.action_names a with
    | Raised _ => ObjectNav._success t
    | Returned s =>
        if String.eqb s END
        then py_bool (spl (get_metrics (env_step s (ObjectNav.env t))))
        else ObjectNav._success t
    end.
Proof.
  rewrite object_step_fst.
  destruct (py_getitem ObjectNav.action_names a) as [s|e]; [|reflexivity].
  set (t1 := object_acted (object_logged t) s).
  assert (Hs1 : ObjectNav._success t1
                = if String.eqb s END
                  then py_bool
                         (spl (get_metrics (env_step s (ObjectNav.env t))))
                  else ObjectNav._success t).
  { subst t1. unfold object_acted. destruct (String.eqb s END); reflexivity. }
  destruct (distance_to_goal (get_metrics (ObjectNav.env t1))) as [x|] eqn:Hx.
  - destruct (object_judge_some t1 x Hx)
      as (t2 & -> & _ & _ & _ & _ & Hs2 & _).
    rewrite object_counted_success, Hs2. exact Hs1.
  - rewrite (object_judge_none t1 Hx). exact Hs1.
Qed.

Lemma point_metrics_success (t : PointNav.Task Env) :
  PointNav._success (fst (PointNav.metrics t)) = PointNav._success t.
Proof. unfold PointNav.metrics. destruct (negb _); reflexivity. Qed.

Lemma point_step_fst_success (t : PointNav.Task Env) (a : Z) :
  PointNav._success (fst (PointNav.step t a))
  = PointNav._success (fst (PointNav._step t a)).
Proof.
  unfold PointNav.step.
  destruct (PointNav._step t a) as [t' [r|e]]; reflexivity.
Qed.

End StalledStep.

(** X12.  A step that makes no progress costs exactly the step cost: when the
    action is not [end], no [end] was taken before, the stored distance is
    finite (as it always is after construction), and the new reading is
    invalid or equal to the stored distance, the reward returned is exactly
    -0.01.  (The object-goal step needs a reading that is not [None] to
    return at all.) *)
Theorem stalled_step_costs_the_step_cost
    {Env : Type} `{HabitatEnvironment Env} :
  (forall (t : PointNav.Task Env) (a : Z) (s : string),
      py_getitem PointNav.action_names a = Returned s ->
      s <> END ->
      PointNav._took_end_action t = false ->
      PrimFloat.is_finite (PointNav.last_geodesic_distance t) = true ->
      invalid_reading
        (distance_to_goal (get_metrics (env_step s (PointNav.env t))))
      \/ distance_to_goal (get_metrics (env_step s (PointNav.env t)))
         = Some (PointNav.last_geodesic_distance t) ->
      exists r,
        snd (PointNav._step t a) = Returned r
        /\ reward r = (-0.01)%float)
  /\ (forall (t : ObjectNav.Task Env) (a : Z) (s : string) (x : float),
         py_getitem ObjectNav.action_names a = Returned s ->
         s <> END ->
         ObjectNav._took_end_action t = false ->
         PrimFloat.is_finite (ObjectNav.last_geodesic_distance t) = true ->
         distance_to_goal (get_metrics (env_step s (ObjectNav.env t)))
         = Some x ->
         invalid_reading (Some x)
         \/ x = ObjectNav.last_geodesic_distance t ->
         exists r,
           snd (ObjectNav._step t a) = Returned r
           /\ reward r = (-0.01)%float).
Proof.
  split.
  - intros t a s Ha Hs Ht Hfin Hd.
    apply String.eqb_neq in Hs.
    rewrite point_step_unfold, Ha. cbn zeta. cbn [snd].
    eexists. split; [reflexivity|]. cbn [reward].
    rewrite point_judge_reward, point_acted_took_end, Hs, Ht.
    cbn [orb]. rewrite point_acted_last, point_acted_env.
    apply base_reward_stalled; assumption.
  - intros t a s x Ha Hs Ht Hfin Hx Hd.
    apply String.eqb_neq in Hs.
    rewrite object_step_unfold, Ha. cbn zeta.
    set (t1 := object_acted (object_logged t) s).
    assert (He1 : ObjectNav.env t1 = env_step s (ObjectNav.env t)).
    { subst t1. rewrite object_acted_env. reflexivity. }
    assert (Hk1 : ObjectNav._took_end_action t1 = false).
    { subst t1. rewrite object_acted_took_end, Hs. exact Ht. }
    assert (Hd1 : ObjectNav.last_geodesic_distance t1
                  = ObjectNav.last_geodesic_distance t).
    { subst t1. rewrite object_acted_last. reflexivity. }
    rewrite <- He1 in Hx.
    destruct (object_judge_some t1 x Hx) as (t2 & -> & _).
    cbn [snd]. eexists. split; [reflexivity|]. cbn [reward].
    rewrite Hk1, Hd1. apply base_reward_stalled; [exact Hfin|].
    rewrite Hx. destruct Hd as [Hinv | ->]; [left; exact Hinv | right].
    reflexivity.
Qed.

(** The glitching episode: the first reading is NaN, the step costs -0.01 in
    both variants. *)
Lemma stalled_step_costs_the_step_cost_witness :
  (exists r,
      snd (PointNav._step (PointNav.init Scripted.glitch Scripted.goal 500) 0)
      = Returned r
      /\ reward r = (-0.01)%float)
  /\ (exists r,
         snd (ObjectNav._step
                (ObjectNav.init Scripted.glitch Scripted.goal 500) 0)
         = Returned r
         /\ reward r = (-0.01)%float).
Proof.
  pose proof (@stalled_step_costs_the_step_cost Scripted.Env _) as (Hp & Ho).
  split.
  - apply (Hp (PointNav.init Scripted.glitch Scripted.goal 500) 0%Z
             MOVE_AHEAD);
      [reflexivity | discriminate | reflexivity | reflexivity |].
    left. cbn. left. reflexivity.
  - apply (Ho (ObjectNav.init Scripted.glitch Scripted.goal 500) 0%Z
             MOVE_AHEAD nan);
      [reflexivity | discriminate | reflexivity | reflexivity
      | reflexivity |].
    left. cbn. left. reflexivity.
Defined.

(** X13.  At every point of every episode, from construction on and whatever
    calls are made, the success flag is set only if the [end] action was
    taken. *)
Theorem success_only_after_end
    {Env : Type} `{HabitatEnvironment Env} `{NumPy} :
  (forall (e : Env) info max (cs : list call),
      PointNav._success (PointNav.run (PointNav.init e info max) cs) = true ->
      PointNav._took_end_action (PointNav.run (PointNav.init e info max) cs)
      = true)
  /\ (forall (e : Env) info max (cs : list call),
         ObjectNav._success (ObjectNav.run (ObjectNav.init e info max) cs)
         = true ->
         ObjectNav._took_end_action
           (ObjectNav.run (ObjectNav.init e info max) cs)
         = true).
Proof.
  split.
  - intros e info max cs.
    set (J := fun t : PointNav.Task Env =>
                PointNav._success t = true ->
                PointNav._took_end_action t = true).
    assert (Hstep : forall t a, J t -> J (fst (PointNav._step t a))).
    { intros t a Ht. unfold J.
      rewrite point_step_success, point_step_unfold.
      destruct (py_getitem PointNav.action_names a) as [s|ex]; [|exact Ht].
      cbn [fst]. rewrite point_judge_took_end, point_acted_took_end.
      destruct (String.eqb s END); [reflexivity | exact Ht]. }
    assert (Hcall : forall t c, J t -> J (PointNav.do_call t c)).
    { intros t c Ht. destruct c as [a|a| | |m]; cbn [PointNav.do_call];
        try exact Ht.
      - unfold J. rewrite point_step_fst_success, point_step_fst_took_end.
        apply Hstep, Ht.
      - apply Hstep, Ht.
      - unfold J. rewrite point_metrics_success, point_metrics_took_end.
        exact Ht. }
    assert (Hrun : forall cs' t, J t -> J (PointNav.run t cs')).
    { unfold PointNav.run.
      induction cs' as [|c cs' IH]; intros t Ht; cbn [fold_left];
        [exact Ht|].
      apply IH, Hcall, Ht. }
    apply Hrun. unfold J. cbn. intros Hf. discriminate Hf.
  - intros e info max cs.
    set (J := fun t : ObjectNav.Task Env =>
                ObjectNav._success t = true ->
                ObjectNav._took_end_action t = true).
    assert (Hstep : forall t a, J t -> J (fst (ObjectNav._step t a))).
    { intros t a Ht. unfold J.
      rewrite object_step_success, object_step_took_end.
      destruct (py_getitem ObjectNav.action_names a) as [s|ex]; [|exact Ht].
      destruct (String.eqb s END); [reflexivity | exact Ht]. }
    assert (Hcall : forall t c, J t -> J (ObjectNav.do_call t c)).
    { intros t c Ht. destruct c as [a|a| | |m]; cbn [ObjectNav.do_call];
        try exact Ht.
      - unfold J.
        destruct (object_step_fst_fields t a) as (_ & _ & _ & _ & -> & _).
        rewrite object_step_fst_took_end. apply Hstep, Ht.
      - apply Hstep, Ht.
      - unfold J.
        destruct (object_metrics_frame t) as (_ & _ & _ & _ & _ & -> & _).
        rewrite object_metrics_took_end. exact Ht. }
    assert (Hrun : forall cs' t, J t -> J (ObjectNav.run t cs')).
    { unfold ObjectNav.run.
      induction cs' as [|c cs' IH]; intros t Ht; cbn [fold_left];
        [exact Ht|].
      apply IH, Hcall, Ht. }
    apply Hrun. unfold J. cbn. intros Hf. discriminate Hf.
Qed.

Lemma success_only_after_end_witness :
  PointNav._took_end_action
    (PointNav.run (PointNav.init Scripted.approach Scripted.goal 500)
       Scripted.moves_then_end)
  = true
  /\ ObjectNav._took_end_action
       (ObjectNav.run (ObjectNav.init Scripted.approach Scripted.goal 500)
          Scripted.moves_then_end)
     = true.
Proof.
  pose proof (@success_only_after_end Scripted.Env _ _) as (Hp & Ho).
  split.
  - apply Hp. vm_compute. reflexivity.
  - apply Ho. vm_compute. reflexivity.
Defined.

(** ** The running minimum and the stored distance *)

Lemma not_nan_SF (x : float) :
  PrimFloat.is_nan x = false -> Prim2SF x <> S754_nan.
Proof.
  unfold PrimFloat.is_nan. rewrite FloatAxioms.eqb_spec.
  intros Hx E. rewrite E in Hx. discriminate Hx.
Qed.

Lemma finite_SF (x : float) :
  PrimFloat.is_finite x = true ->
  match Prim2SF x with
  | S754_zero _ | S754_finite _ _ _ => True
  | _ => False
  end.
Proof.
  unfold PrimFloat.is_finite, PrimFloat.is_infinity, PrimFloat.is_nan.
  rewrite (eqb_infinity (abs x)), abs_spec, FloatAxioms.eqb_spec.
  destruct (Prim2SF x) as [sg | sg | | sg m e]; intros Hx;
    first [exact I | destruct sg; discriminate Hx | discriminate Hx].
Qed.

(** Minus infinity is below every number. *)
Lemma neg_infinity_leb (x y : float) :
  (x =? neg_infinity)%float = true -> PrimFloat.is_nan y = false ->
  (x <=? y)%float = true.
Proof.
  rewrite eqb_neg_infinity, leb_spec. intros Hx Hy.
  apply not_nan_SF in Hy. unfold SFleb.
  destruct (Prim2SF x) as [sx|sx| |sx mx ex];
    try destruct sx; try discriminate Hx.
  destruct (Prim2SF y) as [sy|sy| |sy my ey];
    try destruct sy; first [reflexivity | contradiction].
Qed.

(** A running minimum that is a number below a finite distance cannot fail to
    be below a reading of plus infinity. *)
Lemma infinity_reading_keeps_minimum (x m last : float) :
  (x =? infinity)%float = true -> PrimFloat.is_nan m = false ->
  (m <=? last)%float = true -> PrimFloat.is_finite last = true ->
  (m <? x)%float = true.
Proof.
  rewrite eqb_infinity, ltb_spec, leb_spec. intros Hx Hm Hle Hfin.
  apply not_nan_SF in Hm. apply finite_SF in Hfin.
  unfold SFltb, SFleb in *.
  destruct (Prim2SF x) as [sx|sx| |sx mx ex];
    try destruct sx; try discriminate Hx.
  destruct (Prim2SF m) as [sm|sm| |sm mm em];
    try destruct sm; try reflexivity; try contradiction.
  destruct (Prim2SF last) as [sl|sl| |sl ml el];
    try destruct sl; first [discriminate Hle | contradiction].
Qed.

(** X14.  While the readings are numbers (not [None], not NaN), a step of
    the object-goal task keeps the running minimum at or below the stored
    distance, keeps it a number, and keeps the stored distance finite;
    infinite readings included, which move neither value upwards. *)
Theorem min_distance_stays_below_last_distance
    {Env : Type} `{HabitatEnvironment Env}
    (t : ObjectNav.Task Env) (a : Z) (s : string) (x : float) :
  py_getitem ObjectNav.action_names a = Returned s ->
  distance_to_goal (get_metrics (env_step s (ObjectNav.env t))) = Some x ->
  PrimFloat.is_nan x = false ->
  PrimFloat.is_nan (ObjectNav._min_distance_to_goal t) = false ->
  PrimFloat.is_finite (ObjectNav.last_geodesic_distance t) = true ->
  (ObjectNav._min_distance_to_goal t
   <=? ObjectNav.last_geodesic_distance t)%float = true ->
  let t' := fst (ObjectNav._step t a) in
  (ObjectNav._min_distance_to_goal t'
   <=? ObjectNav.last_geodesic_distance t')%float = true
  /\ PrimFloat.is_nan (ObjectNav._min_distance_to_goal t') = false
  /\ PrimFloat.is_finite (ObjectNav.last_geodesic_distance t') = true.
Proof.
  intros Ha Hx Hnx Hnm Hfin Hle t'. subst t'.
  rewrite object_step_min, object_step_last, Ha, Hx.
  destruct (py_min_numbers x _ Hnx Hnm) as (Hm1 & Hm2 & Hm3).
  split; [|split; [exact Hm3 | apply guarded_distance_finite, Hfin]].
  cbn [guarded_distance].
  destruct (is_inf_or_nan x) eqn:Hg; [|exact Hm2].
  unfold is_inf_or_nan in Hg. rewrite Hnx, orb_false_r in Hg.
  unfold py_min.
  destruct (x =? neg_infinity)%float eqn:Hneg.
  - destruct (_ <? x)%float; [exact Hle|].
    apply neg_infinity_leb; [exact Hneg|].
    apply (is_finite_split _ Hfin).
  - cbn [orb] in Hg.
    rewrite (infinity_reading_keeps_minimum x _ _ Hg Hnm Hle Hfin).
    exact Hle.
Qed.

(** The first move of the approach: minimum and stored distance go from 5.0
    to 4.0 together. *)
Lemma min_distance_stays_below_last_distance_witness :
  (ObjectNav._min_distance_to_goal
     (fst (ObjectNav._step Scripted.object_start 0))
   <=? ObjectNav.last_geodesic_distance
         (fst (ObjectNav._step Scripted.object_start 0)))%float
  = true.
Proof.
  apply (@min_distance_stays_below_last_distance Scripted.Env _
           Scripted.object_start 0%Z MOVE_AHEAD 4.0%float);
    reflexivity.
Defined.

(** ** The entries of [info] *)

Section InfoEntries.
Context {Env : Type} `{HabitatEnvironment Env} `{NumPy}.

Lemma object_step_last_action (t : ObjectNav.Task Env) (a : Z) :
  ObjectNav._last_action (fst (ObjectNav.step t a))
  = ObjectNav._last_action t.
Proof.
  assert (Hin : ObjectNav._last_action (fst (ObjectNav._step t a))
                = ObjectNav._last_action t).
  { rewrite object_step_fst.
    destruct (py_getitem ObjectNav.action_names a) as [s|e]; [|reflexivity].
    set (t1 := object_acted (object_logged t) s).
    assert (Ha : ObjectNav._last_action t1 = ObjectNav._last_action t).
    { subst t1. unfold object_acted. destruct (String.eqb s END); reflexivity. }
    assert (Hj : ObjectNav._last_action (fst (ObjectNav.judge t1))
                 = ObjectNav._last_action t1).
    { unfold ObjectNav.judge.
      destruct (distance_to_goal (get_metrics (ObjectNav.env t1)));
        reflexivity. }
    rewrite Ha in Hj.
    destruct (ObjectNav.judge t1) as [t2 [r|e]]; cbn [fst] in Hj; [|exact Hj].
    unfold object_counted. destruct (pose_all_eq _ _); exact Hj. }
  unfold ObjectNav.step.
  destruct (ObjectNav._step t a) as [t' [r|e]]; exact Hin.
Qed.

Lemma object_step_fst_last_action_success (t : ObjectNav.Task Env) (a : Z) :
  ObjectNav._last_action_success (fst (ObjectNav.step t a))
  = ObjectNav._last_action_success (fst (ObjectNav._step t a)).
Proof.
  unfold ObjectNav.step.
  destruct (ObjectNav._step t a) as [t' [r|e]]; reflexivity.
Qed.

(** [last_action_success] after a step whose action was resolved. *)
Lemma point_step_last_action_success (t : PointNav.Task Env) (a : Z) s :
  py_getitem PointNav.action_names a = Returned s ->
  PointNav.last_action_success (fst (PointNav._step t a))
  = Some (if String.eqb s END
          then py_bool (spl (get_metrics (env_step s (PointNav.env t))))
          else env_last_action_success (env_step s (PointNav.env t))).
Proof.
  intros Ha. rewrite point_step_unfold, Ha. cbn zeta. cbn [fst].
  unfold point_acted. destruct (String.eqb s END); reflexivity.
Qed.

Lemma object_step_last_action_success (t : ObjectNav.Task Env) (a : Z) s :
  py_getitem ObjectNav.action_names a = Returned s ->
  ObjectNav._last_action_success (fst (ObjectNav._step t a))
  = Some (if String.eqb s END
          then py_bool (spl (get_metrics (env_step s (ObjectNav.env t))))
          else env_last_action_success (env_step s (ObjectNav.env t))).
Proof.
  intros Ha. rewrite object_step_fst, Ha.
  set (t1 := object_acted (object_logged t) s).
  assert (H1 : ObjectNav._last_action_success t1
               = Some (if String.eqb s END
                       then py_bool
                              (spl (get_metrics
                                      (env_step s (ObjectNav.env t))))
                       else env_last_action_success
                              (env_step s (ObjectNav.env t)))).
  { subst t1. unfold object_acted. destruct (String.eqb s END); reflexivity. }
  destruct (distance_to_goal (get_metrics (ObjectNav.env t1))) as [x|] eqn:Hx.
  - destruct (object_judge_some t1 x Hx)
      as (t2 & -> & _ & _ & _ & _ & _ & Hl & _).
    rewrite object_counted_last_action_success, Hl. exact H1.
  - rewrite (object_judge_none t1 Hx). exact H1.
Qed.

End InfoEntries.

(** X15.  The [last_action_success] entry of a returned step result is never
    [None]: for the [end] action it is the goal-in-range test on the
    environment right after the action, and for any other action it is the
    simulator's own success flag for that action. *)
Theorem last_action_success_entry
    {Env : Type} `{HabitatEnvironment Env} `{NumPy} :
  (forall (t : PointNav.Task Env) (a : Z) (s : string) r,
      py_getitem PointNav.action_names a = Returned s ->
      snd (PointNav._step t a) = Returned r ->
      let e' := env_step s (PointNav.env t) in
      info r !! "last_action_success"
      = Some (PyBool (if String.eqb s END
                      then py_bool (spl (get_metrics e'))
                      else env_last_action_success e')))
  /\ (forall (t : ObjectNav.Task Env) (a : Z) (s : string) r,
         py_getitem ObjectNav.action_names a = Returned s ->
         snd (ObjectNav._step t a) = Returned r ->
         let e' := env_step s (ObjectNav.env t) in
         info r !! "last_action_success"
         = Some (PyBool (if String.eqb s END
                         then py_bool (spl (get_metrics e'))
                         else env_last_action_success e'))).
Proof.
  split.
  - intros t a s r Ha Hr e'. subst e'.
    rewrite (point_step_info t a r Hr), lookup_singleton_eq.
    rewrite (point_step_last_action_success t a s Ha). reflexivity.
  - intros t a s r Ha Hr e'. subst e'.
    rewrite (object_step_info t a r Hr), lookup_singleton_eq.
    unfold ObjectNav.last_action_success.
    rewrite (object_step_last_action_success t a s Ha). reflexivity.
Qed.

Lemma last_action_success_entry_witness :
  (exists r,
      snd (PointNav._step Scripted.point_start 0) = Returned r
      /\ info r !! "last_action_success" = Some (PyBool true))
  /\ (exists r,
         snd (ObjectNav._step Scripted.object_start 0) = Returned r
         /\ info r !! "last_action_success" = Some (PyBool true)).
Proof.
  pose proof (@last_action_success_entry Scripted.Env _ _) as (Hp & Ho).
  assert (Hrp : exists r,
             snd (PointNav._step Scripted.point_start 0) = Returned r)
    by (vm_compute; eexists; reflexivity).
  assert (Hro : exists r,
             snd (ObjectNav._step Scripted.object_start 0) = Returned r)
    by (vm_compute; eexists; reflexivity).
  destruct Hrp as [rp Hrp], Hro as [ro Hro].
  split.
  - exists rp. split; [exact Hrp|].
    exact (Hp Scripted.point_start 0%Z MOVE_AHEAD rp eq_refl Hrp).
  - exists ro. split; [exact Hro|].
    exact (Ho Scripted.object_start 0%Z MOVE_AHEAD ro eq_refl Hro).
Defined.

(** X16.  [HabitatTask._step] records the action index before it looks the
    name up, so on an index out of range it has stored the index and nothing
    else; when it returns, the task holds the index and the name of the
    action, and the entry [action_success] it adds to [info] equals the
    entry [last_action_success] the step had put there. *)
Theorem habitat_step_records_action
    {Env : Type} `{HabitatEnvironment Env} `{NumPy} :
  (forall (t : ObjectNav.Task Env) (a : Z),
      (a < - Z.of_nat ObjectNav.action_space
       \/ Z.of_nat ObjectNav.action_space <= a)%Z ->
      ObjectNav.HabitatTask_step t a
      = (ObjectNav.set_last_action_ind (Some a) t, Raised IndexError))
  /\ (forall (t : ObjectNav.Task Env) (a : Z) (s : string) r,
         py_getitem ObjectNav.action_names a = Returned s ->
         snd (ObjectNav.HabitatTask_step t a) = Returned r ->
         let t' := fst (ObjectNav.HabitatTask_step t a) in
         ObjectNav._last_action_ind t' = Some a
         /\ ObjectNav._last_action t' = Some s
         /\ info r !! "action_success" = info r !! "last_action_success"
         /\ dom (info r)
            = {[ "last_action_success"; "action"; "action_success" ]}).
Proof.
  split.
  - intros t a Ha. unfold ObjectNav.HabitatTask_step. cbn zeta.
    rewrite (py_getitem_out_of_range ObjectNav.action_names a Ha).
    reflexivity.
  - intros t a s r Ha. unfold ObjectNav.HabitatTask_step. cbn zeta.
    rewrite Ha.
    set (t0 := ObjectNav.set_last_action_success None _).
    pose proof (object_step_last_action_ind t0 a) as Hind.
    pose proof (object_step_last_action t0 a) as Hact.
    pose proof (object_step_fst_last_action_success t0 a) as Hlas.
    pose proof (object_step_snd t0 a) as Hsnd.
    destruct (ObjectNav.step t0 a) as [t1 [r1|e]]; cbn [fst snd] in *;
      intros Hr; [|discriminate Hr].
    injection Hr as <-. cbn [info].
    split; [exact Hind|]. split; [exact Hact|].
    rewrite (object_step_info t0 a r1 (eq_sym Hsnd)).
    unfold ObjectNav.last_action_success. rewrite Hlas.
    split.
    + rewrite lookup_insert_eq.
      rewrite lookup_insert_ne by discriminate.
      rewrite lookup_insert_ne by discriminate.
      rewrite lookup_singleton_eq. reflexivity.
    + rewrite !dom_insert_L, dom_singleton_L. set_solver.
Qed.

Lemma habitat_step_records_action_witness :
  ObjectNav.HabitatTask_step Scripted.object_start 9
  = (ObjectNav.set_last_action_ind (Some 9%Z) Scripted.object_start,
     Raised IndexError)
  /\ ObjectNav._last_action
       (fst (ObjectNav.HabitatTask_step Scripted.object_start 0))
     = Some MOVE_AHEAD.
Proof.
  pose proof (@habitat_step_records_action Scripted.Env _ _) as (Hout & Hret).
  split.
  - apply Hout. vm_compute. right. discriminate.
  - assert (Hr : exists r,
               snd (ObjectNav.HabitatTask_step Scripted.object_start 0)
               = Returned r)
      by (vm_compute; eexists; reflexivity).
    destruct Hr as [r Hr].
    exact (proj1 (proj2 (Hret Scripted.object_start 0%Z MOVE_AHEAD r
                           eq_refl Hr))).
Defined.

(** ** Consecutive steps *)

Section ConsecutiveSteps.
Context {Env : Type} `{HabitatEnvironment Env} `{NumPy}.




End ConsecutiveSteps.


